(** * webscraping-colab: the query pipeline of [WebExtractor]

    A shallow embedding of [webscraping-colab-notebook.py].  The methods of
    [WebExtractor] are pure functions over an explicit session record; the
    Python library calls they make ([str] methods, [json.loads],
    [json.dumps]) are modelled below, and the collaborators that live
    outside the interpreter (network, HTML parser, language model, pandas,
    Unicode tables, float conversion) are the fields of [Collaborators]. *)

From Stdlib Require Import List ZArith NArith Lia Bool String Ascii.
From Stdlib Require Decimal DecimalPos DecimalN DecimalZ DecimalFacts.
From Stdlib Require Import Floats.SpecFloat.
Import ListNotations.

Set Implicit Arguments.

(** ** Python [str]

    A [str] is a sequence of Unicode code points. *)

Definition codepoint := N.
Definition str := list codepoint.

(** [lit] turns a literal of the development into a [str]; every literal
    used below is ASCII. *)
Definition lit (s : string) : str := map N_of_ascii (list_ascii_of_string s).

Definition LF : codepoint := 10%N.
Definition CR : codepoint := 13%N.
Definition SPACE : codepoint := 32%N.
Definition QUOTE : codepoint := 34%N.
Definition BACKSLASH : codepoint := 92%N.

Module PyStr.

Local Open Scope N_scope.

Fixpoint eqb (a b : str) : bool :=
  match a, b with
  | [], [] => true
  | x :: a', y :: b' => (x =? y) && eqb a' b'
  | _, _ => false
  end.

(** [s.startswith(p)] *)
Fixpoint startswith (s p : str) {struct p} : bool :=
  match p with
  | [] => true
  | c :: p' =>
      match s with
      | [] => false
      | d :: s' => (c =? d) && startswith s' p'
      end
  end.

(** [s.find(sub)]: lowest index where [sub] occurs, [-1] when it does not. *)
Fixpoint find_from (i : Z) (s sub : str) : Z :=
  if startswith s sub then i
  else match s with
       | [] => (-1)%Z
       | _ :: s' => find_from (i + 1)%Z s' sub
       end.

Definition find (s sub : str) : Z := find_from 0%Z s sub.

(** [s.rfind(sub)]: highest index where [sub] occurs, [-1] when it does
    not. *)
Fixpoint rfind_from (i : Z) (s sub : str) : Z :=
  match s with
  | [] => if startswith [] sub then i else (-1)%Z
  | _ :: s' =>
      let r := rfind_from (i + 1)%Z s' sub in
      if (r =? -1)%Z then (if startswith s sub then i else (-1)%Z) else r
  end.

Definition rfind (s sub : str) : Z := rfind_from 0%Z s sub.

(** [sub in s] *)
Definition contains (s sub : str) : bool := negb (find s sub =? -1)%Z.

(** Slice bounds as Python normalises them: a negative bound counts from
    the end, and both are clipped to [0 .. len]. *)
Definition clip (len i : Z) : Z :=
  let i' := if (i <? 0)%Z then (i + len)%Z else i in
  Z.max 0 (Z.min len i').

(** [s[lo:hi]] *)
Definition slice (s : str) (lo hi : Z) : str :=
  let len := Z.of_nat (List.length s) in
  let a := clip len lo in
  let b := clip len hi in
  firstn (Z.to_nat (b - a)) (skipn (Z.to_nat a) s).

(** [s[:n]] *)
Definition slice_to (s : str) (n : Z) : str := slice s 0 n.

(** [sep.join(parts)] *)
Fixpoint join (sep : str) (parts : list str) : str :=
  match parts with
  | [] => []
  | [p] => p
  | p :: ps => p ++ sep ++ join sep ps
  end.

(** The code points [str.isspace] accepts; [str.strip()] removes these. *)
Definition is_space (c : codepoint) : bool :=
  ((9 <=? c) && (c <=? 13)) || ((28 <=? c) && (c <=? 32))
  || (c =? 133) || (c =? 160) || (c =? 5760)
  || ((8192 <=? c) && (c <=? 8202))
  || (c =? 8232) || (c =? 8233) || (c =? 8239) || (c =? 8287)
  || (c =? 12288).

(** The line boundaries of [str.splitlines]. *)
Definition is_linebreak (c : codepoint) : bool :=
  ((10 <=? c) && (c <=? 13)) || ((28 <=? c) && (c <=? 30))
  || (c =? 133) || (c =? 8232) || (c =? 8233).

Fixpoint lstrip (s : str) : str :=
  match s with
  | [] => []
  | c :: s' => if is_space c then lstrip s' else s
  end.

Definition rstrip (s : str) : str := List.rev (lstrip (List.rev s)).

(** [s.strip()] *)
Definition strip (s : str) : str := rstrip (lstrip s).

(** [s.splitlines()]: [cur] is the line being read, [after_cr] tells that
    the previous code point was a carriage return, so that a line feed
    right after it belongs to the same boundary. *)
Fixpoint splitlines_go (after_cr : bool) (cur s : str) : list str :=
  match s with
  | [] => match cur with [] => [] | _ => [cur] end
  | c :: s' =>
      if after_cr && (c =? LF) then splitlines_go false cur s'
      else if is_linebreak c then cur :: splitlines_go (c =? CR) [] s'
      else splitlines_go false (cur ++ [c]) s'
  end.

Definition splitlines (s : str) : list str := splitlines_go false [] s.

(** [s.split(sep)] for a separator of one code point. *)
Fixpoint split_go (sep : codepoint) (cur s : str) : list str :=
  match s with
  | [] => [cur]
  | c :: s' =>
      if c =? sep then cur :: split_go sep [] s'
      else split_go sep (cur ++ [c]) s'
  end.

Definition split (s : str) (sep : codepoint) : list str := split_go sep [] s.

Definition is_ascii (c : codepoint) : bool := c <? 128.

Definition ascii_tolower (c : codepoint) : codepoint :=
  if (65 <=? c) && (c <=? 90) then c + 32 else c.

(** [s.lower()].  As in CPython, a string of ASCII code points is mapped
    letter by letter; any other string goes through the Unicode case
    tables, which are a collaborator ([unicode_lower]). *)
Definition lower (unicode_lower : str -> str) (s : str) : str :=
  if forallb is_ascii s then map ascii_tolower s else unicode_lower s.

(** Truth value of a [str]: the empty string is false. *)
Definition truthy (s : str) : bool :=
  match s with [] => false | _ => true end.

End PyStr.

(** Truth value of an [Optional[str]] field: [None] and [""] are false. *)
Definition opt_truthy (o : option str) : bool :=
  match o with None => false | Some s => PyStr.truthy s end.

(** ** Python objects

    The objects [json.loads] builds: [None], [bool], [int], [float], [str],
    [list], and [dict] with [str] keys.  A [dict] keeps its keys in
    insertion order; it is an association list whose keys are distinct.
    A [float] is an IEEE 754 value ([spec_float]). *)

#[local] Unset Elimination Schemes.
Inductive pyobj : Type :=
| PNone
| PBool (b : bool)
| PInt (z : Z)
| PFloat (f : spec_float)
| PStr (s : str)
| PList (l : list pyobj)
| PDict (d : list (str * pyobj)).
#[local] Set Elimination Schemes.

(** [d[k] = v] *)
Fixpoint dict_set (d : list (str * pyobj)) (k : str) (v : pyobj)
  : list (str * pyobj) :=
  match d with
  | [] => [(k, v)]
  | (k', v') :: d' =>
      if PyStr.eqb k' k then (k', v) :: d' else (k', v') :: dict_set d' k v
  end.

(** [dict(pairs)] *)
Definition dict_of_pairs (pairs : list (str * pyobj)) : list (str * pyobj) :=
  fold_left (fun d kv => dict_set d (fst kv) (snd kv)) pairs [].

(** Truth value of an object, as [not parsed_data] tests it. *)
Definition obj_truthy (o : pyobj) : bool :=
  match o with
  | PNone => false
  | PBool b => b
  | PInt z => negb (z =? 0)%Z
  | PFloat (S754_zero _) => false
  | PFloat _ => true
  | PStr s => PyStr.truthy s
  | PList [] => false
  | PList _ => true
  | PDict [] => false
  | PDict _ => true
  end.

(** [repr] of an [int]: decimal digits, with a minus sign when negative. *)
Fixpoint digits_of_uint (u : Decimal.uint) : str :=
  match u with
  | Decimal.Nil => []
  | Decimal.D0 u' => 48%N :: digits_of_uint u'
  | Decimal.D1 u' => 49%N :: digits_of_uint u'
  | Decimal.D2 u' => 50%N :: digits_of_uint u'
  | Decimal.D3 u' => 51%N :: digits_of_uint u'
  | Decimal.D4 u' => 52%N :: digits_of_uint u'
  | Decimal.D5 u' => 53%N :: digits_of_uint u'
  | Decimal.D6 u' => 54%N :: digits_of_uint u'
  | Decimal.D7 u' => 55%N :: digits_of_uint u'
  | Decimal.D8 u' => 56%N :: digits_of_uint u'
  | Decimal.D9 u' => 57%N :: digits_of_uint u'
  end.

Definition int_repr (z : Z) : str :=
  match Z.to_int z with
  | Decimal.Pos u => digits_of_uint u
  | Decimal.Neg u => 45%N :: digits_of_uint u
  end.

(** [int(text)] for a text of decimal digits with an optional minus sign. *)
Fixpoint uint_of_digits (s : str) : Decimal.uint :=
  match s with
  | [] => Decimal.Nil
  | c :: s' =>
      let u := uint_of_digits s' in
      match (c - 48)%N with
      | 0%N => Decimal.D0 u
      | 1%N => Decimal.D1 u
      | 2%N => Decimal.D2 u
      | 3%N => Decimal.D3 u
      | 4%N => Decimal.D4 u
      | 5%N => Decimal.D5 u
      | 6%N => Decimal.D6 u
      | 7%N => Decimal.D7 u
      | 8%N => Decimal.D8 u
      | _ => Decimal.D9 u
      end
  end.

Definition int_of_literal (s : str) : Z :=
  match s with
  | c :: s' =>
      if (c =? 45)%N then Z.of_int (Decimal.Neg (uint_of_digits s'))
      else Z.of_int (Decimal.Pos (uint_of_digits s))
  | [] => 0%Z
  end.

(** ** The [json] module

    [loads] and [dumps] with the arguments the notebook passes: the default
    decoder ([strict], constants [NaN], [Infinity], [-Infinity] accepted)
    and the default encoder ([ensure_ascii], [allow_nan], no key sorting),
    with [indent=None] or [indent=2].  The conversion between a float and
    its decimal text is the interpreter's ([float.__repr__] and [float]);
    it is taken as a pair of functions. *)

Module Json.

Section Codec.

Variable float_repr : spec_float -> str.
Variable float_of_literal : str -> spec_float.

Local Open Scope N_scope.

(** *** Encoder *)

Definition hex_digit (n : N) : codepoint :=
  if n <? 10 then 48 + n else 87 + n.

(** [\uXXXX] with four lower-case hexadecimal digits *)
Definition u_escape (c : N) : str :=
  [BACKSLASH; 117; hex_digit ((c / 4096) mod 16); hex_digit ((c / 256) mod 16);
   hex_digit ((c / 16) mod 16); hex_digit (c mod 16)].

Definition escape_char (c : codepoint) : str :=
  if c =? QUOTE then [BACKSLASH; QUOTE]
  else if c =? BACKSLASH then [BACKSLASH; BACKSLASH]
  else if c =? 10 then [BACKSLASH; 110]
  else if c =? 13 then [BACKSLASH; 114]
  else if c =? 9 then [BACKSLASH; 116]
  else if c =? 8 then [BACKSLASH; 98]
  else if c =? 12 then [BACKSLASH; 102]
  else if (32 <=? c) && (c <=? 126) then [c]
  else if c <? 65536 then u_escape c
  else
    let n := c - 65536 in
    u_escape (55296 + (n / 1024) mod 1024) ++ u_escape (56320 + n mod 1024).

(** [encode_basestring_ascii] *)
Definition encode_string (s : str) : str :=
  QUOTE :: flat_map escape_char s ++ [QUOTE].

(** [floatstr] *)
Definition floatstr (f : spec_float) : str :=
  match f with
  | S754_nan => lit "NaN"
  | S754_infinity false => lit "Infinity"
  | S754_infinity true => lit "-Infinity"
  | _ => float_repr f
  end.

(** A line feed and the indentation of [level], when [indent] is set. *)
Definition newline_indent (indent : option nat) (level : nat) : str :=
  match indent with
  | None => []
  | Some k => LF :: repeat SPACE (k * level)
  end.

(** [", "] without indentation; [","] and a fresh line with it. *)
Definition item_separator (indent : option nat) (level : nat) : str :=
  match indent with
  | None => lit ", "
  | Some _ => lit "," ++ newline_indent indent level
  end.

Definition key_separator : str := lit ": ".

Fixpoint encode (indent : option nat) (level : nat) (o : pyobj) : str :=
  match o with
  | PNone => lit "null"
  | PBool true => lit "true"
  | PBool false => lit "false"
  | PInt z => int_repr z
  | PFloat f => floatstr f
  | PStr s => encode_string s
  | PList [] => lit "[]"
  | PList l =>
      lit "[" ++ newline_indent indent (S level)
      ++ PyStr.join (item_separator indent (S level))
           (map (encode indent (S level)) l)
      ++ newline_indent indent level ++ lit "]"
  | PDict [] => lit "{}"
  | PDict d =>
      lit "{" ++ newline_indent indent (S level)
      ++ PyStr.join (item_separator indent (S level))
           (map (fun kv : str * pyobj =>
                   let (k, v) := kv in
                   encode_string k ++ key_separator
                   ++ encode indent (S level) v) d)
      ++ newline_indent indent level ++ lit "}"
  end.

(** [json.dumps(o)] and [json.dumps(o, indent=k)] *)
Definition dumps (o : pyobj) : str := encode None 0 o.
Definition dumps_indent (k : nat) (o : pyobj) : str := encode (Some k) 0 o.

(** *** Decoder *)

Definition is_ws (c : codepoint) : bool :=
  (c =? 32) || (c =? 9) || (c =? 10) || (c =? 13).

Fixpoint skip_ws (s : str) : str :=
  match s with
  | [] => []
  | c :: s' => if is_ws c then skip_ws s' else s
  end.

Definition is_digit (c : codepoint) : bool := (48 <=? c) && (c <=? 57).

(** The longest prefix of digits, and what follows it. *)
Fixpoint span_digits (s : str) : str * str :=
  match s with
  | [] => ([], [])
  | c :: s' =>
      if is_digit c then let (d, r) := span_digits s' in (c :: d, r)
      else ([], s)
  end.

(** The three groups of [NUMBER_RE]: the integer part (an optional minus
    sign, then either a single zero or a non-zero digit and more digits),
    the optional fraction (a dot and at least one digit) and the optional
    exponent ([e] or [E], an optional sign, at least one digit). *)
Definition lex_int (s : str) : option (str * str) :=
  let (sign, s1) :=
    match s with
    | c :: s' => if c =? 45 then ([c], s') else ([], s)
    | [] => ([], [])
    end in
  match s1 with
  | [] => None
  | c :: s2 =>
      if c =? 48 then Some (sign ++ [c], s2)
      else if is_digit c then
        let (d, r) := span_digits s2 in Some (sign ++ c :: d, r)
      else None
  end.

Definition lex_frac (s : str) : str * str :=
  match s with
  | [] => ([], [])
  | c :: s' =>
      if c =? 46 then
        match span_digits s' with
        | ([], _) => ([], s)
        | (d, r) => (c :: d, r)
        end
      else ([], s)
  end.

Definition lex_exp (s : str) : str * str :=
  match s with
  | [] => ([], [])
  | c :: s' =>
      if (c =? 101) || (c =? 69) then
        let (sign, s1) :=
          match s' with
          | d :: s'' => if (d =? 45) || (d =? 43) then ([d], s'') else ([], s')
          | [] => ([], [])
          end in
        match span_digits s1 with
        | ([], _) => ([], s)
        | (d, r) => (c :: sign ++ d, r)
        end
      else ([], s)
  end.

(** [match_number]: an integer literal becomes an [int]; one with a
    fraction or an exponent becomes a [float]. *)
Definition match_number (s : str) : option (pyobj * str) :=
  match lex_int s with
  | None => None
  | Some (i, s1) =>
      let (f, s2) := lex_frac s1 in
      let (e, s3) := lex_exp s2 in
      match f ++ e with
      | [] => Some (PInt (int_of_literal i), s3)
      | _ => Some (PFloat (float_of_literal (i ++ f ++ e)), s3)
      end
  end.

Definition hex_val (c : codepoint) : option N :=
  if is_digit c then Some (c - 48)
  else if (97 <=? c) && (c <=? 102) then Some (c - 87)
  else if (65 <=? c) && (c <=? 70) then Some (c - 55)
  else None.

Definition hex4 (a b c d : codepoint) : option N :=
  match hex_val a, hex_val b, hex_val c, hex_val d with
  | Some x, Some y, Some z, Some w => Some (4096 * x + 256 * y + 16 * z + w)
  | _, _, _, _ => None
  end.

Definition is_high_surrogate (c : N) : bool := (55296 <=? c) && (c <=? 56319).
Definition is_low_surrogate (c : N) : bool := (56320 <=? c) && (c <=? 57343).
Definition join_surrogates (hi lo : N) : codepoint :=
  65536 + (hi - 55296) * 1024 + (lo - 56320).

(** The one-letter escapes of the decoder. *)
Definition unescape (c : codepoint) : option codepoint :=
  if c =? QUOTE then Some QUOTE
  else if c =? BACKSLASH then Some BACKSLASH
  else if c =? 47 then Some 47
  else if c =? 98 then Some 8
  else if c =? 102 then Some 12
  else if c =? 110 then Some 10
  else if c =? 114 then Some 13
  else if c =? 116 then Some 9
  else None.

Definition cons_to (c : codepoint) (r : option (str * str))
  : option (str * str) :=
  match r with
  | Some (x, rest) => Some (c :: x, rest)
  | None => None
  end.

(** [scanstring], entered after the opening quote, in strict mode: the
    decoded string and the text after the closing quote.  [None] is a
    [JSONDecodeError] (unterminated string, control character, bad
    escape). *)
Fixpoint scanstring (s : str) : option (str * str) :=
  match s with
  | [] => None
  | c :: s' =>
      if c =? QUOTE then Some ([], s')
      else if c =? BACKSLASH then
        match s' with
        | [] => None
        | e :: s'' =>
            if e =? 117 then
              match s'' with
              | a :: b :: c1 :: d :: r =>
                  match hex4 a b c1 d with
                  | None => None
                  | Some u1 =>
                      if is_high_surrogate u1 then
                        match r with
                        | x :: y :: a2 :: b2 :: c2 :: d2 :: r2 =>
                            if (x =? BACKSLASH) && (y =? 117) then
                              match hex4 a2 b2 c2 d2 with
                              | None => None
                              | Some u2 =>
                                  if is_low_surrogate u2
                                  then cons_to (join_surrogates u1 u2)
                                               (scanstring r2)
                                  else cons_to u1 (scanstring r)
                              end
                            else cons_to u1 (scanstring r)
                        | _ => cons_to u1 (scanstring r)
                        end
                      else cons_to u1 (scanstring r)
                  end
              | _ => None
              end
            else
              match unescape e with
              | Some x => cons_to x (scanstring s'')
              | None => None
              end
        end
      else if c <=? 31 then None
      else cons_to c (scanstring s')
  end.

(** [scan_once] with [JSONArray] and [JSONObject].  [fuel] bounds the
    number of nested calls; [loads] gives enough of it for the whole text.
    [parse_elems] reads the items of an array up to its closing bracket,
    [parse_members] the members of an object, entered after the opening
    quote of a key. *)
Fixpoint scan_once (fuel : nat) (s : str) {struct fuel}
  : option (pyobj * str) :=
  match fuel with
  | O => None
  | S fuel' =>
      match s with
      | [] => None
      | c :: r =>
          if c =? QUOTE then
            match scanstring r with
            | Some (x, rest) => Some (PStr x, rest)
            | None => None
            end
          else if c =? 123 then
            match skip_ws r with
            | c1 :: r1 =>
                if c1 =? 125 then Some (PDict [], r1)
                else if c1 =? QUOTE then
                  match parse_members fuel' r1 with
                  | Some (pairs, rest) => Some (PDict (dict_of_pairs pairs), rest)
                  | None => None
                  end
                else None
            | [] => None
            end
          else if c =? 91 then
            match skip_ws r with
            | c1 :: r1 =>
                if c1 =? 93 then Some (PList [], r1)
                else
                  match parse_elems fuel' (c1 :: r1) with
                  | Some (l, rest) => Some (PList l, rest)
                  | None => None
                  end
            | [] => None
            end
          else if PyStr.startswith s (lit "null") then Some (PNone, skipn 4 s)
          else if PyStr.startswith s (lit "true")
               then Some (PBool true, skipn 4 s)
          else if PyStr.startswith s (lit "false")
               then Some (PBool false, skipn 5 s)
          else
            match match_number s with
            | Some res => Some res
            | None =>
                if PyStr.startswith s (lit "NaN")
                then Some (PFloat S754_nan, skipn 3 s)
                else if PyStr.startswith s (lit "Infinity")
                then Some (PFloat (S754_infinity false), skipn 8 s)
                else if PyStr.startswith s (lit "-Infinity")
                then Some (PFloat (S754_infinity true), skipn 9 s)
                else None
            end
      end
  end
with parse_elems (fuel : nat) (s : str) {struct fuel}
  : option (list pyobj * str) :=
  match fuel with
  | O => None
  | S fuel' =>
      match scan_once fuel' s with
      | None => None
      | Some (v, r) =>
          match skip_ws r with
          | [] => None
          | c :: r' =>
              if c =? 93 then Some ([v], r')
              else if c =? 44 then
                match parse_elems fuel' (skip_ws r') with
                | Some (l, rest) => Some (v :: l, rest)
                | None => None
                end
              else None
          end
      end
  end
with parse_members (fuel : nat) (s : str) {struct fuel}
  : option (list (str * pyobj) * str) :=
  match fuel with
  | O => None
  | S fuel' =>
      match scanstring s with
      | None => None
      | Some (key, r) =>
          match skip_ws r with
          | [] => None
          | c :: r1 =>
              if c =? 58 then
                match scan_once fuel' (skip_ws r1) with
                | None => None
                | Some (v, r2) =>
                    match skip_ws r2 with
                    | [] => None
                    | c2 :: r3 =>
                        if c2 =? 125 then Some ([(key, v)], r3)
                        else if c2 =? 44 then
                          match skip_ws r3 with
                          | [] => None
                          | c3 :: r4 =>
                              if c3 =? QUOTE then
                                match parse_members fuel' r4 with
                                | Some (ps, rest) => Some ((key, v) :: ps, rest)
                                | None => None
                                end
                              else None
                          end
                        else None
                    end
                end
              else None
          end
      end
  end.

(** [json.loads(s)] for a [str]: [None] is a [JSONDecodeError]. *)
Definition loads (s : str) : option pyobj :=
  if PyStr.startswith s [65279] then None
  else
    match scan_once (2 * List.length s + 2) (skip_ws s) with
    | None => None
    | Some (v, r) =>
        match skip_ws r with
        | [] => Some v
        | _ :: _ => None
        end
    end.

(** *** Well-formed objects

    The objects the decoder builds from text, and what reading back the
    encoder's output means. *)

(** What may follow a value in the encoder's output: nothing, a comma, a
    closing bracket or brace, or a line feed. *)
Definition delimited (rest : str) : bool :=
  match rest with
  | [] => true
  | c :: _ => (c =? 44) || (c =? 93) || (c =? 125) || (c =? 10)
  end.

Definition starts_low (s : str) : bool :=
  match s with
  | [] => false
  | d :: _ => is_low_surrogate d
  end.

(** A well-formed [str]: code points below [0x110000], and no high
    surrogate directly followed by a low one (the decoder joins such a
    pair into one code point above [0xFFFF]). *)
Fixpoint str_ok (s : str) : bool :=
  match s with
  | [] => true
  | c :: s' =>
      (c <? 1114112) && negb (is_high_surrogate c && starts_low s')
      && str_ok s'
  end.

(** The text of a finite float reads back as that float, which is what
    [float.__repr__] and [float] guarantee. *)
Definition float_text_ok (f : spec_float) : Prop :=
  match f with
  | S754_nan | S754_infinity _ => True
  | _ =>
      forall rest, delimited rest = true ->
        match_number (float_repr f ++ rest) = Some (PFloat f, rest)
  end.

(** Objects as [loads] builds them: well-formed strings, distinct keys in
    a [dict], floats whose text reads back. *)
#[local] Unset Elimination Schemes.
Inductive well_formed : pyobj -> Prop :=
| WfNone : well_formed PNone
| WfBool (b : bool) : well_formed (PBool b)
| WfInt (z : Z) : well_formed (PInt z)
| WfFloat (f : spec_float) : float_text_ok f -> well_formed (PFloat f)
| WfStr (s : str) : str_ok s = true -> well_formed (PStr s)
| WfList (l : list pyobj) : Forall well_formed l -> well_formed (PList l)
| WfDict (d : list (str * pyobj)) :
    NoDup (map fst d) ->
    Forall (fun kv => str_ok (fst kv) = true /\ well_formed (snd kv)) d ->
    well_formed (PDict d).
#[local] Set Elimination Schemes.

(** One member of an object, as the encoder writes it. *)
Definition member (indent : option nat) (level : nat) (kv : str * pyobj)
  : str :=
  encode_string (fst kv) ++ key_separator ++ encode indent level (snd kv).

(** The members of an object after the opening quote of the first key. *)
Fixpoint members_text (indent : option nat) (level : nat)
  (d : list (str * pyobj)) : str :=
  match d with
  | [] => []
  | (k, v) :: d' =>
      flat_map escape_char k ++ QUOTE :: key_separator
      ++ encode indent level v
      ++ match d' with
         | [] => []
         | _ :: _ =>
             item_separator indent level
             ++ QUOTE :: members_text indent level d'
         end
  end.

(** [o] reads back from its text at every indentation, before every
    delimiter, with fuel for twice the text. *)
Definition reads_back (o : pyobj) : Prop :=
  forall indent level fuel rest,
    delimited rest = true ->
    (2 * List.length (encode indent level o) + 1 <= fuel)%nat ->
    scan_once fuel (encode indent level o ++ rest) = Some (o, rest).

End Codec.

End Json.

(** ** Auxiliary notions for the round trip *)

(** The decimal digits of a positive number start with a non-zero digit. *)
Definition leading_nonzero (u : Decimal.uint) : Prop :=
  match u with
  | Decimal.Nil | Decimal.D0 _ => False
  | _ => True
  end.

(** The two halves of the surrogate pair of a code point above [0xFFFF]. *)
Definition high_part (c : codepoint) : N :=
  (55296 + ((c - 65536) / 1024) mod 1024)%N.
Definition low_part (c : codepoint) : N := (56320 + (c - 65536) mod 1024)%N.

(** How the encoder writes one code point. *)
Inductive escape_view (c : codepoint) : str -> Prop :=
| EscShort (e : codepoint) :
    e <> 117%N -> Json.unescape e = Some c -> escape_view c [BACKSLASH; e]
| EscPlain :
    c <> QUOTE -> c <> BACKSLASH -> (32 <= c)%N -> escape_view c [c]
| EscBmp :
    (c < 65536)%N -> escape_view c (Json.u_escape c)
| EscAstral :
    (65536 <= c)%N ->
    escape_view c (Json.u_escape (high_part c) ++ Json.u_escape (low_part c)).

(** No escaped low surrogate comes first in [r]. *)
Definition no_low_ahead (r : str) : Prop :=
  forall a b c d r',
    r = BACKSLASH :: 117%N :: a :: b :: c :: d :: r' ->
    exists u, Json.hex4 a b c d = Some u /\ Json.is_low_surrogate u = false.

(** A text that starts like a number: a minus sign or a digit. *)
Definition number_head (s : str) : Prop :=
  match s with
  | [] => False
  | c :: _ => (c = 45 \/ 48 <= c <= 57)%N
  end.

(** The first code point of an encoded value is no white space, no closing
    bracket and no byte-order mark. *)
Definition value_head (s : str) : Prop :=
  match s with
  | [] => False
  | c :: _ => Json.is_ws c = false /\ c <> 93%N /\ c <> 125%N /\ c <> 65279%N
  end.

(** A Unicode scalar value: a code point that is not a surrogate. *)
Definition scalar (c : codepoint) : bool :=
  ((c <? 1114112) && negb ((55296 <=? c) && (c <=? 57343)))%N.

(** A text of scalar values, which is what decoding bytes gives. *)
Definition scalar_text (s : str) : Prop := Forall (fun c => scalar c = true) s.

(** [r] is what is left of [s] after a prefix. *)
Definition tail_of (r s : str) : Prop := exists p, s = p ++ r.

(** An escaped low surrogate comes first in [s]. *)
Definition low_escape_first (s : str) : Prop :=
  exists a b c d r' u,
    s = BACKSLASH :: 117%N :: a :: b :: c :: d :: r'
    /\ Json.hex4 a b c d = Some u /\ Json.is_low_surrogate u = true.

(** What [scanstring] guarantees on [s]. *)
Definition scanned (s : str) : Prop :=
  forall x r,
    Json.scanstring s = Some (x, r) ->
    Json.str_ok x = true /\ tail_of r s
    /\ (Json.starts_low x = true -> low_escape_first s).

(** ** Exceptions and collaborators *)

Inductive exn : Type :=
| HTTPError          (* [raise_for_status] on a non-success status *)
| ConnectionError    (* [requests.get] could not reach the host *)
| GenerationError    (* the text-generation pipeline failed *)
| TypeError          (* iterating an object that is not iterable *)
| AttributeError     (* [.items()] on an object that is not a [dict] *)
| ValueError.        (* [pd.DataFrame] refused its argument *)

Inductive outcome (A : Type) : Type :=
| Returns (a : A)
| Raises (e : exn).

Arguments Returns {A} a.
Arguments Raises {A} e.

(** What the notebook calls and does not define. *)
Record Collaborators : Type := {
  (** [str.lower] on a string that is not ASCII *)
  unicode_lower : str -> str;
  (** [float.__repr__] of a finite float *)
  float_repr : spec_float -> str;
  (** [float(text)] on a JSON number with a fraction or an exponent *)
  float_of_literal : str -> spec_float;
  (** [str(o)] of a [list] or a [dict] *)
  container_repr : pyobj -> str;
  (** [requests.get(url)], [raise_for_status()], [.text] *)
  http_get : str -> outcome str;
  (** [BeautifulSoup(content, 'html.parser')] with every [script] and
      [style] element decomposed, then [get_text()] *)
  soup_get_text : str -> str;
  (** [model(prompt, max_length=500, num_return_sequences=1)[0]['generated_text']] *)
  generate : str -> outcome str;
  (** [pd.DataFrame(parsed_data).to_csv(index=False)] *)
  dataframe_to_csv : pyobj -> outcome str
}.

(** ** [WebExtractor] *)

(** The three session fields of a [WebExtractor]; [__init__] sets them to
    [None]. *)
Record WebExtractor : Type := {
  current_url : option str;
  current_content : option str;
  preprocessed_content : option str
}.

Definition init : WebExtractor :=
  {| current_url := None; current_content := None;
     preprocessed_content := None |}.

Definition msg_provide_url : str :=
  lit "Please provide a URL first before asking for information.".

Definition msg_could_not_extract : str :=
  lit "Error: Could not extract JSON data from the model's response.".

Definition msg_no_csv_data : str := lit "No data to convert to CSV.".

(** [f"Error: Invalid JSON data. Raw data: {data[:500]}..."] *)
Definition msg_invalid_json (data : str) : str :=
  lit "Error: Invalid JSON data. Raw data: " ++ PyStr.slice_to data 500
  ++ lit "...".

(** The acknowledgment of [fetch_url]. *)
Definition msg_fetched (url : str) : str :=
  lit "I've fetched and preprocessed the content from " ++ url
  ++ lit ". What would you like to know about it?".

(** The prompt of [_extract_info]: the lines of the literal keep the
    indentation they have in the source. *)
Definition prompt_head : str :=
  lit "Based on the following webpage content and the user's request, extract the relevant information."
  ++ [LF] ++ lit "        Always present the data as a JSON array of objects."
  ++ [LF] ++ lit "        Webpage content: ".

Definition build_prompt (content query : str) : str :=
  prompt_head ++ PyStr.slice_to content 500 ++ lit "..."
  ++ [LF] ++ lit "        Human: " ++ query
  ++ [LF] ++ lit "        AI:".

Definition fence_json_open : str := lit "```json" ++ [LF].
Definition fence_csv_open : str := lit "```csv" ++ [LF].
Definition fence_close : str := [LF] ++ lit "```".

(** A list comprehension whose body may raise: the first failure ends it. *)
Fixpoint comprehension {A B : Type} (f : A -> outcome B) (l : list A)
  : outcome (list B) :=
  match l with
  | [] => Returns []
  | x :: l' =>
      match f x with
      | Raises e => Raises e
      | Returns y =>
          match comprehension f l' with
          | Raises e => Raises e
          | Returns ys => Returns (y :: ys)
          end
      end
  end.

(** [for item in o]: the items of a [list], the keys of a [dict], the
    characters of a [str]; anything else is not iterable. *)
Definition iterate (o : pyobj) : outcome (list pyobj) :=
  match o with
  | PList l => Returns l
  | PDict d => Returns (map (fun kv : str * pyobj => PStr (fst kv)) d)
  | PStr s => Returns (map (fun c => PStr [c]) s)
  | _ => Raises TypeError
  end.

Section Methods.

Variable E : Collaborators.

Definition loads : str -> option pyobj := Json.loads (float_of_literal E).
Definition dumps : pyobj -> str := Json.dumps (float_repr E).
Definition dumps_indent : nat -> pyobj -> str :=
  Json.dumps_indent (float_repr E).

(** [str(o)], as an f-string field renders it. *)
Definition py_str (o : pyobj) : str :=
  match o with
  | PNone => lit "None"
  | PBool true => lit "True"
  | PBool false => lit "False"
  | PInt z => int_repr z
  | PFloat S754_nan => lit "nan"
  | PFloat (S754_infinity false) => lit "inf"
  | PFloat (S754_infinity true) => lit "-inf"
  | PFloat f => float_repr E f
  | PStr s => s
  | PList _ | PDict _ => container_repr E o
  end.

(** [BaseScraper.fetch_content] *)
Definition fetch_content (url : str) : outcome str := http_get E url.

(** [WebExtractor._preprocess_content] *)
Definition _preprocess_content (content : str) : str :=
  let text := soup_get_text E content in
  let lines := map PyStr.strip (PyStr.splitlines text) in
  let chunks :=
    flat_map (fun line => map PyStr.strip (PyStr.split line SPACE)) lines in
  PyStr.join [LF] (filter PyStr.truthy chunks).

(** [WebExtractor.fetch_url]: the three assignments in the order of the
    source; an exception of the fetch leaves the session as it is at that
    point. *)
Definition fetch_url (self : WebExtractor) (url : str)
  : outcome str * WebExtractor :=
  let self1 :=
    {| current_url := Some url;
       current_content := current_content self;
       preprocessed_content := preprocessed_content self |} in
  match fetch_content url with
  | Raises e => (Raises e, self1)
  | Returns text =>
      let self2 :=
        {| current_url := current_url self1;
           current_content := Some text;
           preprocessed_content := preprocessed_content self1 |} in
      let self3 :=
        {| current_url := current_url self2;
           current_content := current_content self2;
           preprocessed_content := Some (_preprocess_content text) |} in
      (Returns (msg_fetched url), self3)
  end.

(** [WebExtractor._format_as_json] *)
Definition _format_as_json (data : str) : outcome str :=
  match loads data with
  | Some parsed_data =>
      Returns (fence_json_open ++ dumps_indent 2 parsed_data ++ fence_close)
  | None => Returns (msg_invalid_json data)
  end.

(** [WebExtractor._format_as_csv] *)
Definition _format_as_csv (data : str) : outcome str :=
  match loads data with
  | Some parsed_data =>
      if negb (obj_truthy parsed_data) then Returns msg_no_csv_data
      else
        match dataframe_to_csv E parsed_data with
        | Raises e => Raises e
        | Returns csv => Returns (fence_csv_open ++ csv ++ fence_close)
        end
  | None => Returns (msg_invalid_json data)
  end.

(** One record of the text rendering: [", ".join(f"{k}: {v}" ...)]. *)
Definition text_record (item : pyobj) : outcome str :=
  match item with
  | PDict d =>
      Returns (PyStr.join (lit ", ")
                 (map (fun kv : str * pyobj =>
                         fst kv ++ lit ": " ++ py_str (snd kv)) d))
  | _ => Raises AttributeError
  end.

(** [WebExtractor._format_as_text] *)
Definition _format_as_text (data : str) : outcome str :=
  match loads data with
  | Some parsed_data =>
      match iterate parsed_data with
      | Raises e => Raises e
      | Returns items =>
          match comprehension text_record items with
          | Raises e => Raises e
          | Returns records => Returns (PyStr.join [LF] records)
          end
      end
  | None => Returns data
  end.

Definition lower (s : str) : str := PyStr.lower (unicode_lower E) s.

(** [WebExtractor._format_result] *)
Definition _format_result (extracted_data query : str) : outcome str :=
  if PyStr.contains (lower query) (lit "json") then
    _format_as_json extracted_data
  else if PyStr.contains (lower query) (lit "csv") then
    _format_as_csv extracted_data
  else _format_as_text extracted_data.

(** The part of [_extract_info] after the model has answered. *)
Definition parse_response (response query : str) : outcome str :=
  let json_start := PyStr.find response (lit "[") in
  let json_end := (PyStr.rfind response (lit "]") + 1)%Z in
  if negb (json_start =? -1)%Z && negb (json_end =? -1)%Z then
    let json_str := PyStr.slice response json_start json_end in
    match loads json_str with
    | Some extracted_data => _format_result (dumps extracted_data) query
    | None => Returns (msg_invalid_json json_str)
    end
  else Returns msg_could_not_extract.

(** [WebExtractor._extract_info] *)
Definition _extract_info (self : WebExtractor) (query : str) : outcome str :=
  match preprocessed_content self with
  | None => Returns msg_provide_url
  | Some content =>
      if negb (PyStr.truthy content) then Returns msg_provide_url
      else
        match generate E (build_prompt content query) with
        | Raises e => Raises e
        | Returns response => parse_response response query
        end
  end.

(** [WebExtractor.process_query] *)
Definition process_query (self : WebExtractor) (user_input : str)
  : outcome str * WebExtractor :=
  if PyStr.startswith (lower user_input) (lit "http") then
    fetch_url self user_input
  else if negb (opt_truthy (current_content self)) then
    (Returns msg_provide_url, self)
  else (_extract_info self user_input, self).

End Methods.

(** ** [JSONScraper] *)

Module JSONScraper.

(** [{"error": "Invalid JSON content"}] *)
Definition error_record : pyobj :=
  PDict [(lit "error", PStr (lit "Invalid JSON content"))].

(** [JSONScraper.extract] *)
Definition extract (E : Collaborators) (content : str) : pyobj :=
  match loads E content with
  | Some parsed => parsed
  | None => error_record
  end.

End JSONScraper.

(** ** Stand-in collaborators

    Concrete collaborators on which the methods can be run.  [html_text]
    follows what [html.parser] and [get_text] do on simple documents: text,
    the references [&amp;], [&lt;], [&gt;] and [&quot;], tags closed by
    [>], and [script] and [style] elements, whose content is dropped. *)

Inductive html_mode : Type :=
| InText      (* between tags *)
| InTag       (* inside a tag, up to its [>] *)
| InRawTag    (* inside the opening tag of a [script] or [style] element *)
| InRaw.      (* inside the content of a [script] or [style] element *)

Definition is_ascii_letter (c : codepoint) : bool :=
  ((65 <=? c) && (c <=? 90) || (97 <=? c) && (c <=? 122))%N.

Definition tag_follows (r : str) : bool :=
  match r with
  | c :: r' =>
      is_ascii_letter c
      || ((c =? 47)%N && match r' with d :: _ => is_ascii_letter d | [] => false end)
  | [] => false
  end.

Definition raw_name_follows (r : str) : bool :=
  let l := map PyStr.ascii_tolower r in
  PyStr.startswith l (lit "script") || PyStr.startswith l (lit "style").

Definition raw_close_follows (r : str) : bool :=
  let l := map PyStr.ascii_tolower r in
  PyStr.startswith l (lit "/script") || PyStr.startswith l (lit "/style").

(** The character a reference stands for, and the length of its name. *)
Definition charref (r : str) : option (codepoint * nat) :=
  if PyStr.startswith r (lit "amp;") then Some (38%N, 4)
  else if PyStr.startswith r (lit "lt;") then Some (60%N, 3)
  else if PyStr.startswith r (lit "gt;") then Some (62%N, 3)
  else if PyStr.startswith r (lit "quot;") then Some (QUOTE, 5)
  else None.

(** [skip] counts code points still to drop (the name of a reference). *)
Fixpoint html_go (m : html_mode) (skip : nat) (s : str) : str :=
  match s with
  | [] => []
  | c :: r =>
      match skip with
      | S k => html_go m k r
      | O =>
          match m with
          | InText =>
              if (c =? 60)%N then
                if raw_name_follows r then html_go InRawTag 0 r
                else if tag_follows r then html_go InTag 0 r
                else c :: html_go InText 0 r
              else if (c =? 38)%N then
                match charref r with
                | Some (d, n) => d :: html_go InText n r
                | None => c :: html_go InText 0 r
                end
              else c :: html_go InText 0 r
          | InTag => if (c =? 62)%N then html_go InText 0 r else html_go InTag 0 r
          | InRawTag => if (c =? 62)%N then html_go InRaw 0 r else html_go InRawTag 0 r
          | InRaw =>
              if (c =? 60)%N && raw_close_follows r then html_go InTag 0 r
              else html_go InRaw 0 r
          end
      end
  end.

Definition html_text (content : str) : str := html_go InText 0 content.

Definition example_url : str := lit "https://example.com".

Definition example_page : str :=
  lit "<html><head><title>Example</title><style>p {color: red}</style></head>"
  ++ [LF] ++ lit "<body><p>Example   Domain</p>" ++ [LF]
  ++ lit "<script>var x = 1;</script><p>More &amp; more</p></body></html>".

(** A completion with a JSON array in the middle of free text. *)
Definition example_completion : str :=
  lit "Sure: [{" ++ [QUOTE] ++ lit "a" ++ [QUOTE] ++ lit ": 1}] done".

(** One reachable page ([example_url]) and a model that always answers
    [example_completion]; no float and no non-ASCII text is involved, so
    the float and case-table fields are never consulted on the runs
    below. *)
Definition stand_in : Collaborators :=
  {| unicode_lower := fun s => s;
     float_repr := fun _ => lit "0.0";
     float_of_literal := fun _ => S754_zero false;
     container_repr := Json.dumps (fun _ => lit "0.0");
     http_get := fun url =>
       if PyStr.eqb url example_url then Returns example_page
       else Raises ConnectionError;
     soup_get_text := html_text;
     generate := fun _ => Returns example_completion;
     dataframe_to_csv := fun _ => Raises ValueError |}.

(** A session: the calls of [process_query] on one extractor, in order,
    with the answer of each. *)
Fixpoint run_session (E : Collaborators) (self : WebExtractor)
  (inputs : list str) : list (outcome str) * WebExtractor :=
  match inputs with
  | [] => ([], self)
  | q :: inputs' =>
      let (answer, self') := process_query E self q in
      let (answers, self'') := run_session E self' inputs' in
      (answer :: answers, self'')
  end.

(** An input the router takes for a URL. *)
Definition is_url (E : Collaborators) (user_input : str) : bool :=
  PyStr.startswith (lower E user_input) (lit "http").

(** A page that is markup only: its preprocessed text is empty. *)
Definition blank_page_world : Collaborators :=
  {| unicode_lower := unicode_lower stand_in;
     float_repr := float_repr stand_in;
     float_of_literal := float_of_literal stand_in;
     container_repr := container_repr stand_in;
     http_get := fun _ => Returns (lit "<html><script>x()</script></html>");
     soup_get_text := html_text;
     generate := generate stand_in;
     dataframe_to_csv := dataframe_to_csv stand_in |}.

(** An input of 600 code points that is not JSON. *)
Definition long_garbage : str := repeat 120%N 600.

(** The steps of [_preprocess_content] after the markup is stripped. *)
Definition flatten (text : str) : str :=
  let lines := map PyStr.strip (PyStr.splitlines text) in
  let chunks :=
    flat_map (fun line => map PyStr.strip (PyStr.split line SPACE)) lines in
  PyStr.join [LF] (filter PyStr.truthy chunks).

Definition no_linebreak (s : str) : Prop :=
  Forall (fun c => PyStr.is_linebreak c = false) s.

Definition no_space (s : str) : Prop := Forall (fun c => c <> SPACE) s.

(** A chunk as [flatten] emits them: not empty, on one line, without a
    space, and with no white space at either end. *)
Definition settled (c : str) : Prop :=
  c <> [] /\ no_linebreak c /\ no_space c /\ PyStr.strip c = c.

(** A string whose first code point is not white space. *)
Definition left_clean (s : str) : Prop :=
  match s with [] => True | c :: _ => PyStr.is_space c = false end.

(** A page that shows markup as text, through character references. *)
Definition escaped_markup_page : str :=
  lit "<p>&lt;b&gt;bold&lt;/b&gt; text</p>".

(** The text inside a fenced block labelled [json]: what is between the
    opening line and the closing fence, when both are there. *)
Definition fence_body (out : str) : option str :=
  let inner := skipn (List.length fence_json_open) out in
  let n := List.length inner - List.length fence_close in
  if PyStr.startswith out fence_json_open
     && PyStr.eqb (skipn n inner) fence_close
  then Some (firstn n inner)
  else None.

(** The structured result of the CSV scenario of the specification: two
    records with the keys [name] and [val]. *)
Definition example_rows : pyobj :=
  PList [PDict [(lit "name", PStr (lit "x")); (lit "val", PInt 1)];
         PDict [(lit "name", PStr (lit "y")); (lit "val", PInt 2)]].

(** ** Notions for the properties of the session and of the pipeline *)

(** What holds of the session fields between two calls: either no page
    has been loaded, or a URL is recorded, the content is the body some
    fetch returned, and the preprocessed text is made from that content. *)
Definition session_consistent (E : Collaborators) (self : WebExtractor)
  : Prop :=
  (current_content self = None /\ preprocessed_content self = None)
  \/ exists url fetched text,
       current_url self = Some url
       /\ http_get E fetched = Returns text
       /\ current_content self = Some text
       /\ preprocessed_content self = Some (_preprocess_content E text).

(** The three renderings of [_format_as_json], [_format_as_csv] and
    [_format_as_text] on an object that is already parsed: the [try]
    bodies of the formatters after their [json.loads], selected as
    [_format_result] selects them. *)
Definition render_parsed (E : Collaborators) (parsed_data : pyobj)
  (query : str) : outcome str :=
  if PyStr.contains (lower E query) (lit "json") then
    Returns (fence_json_open ++ dumps_indent E 2 parsed_data ++ fence_close)
  else if PyStr.contains (lower E query) (lit "csv") then
    if negb (obj_truthy parsed_data) then Returns msg_no_csv_data
    else
      match dataframe_to_csv E parsed_data with
      | Raises e => Raises e
      | Returns csv => Returns (fence_csv_open ++ csv ++ fence_close)
      end
  else
    match iterate parsed_data with
    | Raises e => Raises e
    | Returns items =>
        match comprehension (text_record E) items with
        | Raises e => Raises e
        | Returns records => Returns (PyStr.join [LF] records)
        end
    end.

(** The code points of a string that are not white space, in order. *)
Definition visible (s : str) : str :=
  filter (fun c => negb (PyStr.is_space c)) s.

(** The interpreter's float conversion reads back what it writes. *)
Definition float_contract (E : Collaborators) : Prop :=
  forall t,
    Json.float_text_ok (float_repr E) (float_of_literal E)
      (float_of_literal E t).

(** An ASCII letter given in either case. *)
Definition letter (lower_case : codepoint) (c : codepoint) : Prop :=
  c = lower_case \/ c = (lower_case - 32)%N.

(** * Properties *)

Unset Implicit Arguments.

(** ** Strings *)

Lemma firstn_min_length (A : Type) (l : list A) (n : nat) :
  firstn (Nat.min (List.length l) n) l = firstn n l.
Proof.
  destruct (Nat.le_gt_cases n (List.length l)) as [H | H].
  - now rewrite Nat.min_r.
  - rewrite Nat.min_l by lia.
    rewrite firstn_all. symmetry. apply firstn_all2. lia.
Qed.

Lemma clip_zero (len : Z) : (0 <= len)%Z -> PyStr.clip len 0 = 0%Z.
Proof. intros H. unfold PyStr.clip. simpl. lia. Qed.

Lemma clip_nonneg (len i : Z) : (0 <= PyStr.clip len i)%Z.
Proof. unfold PyStr.clip. lia. Qed.

(** [s[:n]] is the first [n] code points of [s], all of [s] when it is
    shorter. *)
Lemma slice_to_firstn (s : str) (n : nat) :
  PyStr.slice_to s (Z.of_nat n) = firstn n s.
Proof.
  unfold PyStr.slice_to, PyStr.slice.
  rewrite clip_zero by lia. simpl skipn.
  unfold PyStr.clip.
  destruct (Z.of_nat n <? 0)%Z eqn:Hn; [apply Z.ltb_lt in Hn; lia |].
  replace (Z.to_nat (Z.max 0 (Z.min (Z.of_nat (List.length s)) (Z.of_nat n)) - 0))
    with (Nat.min (List.length s) n) by lia.
  apply firstn_min_length.
Qed.

Lemma slice_to_500 (s : str) : PyStr.slice_to s 500 = firstn 500 s.
Proof. exact (slice_to_firstn s 500). Qed.

(** A slice that ends at index [0] is empty. *)
Lemma slice_end_zero (s : str) (lo : Z) : PyStr.slice s lo 0 = [].
Proof.
  unfold PyStr.slice.
  rewrite clip_zero by lia.
  pose proof (clip_nonneg (Z.of_nat (List.length s)) lo) as H.
  replace (Z.to_nat (0 - PyStr.clip (Z.of_nat (List.length s)) lo)) with 0%nat
    by lia.
  reflexivity.
Qed.

Lemma eqb_refl (s : str) : PyStr.eqb s s = true.
Proof.
  induction s as [| c s IH]; simpl; [reflexivity |].
  now rewrite N.eqb_refl.
Qed.

(** ** The router and the fetch *)

Lemma process_query_url (E : Collaborators) (self : WebExtractor)
  (user_input : str) :
  is_url E user_input = true ->
  process_query E self user_input = fetch_url E self user_input.
Proof.
  unfold is_url, process_query. intros H. now rewrite H.
Qed.

Lemma fetch_url_success (E : Collaborators) (self : WebExtractor)
  (url text : str) :
  http_get E url = Returns text ->
  fetch_url E self url
  = (Returns (msg_fetched url),
     {| current_url := Some url;
        current_content := Some text;
        preprocessed_content := Some (_preprocess_content E text) |}).
Proof.
  intros H. unfold fetch_url, fetch_content. now rewrite H.
Qed.

Lemma fetch_url_failure (E : Collaborators) (self : WebExtractor)
  (url : str) (e : exn) :
  http_get E url = Raises e ->
  fetch_url E self url
  = (Raises e,
     {| current_url := Some url;
        current_content := current_content self;
        preprocessed_content := preprocessed_content self |}).
Proof.
  intros H. unfold fetch_url, fetch_content. now rewrite H.
Qed.

Lemma process_query_no_content (E : Collaborators) (self : WebExtractor)
  (user_input : str) :
  is_url E user_input = false ->
  opt_truthy (current_content self) = false ->
  process_query E self user_input = (Returns msg_provide_url, self).
Proof.
  unfold is_url, process_query. intros H1 H2. now rewrite H1, H2.
Qed.

Lemma extract_info_no_text (E : Collaborators) (self : WebExtractor)
  (query : str) :
  opt_truthy (preprocessed_content self) = false ->
  _extract_info E self query = Returns msg_provide_url.
Proof.
  unfold _extract_info, opt_truthy.
  destruct (preprocessed_content self) as [content |]; [| reflexivity].
  intros H. now rewrite H.
Qed.

(** A non-URL input is answered with the "provide a URL" message as soon
    as one of the two content fields is false ([None] or empty). *)
Lemma process_query_not_loaded (E : Collaborators) (self : WebExtractor)
  (user_input : str) :
  is_url E user_input = false ->
  opt_truthy (current_content self) = false
  \/ opt_truthy (preprocessed_content self) = false ->
  process_query E self user_input = (Returns msg_provide_url, self).
Proof.
  intros Hu H.
  destruct (opt_truthy (current_content self)) eqn:Hc.
  - destruct H as [H | H]; [discriminate |].
    unfold process_query. unfold is_url in Hu. rewrite Hu, Hc. simpl.
    now rewrite extract_info_no_text.
  - now apply process_query_no_content.
Qed.

Lemma run_session_not_loaded (E : Collaborators) (self : WebExtractor)
  (inputs : list str) :
  opt_truthy (current_content self) = false
  \/ opt_truthy (preprocessed_content self) = false ->
  Forall (fun q => is_url E q = false) inputs ->
  run_session E self inputs
  = (map (fun _ => Returns msg_provide_url) inputs, self).
Proof.
  intros H Hall. induction Hall as [| q inputs Hq _ IH]; [reflexivity |].
  simpl. rewrite (process_query_not_loaded E self q Hq H).
  now rewrite IH.
Qed.

(** On an ASCII input the test of the router looks at the first four
    letters only, in either case. *)
Lemma ascii_http_prefix_is_url (E : Collaborators) (c1 c2 c3 c4 : codepoint)
  (rest : str) :
  forallb PyStr.is_ascii (c1 :: c2 :: c3 :: c4 :: rest) = true ->
  PyStr.ascii_tolower c1 = 104%N -> PyStr.ascii_tolower c2 = 116%N ->
  PyStr.ascii_tolower c3 = 116%N -> PyStr.ascii_tolower c4 = 112%N ->
  is_url E (c1 :: c2 :: c3 :: c4 :: rest) = true.
Proof.
  intros Hascii H1 H2 H3 H4.
  unfold is_url, lower, PyStr.lower. rewrite Hascii.
  cbn [map]. rewrite H1, H2, H3, H4. reflexivity.
Qed.

(** C5.  An input that starts with [http], in any letter case, is routed to
    the fetch whatever the session holds: [process_query] is [fetch_url] on
    it, and when the page is retrieved the three session fields are set
    and the acknowledgment names the URL. *)
Theorem url_input_always_fetches (E : Collaborators) (self : WebExtractor)
  (user_input : str) :
  PyStr.startswith (lower E user_input) (lit "http") = true ->
  process_query E self user_input = fetch_url E self user_input
  /\ forall text,
       http_get E user_input = Returns text ->
       process_query E self user_input
       = (Returns (msg_fetched user_input),
          {| current_url := Some user_input;
             current_content := Some text;
             preprocessed_content := Some (_preprocess_content E text) |}).
Proof.
  intros H.
  assert (Hq : process_query E self user_input = fetch_url E self user_input)
    by now apply process_query_url.
  split; [exact Hq |].
  intros text Ht. rewrite Hq. now apply fetch_url_success.
Qed.

Lemma url_input_always_fetches_witness :
  PyStr.startswith (lower stand_in (lit "HTTPS://example.com")) (lit "http")
  = true
  /\ process_query stand_in init (lit "HTTPS://example.com")
     = fetch_url stand_in init (lit "HTTPS://example.com").
Proof.
  split; [reflexivity |].
  apply (url_input_always_fetches stand_in init (lit "HTTPS://example.com")).
  reflexivity.
Defined.

(** C6.  With no page fetched ([current_content] is [None]), an input that
    does not start with [http] is answered with the fixed message, whatever
    the input says, and the session is left as it was. *)
Theorem no_page_asks_for_url (E : Collaborators) (self : WebExtractor)
  (user_input : str) :
  PyStr.startswith (lower E user_input) (lit "http") = false ->
  current_content self = None ->
  process_query E self user_input
  = (Returns (lit "Please provide a URL first before asking for information."),
     self).
Proof.
  intros Hu Hc.
  apply process_query_no_content; [exact Hu |].
  now rewrite Hc.
Qed.

Lemma no_page_asks_for_url_witness :
  process_query stand_in init (lit "Give me the links in JSON format")
  = (Returns (lit "Please provide a URL first before asking for information."),
     init).
Proof.
  apply no_page_asks_for_url; reflexivity.
Defined.

(** C2, as amended.  A successful fetch sets the three session fields
    together.  A failed fetch propagates its error and leaves
    [current_content] and [preprocessed_content] as they were, but
    [current_url] already holds the requested URL. *)
Theorem fetch_url_session_update (E : Collaborators) (self : WebExtractor)
  (url : str) :
  match http_get E url with
  | Returns text =>
      fetch_url E self url
      = (Returns (msg_fetched url),
         {| current_url := Some url;
            current_content := Some text;
            preprocessed_content := Some (_preprocess_content E text) |})
  | Raises e =>
      fetch_url E self url
      = (Raises e,
         {| current_url := Some url;
            current_content := current_content self;
            preprocessed_content := preprocessed_content self |})
  end.
Proof.
  destruct (http_get E url) as [text | e] eqn:H.
  - now apply fetch_url_success.
  - now apply fetch_url_failure.
Qed.

(** C2 as stated fails: after a first page is loaded, a fetch that cannot
    connect raises, and the session no longer holds its three pre-call
    values ([current_url] has moved to the new URL). *)
Lemma failed_fetch_moves_current_url :
  let loaded := snd (fetch_url stand_in init example_url) in
  let r := fetch_url stand_in loaded (lit "https://unreachable.example") in
  fst r = Raises ConnectionError
  /\ ~ (current_url (snd r) = current_url loaded
        /\ current_content (snd r) = current_content loaded
        /\ preprocessed_content (snd r) = preprocessed_content loaded).
Proof.
  split; [reflexivity |].
  intros [H _]. vm_compute in H. discriminate H.
Qed.

(** C9.  With preprocessed text present, the prompt handed to the model is
    the static instruction, the first 500 code points of the text (all of
    it when it is shorter), an ellipsis, and the query as typed; the cut at
    500 does not depend on the length of the page. *)
Theorem prompt_holds_first_500 (E : Collaborators) (self : WebExtractor)
  (query content : str) :
  preprocessed_content self = Some content ->
  PyStr.truthy content = true ->
  _extract_info E self query
  = match generate E (prompt_head ++ firstn 500 content ++ lit "..."
                      ++ [LF] ++ lit "        Human: " ++ query
                      ++ [LF] ++ lit "        AI:") with
    | Raises e => Raises e
    | Returns response => parse_response E response query
    end
  /\ List.length (firstn 500 content) = Nat.min 500 (List.length content)
  /\ (List.length content <= 500 -> firstn 500 content = content).
Proof.
  intros Hp Ht. split; [| split].
  - unfold _extract_info. rewrite Hp, Ht. simpl negb. cbv iota.
    unfold build_prompt. now rewrite slice_to_500.
  - apply length_firstn.
  - intros Hlen. now apply firstn_all2.
Qed.

Lemma prompt_holds_first_500_witness :
  let self := snd (fetch_url stand_in init example_url) in
  let content := _preprocess_content stand_in example_page in
  preprocessed_content self = Some content
  /\ PyStr.truthy content = true
  /\ List.length (firstn 500 content) = Nat.min 500 (List.length content).
Proof.
  refine (conj eq_refl (conj eq_refl _)).
  exact (proj1 (proj2
    (prompt_holds_first_500 stand_in
       (snd (fetch_url stand_in init example_url)) (lit "What is it?")
       (_preprocess_content stand_in example_page)
       eq_refl eq_refl))).
Defined.

(** C10.  Whether a page is loaded is decided by the truth value of the
    stored strings.  After a successful fetch whose body is empty, or whose
    preprocessed text is empty, every later input that is not a URL is
    answered with the "provide a URL" message, as before any fetch. *)
Theorem empty_page_counts_as_no_page (E : Collaborators) (self : WebExtractor)
  (url text : str) (queries : list str) :
  http_get E url = Returns text ->
  text = [] \/ _preprocess_content E text = [] ->
  Forall (fun q => PyStr.startswith (lower E q) (lit "http") = false) queries ->
  let loaded := snd (fetch_url E self url) in
  fst (fetch_url E self url) = Returns (msg_fetched url)
  /\ run_session E loaded queries
     = (map (fun _ => Returns msg_provide_url) queries, loaded).
Proof.
  intros Hget Hempty Hq loaded. subst loaded.
  rewrite (fetch_url_success E self url text Hget). simpl fst; simpl snd.
  split; [reflexivity |].
  apply run_session_not_loaded; [| exact Hq].
  simpl. destruct Hempty as [H | H]; rewrite H; auto.
Qed.

Lemma empty_page_counts_as_no_page_witness :
  let loaded := snd (fetch_url blank_page_world init example_url) in
  run_session blank_page_world loaded [lit "Summarise it"; lit "as csv"]
  = ([Returns msg_provide_url; Returns msg_provide_url], loaded).
Proof.
  refine (proj2 (empty_page_counts_as_no_page blank_page_world init
            example_url (lit "<html><script>x()</script></html>")
            [lit "Summarise it"; lit "as csv"] eq_refl _ _)).
  - right. reflexivity.
  - repeat constructor.
Defined.

(** C8.  CSV formatting of the empty structured result is the fixed
    message. *)
Theorem csv_of_empty_result (E : Collaborators) :
  _format_as_csv E (dumps E (PList []))
  = Returns (lit "No data to convert to CSV.").
Proof. reflexivity. Qed.

(** ** The response parser and the formatters *)

(** Without an opening bracket the completion is answered with the fixed
    "could not extract" message. *)
Lemma parse_response_no_open_bracket (E : Collaborators)
  (response query : str) :
  PyStr.find response (lit "[") = (-1)%Z ->
  parse_response E response query = Returns msg_could_not_extract.
Proof.
  intros H. unfold parse_response. now rewrite H.
Qed.

Lemma loads_empty (E : Collaborators) : loads E [] = None.
Proof. reflexivity. Qed.

(** C1, what the code does where the claim fails.  [json_end] is
    [rfind(']') + 1], which is never [-1]; so a completion with an opening
    bracket and no closing one passes the test, the slice is empty, and the
    answer is the "Invalid JSON" diagnostic and not the fixed
    "could not extract" message. *)
Theorem unclosed_bracket_reports_invalid_json (E : Collaborators)
  (response query : str) :
  PyStr.find response (lit "[") <> (-1)%Z ->
  PyStr.rfind response (lit "]") = (-1)%Z ->
  parse_response E response query
  = Returns (lit "Error: Invalid JSON data. Raw data: ...")
  /\ parse_response E response query
     <> Returns (lit "Error: Could not extract JSON data from the model's response.").
Proof.
  intros Hs He.
  assert (H : parse_response E response query
              = Returns (lit "Error: Invalid JSON data. Raw data: ...")).
  { unfold parse_response. rewrite He.
    apply Z.eqb_neq in Hs. rewrite Hs. simpl.
    rewrite slice_end_zero, loads_empty. reflexivity. }
  split; [exact H |].
  rewrite H. intros Heq. vm_compute in Heq. discriminate Heq.
Qed.

Lemma unclosed_bracket_reports_invalid_json_witness :
  parse_response stand_in (lit "The answer is [ 1, 2") (lit "list them")
  = Returns (lit "Error: Invalid JSON data. Raw data: ...").
Proof.
  apply (unclosed_bracket_reports_invalid_json stand_in
           (lit "The answer is [ 1, 2") (lit "list them")).
  - intros H. vm_compute in H. discriminate H.
  - reflexivity.
Defined.

(** C3 as stated fails for the plain-text formatter: on an input that does
    not parse it returns the input itself, all 600 code points of it, and
    not the diagnostic with the first 500. *)
Lemma text_formatter_echoes_raw_input :
  loads stand_in long_garbage = None
  /\ _format_as_text stand_in long_garbage = Returns long_garbage
  /\ List.length long_garbage = 600
  /\ _format_as_text stand_in long_garbage
     <> Returns (msg_invalid_json long_garbage).
Proof.
  split; [vm_compute; reflexivity |].
  split; [vm_compute; reflexivity |].
  split; [reflexivity |].
  intros H. vm_compute in H. discriminate H.
Qed.

(** C3, as amended.  On an input that does not parse as JSON no formatter
    raises: the JSON and the CSV formatter return the diagnostic that
    embeds the first 500 code points of the input, and the plain-text
    formatter returns the input unchanged. *)
Theorem formatters_on_malformed_json (E : Collaborators) (data : str) :
  loads E data = None ->
  _format_as_json E data
  = Returns (lit "Error: Invalid JSON data. Raw data: " ++ firstn 500 data
             ++ lit "...")
  /\ _format_as_csv E data
     = Returns (lit "Error: Invalid JSON data. Raw data: " ++ firstn 500 data
                ++ lit "...")
  /\ _format_as_text E data = Returns data.
Proof.
  intros H.
  unfold _format_as_json, _format_as_csv, _format_as_text, msg_invalid_json.
  rewrite H, slice_to_500. repeat split.
Qed.

Lemma formatters_on_malformed_json_witness :
  loads stand_in (lit "{oops") = None
  /\ _format_as_text stand_in (lit "{oops") = Returns (lit "{oops").
Proof.
  split; [reflexivity |].
  apply (formatters_on_malformed_json stand_in (lit "{oops")).
  reflexivity.
Defined.

(** ** Preprocessing *)

Lemma preprocess_is_flatten (E : Collaborators) (content : str) :
  _preprocess_content E content = flatten (soup_get_text E content).
Proof. reflexivity. Qed.

Section Strip.

Variable P : codepoint -> Prop.

Lemma lstrip_Forall (s : str) : Forall P s -> Forall P (PyStr.lstrip s).
Proof.
  induction 1 as [| c s Hc Hs IH]; simpl; [constructor |].
  destruct (PyStr.is_space c); [exact IH | now constructor].
Qed.

Lemma rstrip_Forall (s : str) : Forall P s -> Forall P (PyStr.rstrip s).
Proof.
  intros H. unfold PyStr.rstrip.
  apply Forall_rev, lstrip_Forall, Forall_rev, H.
Qed.

Lemma strip_Forall (s : str) : Forall P s -> Forall P (PyStr.strip s).
Proof. intros H. now apply rstrip_Forall, lstrip_Forall. Qed.

End Strip.

Lemma lstrip_idem (s : str) : PyStr.lstrip (PyStr.lstrip s) = PyStr.lstrip s.
Proof.
  induction s as [| c s IH]; simpl; [reflexivity |].
  destruct (PyStr.is_space c) eqn:Hc; [exact IH |].
  simpl. now rewrite Hc.
Qed.

Lemma rstrip_idem (s : str) : PyStr.rstrip (PyStr.rstrip s) = PyStr.rstrip s.
Proof.
  unfold PyStr.rstrip. now rewrite rev_involutive, lstrip_idem.
Qed.

(** [lstrip] leaves a suffix, [rstrip] a prefix. *)
Lemma lstrip_suffix (s : str) : exists p, s = p ++ PyStr.lstrip s.
Proof.
  induction s as [| c s [p IH]]; simpl; [now exists [] |].
  destruct (PyStr.is_space c).
  - exists (c :: p). simpl. now rewrite <- IH.
  - now exists [].
Qed.

Lemma rstrip_prefix (s : str) : exists w, s = PyStr.rstrip s ++ w.
Proof.
  unfold PyStr.rstrip.
  destruct (lstrip_suffix (List.rev s)) as [p Hp].
  exists (List.rev p).
  rewrite <- rev_app_distr, <- Hp. now rewrite rev_involutive.
Qed.

Lemma lstrip_left_clean (s : str) : left_clean (PyStr.lstrip s).
Proof.
  induction s as [| c s IH]; simpl; [exact I |].
  destruct (PyStr.is_space c) eqn:Hc; [exact IH | exact Hc].
Qed.

Lemma left_clean_lstrip (s : str) : left_clean s -> PyStr.lstrip s = s.
Proof.
  destruct s as [| c s]; simpl; [reflexivity |].
  intros H. now rewrite H.
Qed.

Lemma rstrip_left_clean (s : str) : left_clean s -> left_clean (PyStr.rstrip s).
Proof.
  intros H. destruct (rstrip_prefix s) as [w Hw].
  destruct (PyStr.rstrip s) as [| c r]; [exact I |].
  rewrite Hw in H. exact H.
Qed.

Lemma strip_idem (s : str) : PyStr.strip (PyStr.strip s) = PyStr.strip s.
Proof.
  unfold PyStr.strip.
  rewrite (left_clean_lstrip (PyStr.rstrip (PyStr.lstrip s))).
  - apply rstrip_idem.
  - apply rstrip_left_clean, lstrip_left_clean.
Qed.

Lemma strip_nil : PyStr.strip [] = [].
Proof. reflexivity. Qed.

(** Every line of [splitlines] is free of line boundaries. *)
Lemma splitlines_go_no_linebreak (s : str) :
  forall after_cr cur,
    no_linebreak cur ->
    Forall no_linebreak (PyStr.splitlines_go after_cr cur s).
Proof.
  induction s as [| c s IH]; intros after_cr cur Hcur; simpl.
  - destruct cur; [constructor | constructor; [exact Hcur | constructor]].
  - destruct (after_cr && (c =? LF)%N); [now apply IH |].
    destruct (PyStr.is_linebreak c) eqn:Hc.
    + constructor; [exact Hcur |]. apply IH. constructor.
    + apply IH. apply Forall_app. split; [exact Hcur |].
      now repeat constructor.
Qed.

(** The pieces of [split] keep a property of the code points and hold no
    separator. *)
Lemma split_go_Forall (P : codepoint -> Prop) (sep : codepoint) (s : str) :
  forall cur,
    Forall P cur -> Forall P s ->
    Forall (Forall P) (PyStr.split_go sep cur s).
Proof.
  induction s as [| c s IH]; intros cur Hcur Hs; simpl.
  - now repeat constructor.
  - inversion Hs as [| c' s' Hc Hs']; subst.
    destruct (c =? sep)%N.
    + constructor; [exact Hcur |]. apply IH; [constructor | exact Hs'].
    + apply IH; [| exact Hs'].
      apply Forall_app. split; [exact Hcur | now repeat constructor].
Qed.

Lemma split_go_no_sep (sep : codepoint) (s : str) :
  forall cur,
    Forall (fun c => c <> sep) cur ->
    Forall (Forall (fun c => c <> sep)) (PyStr.split_go sep cur s).
Proof.
  induction s as [| c s IH]; intros cur Hcur; simpl.
  - now repeat constructor.
  - destruct (c =? sep)%N eqn:Hc.
    + constructor; [exact Hcur |]. apply IH. constructor.
    + apply IH. apply Forall_app. split; [exact Hcur |].
      apply N.eqb_neq in Hc. now repeat constructor.
Qed.

(** Without a separator in it, a string is its own single piece. *)
Lemma split_go_whole (sep : codepoint) (s : str) :
  forall cur,
    Forall (fun c => c <> sep) s ->
    PyStr.split_go sep cur s = [cur ++ s].
Proof.
  induction s as [| c s IH]; intros cur Hs; simpl.
  - now rewrite app_nil_r.
  - inversion Hs as [| c' s' Hc Hs']; subst.
    apply N.eqb_neq in Hc. rewrite Hc.
    rewrite IH by exact Hs'. now rewrite <- app_assoc.
Qed.

(** A run without line boundaries is read into the current line. *)
Lemma splitlines_go_run (c : str) :
  forall cur rest,
    no_linebreak c ->
    PyStr.splitlines_go false cur (c ++ rest)
    = PyStr.splitlines_go false (cur ++ c) rest.
Proof.
  induction c as [| x c IH]; intros cur rest Hc; simpl.
  - now rewrite app_nil_r.
  - inversion Hc as [| x' c' Hx Hc']; subst.
    rewrite Hx. rewrite IH by exact Hc'. now rewrite <- app_assoc.
Qed.

(** Joining settled chunks with line feeds and splitting the lines again
    gives the chunks back. *)
Lemma splitlines_join (cs : list str) :
  Forall settled cs ->
  PyStr.splitlines (PyStr.join [LF] cs) = cs.
Proof.
  unfold PyStr.splitlines.
  induction 1 as [| c cs Hc Hcs IH]; [reflexivity |].
  destruct Hc as (Hne & Hlb & _ & _).
  destruct cs as [| c' cs'].
  - simpl. rewrite <- (app_nil_r c) at 1.
    rewrite splitlines_go_run by exact Hlb. simpl.
    destruct c; [contradiction | reflexivity].
  - change (PyStr.join [LF] (c :: c' :: cs'))
      with (c ++ LF :: PyStr.join [LF] (c' :: cs')).
    rewrite splitlines_go_run by exact Hlb.
    simpl app at 1.
    change (PyStr.splitlines_go false c (LF :: PyStr.join [LF] (c' :: cs')))
      with (c :: PyStr.splitlines_go false [] (PyStr.join [LF] (c' :: cs'))).
    now rewrite IH.
Qed.

(** The chunks [flatten] keeps are settled. *)
Lemma flatten_chunks_settled (text : str) :
  Forall settled
    (filter PyStr.truthy
       (flat_map (fun line => map PyStr.strip (PyStr.split line SPACE))
          (map PyStr.strip (PyStr.splitlines text)))).
Proof.
  apply Forall_forall. intros c Hin.
  apply filter_In in Hin. destruct Hin as [Hin Htruthy].
  apply in_flat_map in Hin. destruct Hin as (line & Hline & Hc).
  apply in_map_iff in Hc. destruct Hc as (phrase & <- & Hphrase).
  apply in_map_iff in Hline. destruct Hline as (l & <- & Hl).
  assert (Hl_lb : no_linebreak l).
  { pose proof (splitlines_go_no_linebreak text false [] (Forall_nil _)) as H.
    rewrite Forall_forall in H. now apply H. }
  assert (Hline_lb : no_linebreak (PyStr.strip l)) by now apply strip_Forall.
  assert (Hphrase_lb : no_linebreak phrase).
  { pose proof (split_go_Forall _ SPACE (PyStr.strip l) []
                  (Forall_nil _) Hline_lb) as H.
    rewrite Forall_forall in H. now apply H. }
  assert (Hphrase_sp : no_space phrase).
  { pose proof (split_go_no_sep SPACE (PyStr.strip l) [] (Forall_nil _)) as H.
    rewrite Forall_forall in H. now apply H. }
  repeat split.
  - intros Hnil. rewrite Hnil in Htruthy. discriminate.
  - now apply strip_Forall.
  - now apply strip_Forall.
  - apply strip_idem.
Qed.

(** [flatten] leaves a join of settled chunks as it is. *)
Lemma flatten_settled (cs : list str) :
  Forall settled cs ->
  flatten (PyStr.join [LF] cs) = PyStr.join [LF] cs.
Proof.
  intros H. unfold flatten. rewrite splitlines_join by exact H.
  f_equal.
  induction H as [| c cs Hc Hcs IH]; [reflexivity |].
  destruct Hc as (Hne & _ & Hsp & Hstrip).
  change (map PyStr.strip (c :: cs)) with (PyStr.strip c :: map PyStr.strip cs).
  rewrite Hstrip.
  change (flat_map (fun line => map PyStr.strip (PyStr.split line SPACE))
            (c :: map PyStr.strip cs))
    with (map PyStr.strip (PyStr.split c SPACE)
          ++ flat_map (fun line => map PyStr.strip (PyStr.split line SPACE))
               (map PyStr.strip cs)).
  unfold PyStr.split at 1. rewrite split_go_whole by exact Hsp.
  change (map PyStr.strip [[] ++ c]) with [PyStr.strip c].
  rewrite Hstrip.
  change ([c] ++ ?l) with (c :: l).
  destruct c as [| x c]; [contradiction |].
  cbn [filter PyStr.truthy app].
  now rewrite IH.
Qed.

(** The white-space steps of preprocessing are idempotent on every text. *)
Lemma flatten_idempotent (text : str) : flatten (flatten text) = flatten text.
Proof.
  unfold flatten at 2 3.
  apply flatten_settled, flatten_chunks_settled.
Qed.

(** C4 as stated fails: the text of [escaped_markup_page] still reads as
    markup, and preprocessing it again strips the tags it shows. *)
Lemma preprocess_twice_strips_shown_markup :
  let once := _preprocess_content stand_in escaped_markup_page in
  once = lit "<b>bold</b>" ++ [LF] ++ lit "text"
  /\ _preprocess_content stand_in once = lit "bold" ++ [LF] ++ lit "text"
  /\ _preprocess_content stand_in once <> once.
Proof.
  split; [reflexivity |]. split; [reflexivity |].
  intros H. vm_compute in H. discriminate H.
Qed.

(** C4, as amended.  The white-space steps of preprocessing (split into
    lines, strip, split on spaces, drop the empty fragments, rejoin with
    line feeds) are idempotent on every text; so preprocessing its own
    output yields that output unchanged whenever stripping the markup
    leaves that output as it is. *)
Theorem preprocess_idempotent_on_plain_output (E : Collaborators)
  (content : str) :
  soup_get_text E (_preprocess_content E content)
  = _preprocess_content E content ->
  _preprocess_content E (_preprocess_content E content)
  = _preprocess_content E content.
Proof.
  intros H.
  rewrite (preprocess_is_flatten E (_preprocess_content E content)), H.
  rewrite preprocess_is_flatten. apply flatten_idempotent.
Qed.

Lemma preprocess_idempotent_on_plain_output_witness :
  soup_get_text stand_in (_preprocess_content stand_in example_page)
  = _preprocess_content stand_in example_page
  /\ _preprocess_content stand_in (_preprocess_content stand_in example_page)
     = _preprocess_content stand_in example_page.
Proof.
  split; [reflexivity |].
  apply (preprocess_idempotent_on_plain_output stand_in example_page).
  reflexivity.
Defined.

(** ** The JSON round trip *)

Local Open Scope N_scope.

Lemma hex_val_digit (k : N) : k < 16 -> Json.hex_val (Json.hex_digit k) = Some k.
Proof.
  intros H. unfold Json.hex_val, Json.hex_digit, Json.is_digit.
  destruct (k <? 10) eqn:Hk.
  - apply N.ltb_lt in Hk.
    replace (48 <=? 48 + k) with true by (symmetry; apply N.leb_le; lia).
    replace (48 + k <=? 57) with true by (symmetry; apply N.leb_le; lia).
    cbn [andb]. f_equal. lia.
  - apply N.ltb_ge in Hk.
    replace (87 + k <=? 57) with false by (symmetry; apply N.leb_gt; lia).
    rewrite andb_false_r.
    replace (97 <=? 87 + k) with true by (symmetry; apply N.leb_le; lia).
    replace (87 + k <=? 102) with true by (symmetry; apply N.leb_le; lia).
    cbn [andb]. f_equal. lia.
Qed.

Lemma hex4_digits (v : N) :
  v < 65536 ->
  Json.hex4 (Json.hex_digit ((v / 4096) mod 16)) (Json.hex_digit ((v / 256) mod 16))
            (Json.hex_digit ((v / 16) mod 16)) (Json.hex_digit (v mod 16))
  = Some v.
Proof.
  intros H. unfold Json.hex4.
  rewrite !hex_val_digit by (apply N.mod_lt; discriminate).
  f_equal.
  pose proof (N.div_mod v 16 ltac:(discriminate)) as H1.
  pose proof (N.div_mod (v / 16) 16 ltac:(discriminate)) as H2.
  pose proof (N.div_mod (v / 256) 16 ltac:(discriminate)) as H3.
  rewrite N.Div0.div_div in H2. rewrite N.Div0.div_div in H3.
  change (16 * 16) with 256 in H2. change (256 * 16) with 4096 in H3.
  assert (H4 : v / 4096 < 16) by (apply N.Div0.div_lt_upper_bound; lia).
  rewrite (N.mod_small (v / 4096) 16 H4).
  lia.
Qed.


Local Close Scope N_scope.

Lemma delimited_cases (rest : str) :
  Json.delimited rest = true ->
  rest = [] \/ exists c r, rest = c :: r /\ (c = 44 \/ c = 93 \/ c = 125 \/ c = 10)%N.
Proof.
  destruct rest as [| c r]; [now left |]. simpl. intros H. right.
  exists c, r. split; [reflexivity |].
  rewrite !orb_true_iff, !N.eqb_eq in H. tauto.
Qed.

Ltac delimited_split H :=
  destruct (delimited_cases _ H) as [-> | (?c & ?r & -> & [-> | [-> | [-> | ->]]])].

Lemma span_digits_delimited (rest : str) :
  Json.delimited rest = true -> Json.span_digits rest = ([], rest).
Proof. intros H. delimited_split H; reflexivity. Qed.

Lemma lex_frac_delimited (rest : str) :
  Json.delimited rest = true -> Json.lex_frac rest = ([], rest).
Proof. intros H. delimited_split H; reflexivity. Qed.

Lemma lex_exp_delimited (rest : str) :
  Json.delimited rest = true -> Json.lex_exp rest = ([], rest).
Proof. intros H. delimited_split H; reflexivity. Qed.

Lemma span_digits_uint (u : Decimal.uint) (rest : str) :
  Json.delimited rest = true ->
  Json.span_digits (digits_of_uint u ++ rest) = (digits_of_uint u, rest).
Proof.
  intros H. induction u; simpl;
    [now apply span_digits_delimited | now rewrite IHu ..].
Qed.

Lemma uint_of_digits_of_uint (u : Decimal.uint) :
  uint_of_digits (digits_of_uint u) = u.
Proof. induction u; simpl; now rewrite ?IHu. Qed.

Lemma pos_to_uint_leading (p : positive) : leading_nonzero (Pos.to_uint p).
Proof.
  assert (H : Decimal.unorm (Pos.to_uint p) = Pos.to_uint p).
  { rewrite <- DecimalPos.Unsigned.to_of, DecimalPos.Unsigned.of_to.
    reflexivity. }
  pose proof (DecimalPos.Unsigned.to_uint_nonzero p) as Hnz.
  destruct (Pos.to_uint p) as [| u | u | u | u | u | u | u | u | u | u] eqn:Hu;
    try exact I.
  - discriminate H.
  - unfold Decimal.unorm in H.
    destruct (Decimal.nzhead (Decimal.D0 u)) eqn:Hh;
      try (rewrite H in Hh; now apply DecimalFacts.nzhead_nonzero in Hh).
    now rewrite H in Hnz.
Qed.

Lemma lex_int_leading (u : Decimal.uint) (rest : str) :
  leading_nonzero u -> Json.delimited rest = true ->
  Json.lex_int (digits_of_uint u ++ rest) = Some (digits_of_uint u, rest)
  /\ Json.lex_int (45%N :: digits_of_uint u ++ rest)
     = Some (45%N :: digits_of_uint u, rest).
Proof.
  intros Hu Hrest.
  destruct u; try contradiction; unfold Json.lex_int; simpl;
    rewrite (span_digits_uint _ _ Hrest); split; reflexivity.
Qed.

Lemma int_of_literal_leading (u : Decimal.uint) :
  leading_nonzero u ->
  int_of_literal (digits_of_uint u) = Z.of_int (Decimal.Pos u)
  /\ int_of_literal (45%N :: digits_of_uint u) = Z.of_int (Decimal.Neg u).
Proof.
  intros Hu. split.
  - destruct u; try contradiction; unfold int_of_literal;
      simpl digits_of_uint; cbv iota;
      match goal with
      | |- context [ (?c =? 45)%N ] => change (c =? 45)%N with false
      end; cbv iota;
      match goal with
      | |- context [ uint_of_digits (?c :: digits_of_uint ?u) ] =>
          rewrite <- (uint_of_digits_of_uint u) at 2
      end; reflexivity.
  - unfold int_of_literal. change (45 =? 45)%N with true. cbv iota.
    now rewrite uint_of_digits_of_uint.
Qed.

Lemma lex_int_zero (rest : str) :
  Json.lex_int (digits_of_uint (Decimal.D0 Decimal.Nil) ++ rest)
  = Some (digits_of_uint (Decimal.D0 Decimal.Nil), rest).
Proof. reflexivity. Qed.

Lemma match_number_int (fol : str -> spec_float) (z : Z) (rest : str) :
  Json.delimited rest = true ->
  Json.match_number fol (int_repr z ++ rest) = Some (PInt z, rest).
Proof.
  intros Hrest. unfold Json.match_number, int_repr, Z.to_int.
  destruct z as [| p | p]; cbv beta iota.
  - rewrite (lex_int_zero rest).
    cbv beta iota.
    rewrite (lex_frac_delimited _ Hrest), (lex_exp_delimited _ Hrest).
    reflexivity.
  - destruct (lex_int_leading (Pos.to_uint p) rest
                (pos_to_uint_leading p) Hrest) as [-> _].
    cbv beta iota.
    rewrite (lex_frac_delimited _ Hrest), (lex_exp_delimited _ Hrest).
    simpl app.
    destruct (int_of_literal_leading _ (pos_to_uint_leading p)) as [-> _].
    change (Decimal.Pos (Pos.to_uint p)) with (Z.to_int (Z.pos p)).
    now rewrite DecimalZ.of_to.
  - change ((45%N :: digits_of_uint (Pos.to_uint p)) ++ rest)
      with (45%N :: digits_of_uint (Pos.to_uint p) ++ rest).
    destruct (lex_int_leading (Pos.to_uint p) rest
                (pos_to_uint_leading p) Hrest) as [_ ->].
    cbv beta iota.
    rewrite (lex_frac_delimited _ Hrest), (lex_exp_delimited _ Hrest).
    simpl app.
    destruct (int_of_literal_leading _ (pos_to_uint_leading p)) as [_ ->].
    change (Decimal.Neg (Pos.to_uint p)) with (Z.to_int (Z.neg p)).
    now rewrite DecimalZ.of_to.
Qed.

(** *** Strings *)

Local Open Scope N_scope.

Lemma scanstring_plain (c : codepoint) (t : str) :
  c <> QUOTE -> c <> BACKSLASH -> 32 <= c ->
  Json.scanstring (c :: t) = Json.cons_to c (Json.scanstring t).
Proof.
  intros H1 H2 H3. simpl.
  apply N.eqb_neq in H1, H2. rewrite H1, H2.
  replace (c <=? 31) with false by (symmetry; apply N.leb_gt; lia).
  reflexivity.
Qed.

Lemma scanstring_short (e x : codepoint) (t : str) :
  e <> 117 -> Json.unescape e = Some x ->
  Json.scanstring (BACKSLASH :: e :: t) = Json.cons_to x (Json.scanstring t).
Proof.
  intros H1 H2. simpl.
  apply N.eqb_neq in H1. rewrite H1, H2. reflexivity.
Qed.

Lemma scanstring_u (a b c d : codepoint) (u : N) (r : str) :
  Json.hex4 a b c d = Some u ->
  Json.is_high_surrogate u = false \/ no_low_ahead r ->
  Json.scanstring (BACKSLASH :: 117 :: a :: b :: c :: d :: r)
  = Json.cons_to u (Json.scanstring r).
Proof.
  intros Hu H.
  change (Json.scanstring (BACKSLASH :: 117 :: a :: b :: c :: d :: r))
    with (match Json.hex4 a b c d with
          | None => None
          | Some u1 =>
              if Json.is_high_surrogate u1 then
                match r with
                | x :: y :: a2 :: b2 :: c2 :: d2 :: r2 =>
                    if (x =? BACKSLASH) && (y =? 117) then
                      match Json.hex4 a2 b2 c2 d2 with
                      | None => None
                      | Some u2 =>
                          if Json.is_low_surrogate u2
                          then Json.cons_to (Json.join_surrogates u1 u2)
                                 (Json.scanstring r2)
                          else Json.cons_to u1 (Json.scanstring r)
                      end
                    else Json.cons_to u1 (Json.scanstring r)
                | _ => Json.cons_to u1 (Json.scanstring r)
                end
              else Json.cons_to u1 (Json.scanstring r)
          end).
  rewrite Hu.
  destruct (Json.is_high_surrogate u) eqn:Hh; [| reflexivity].
  destruct H as [H | H]; [discriminate |].
  destruct r as [| x [| y [| a2 [| b2 [| c2 [| d2 r2]]]]]]; try reflexivity.
  destruct (x =? BACKSLASH) eqn:Hx; [| reflexivity].
  destruct (y =? 117) eqn:Hy; [| reflexivity].
  apply N.eqb_eq in Hx, Hy. subst x y.
  destruct (H a2 b2 c2 d2 r2 eq_refl) as (u2 & -> & ->).
  reflexivity.
Qed.

Lemma scanstring_pair (a b c d a2 b2 c2 d2 : codepoint) (hi lo : N) (r : str) :
  Json.hex4 a b c d = Some hi -> Json.hex4 a2 b2 c2 d2 = Some lo ->
  Json.is_high_surrogate hi = true -> Json.is_low_surrogate lo = true ->
  Json.scanstring (BACKSLASH :: 117 :: a :: b :: c :: d
                   :: BACKSLASH :: 117 :: a2 :: b2 :: c2 :: d2 :: r)
  = Json.cons_to (Json.join_surrogates hi lo) (Json.scanstring r).
Proof.
  intros H1 H2 H3 H4.
  change (Json.scanstring (BACKSLASH :: 117 :: a :: b :: c :: d
                   :: BACKSLASH :: 117 :: a2 :: b2 :: c2 :: d2 :: r))
    with (match Json.hex4 a b c d with
          | None => None
          | Some u1 =>
              if Json.is_high_surrogate u1 then
                match Json.hex4 a2 b2 c2 d2 with
                | None => None
                | Some u2 =>
                    if Json.is_low_surrogate u2
                    then Json.cons_to (Json.join_surrogates u1 u2)
                           (Json.scanstring r)
                    else Json.cons_to u1
                           (Json.scanstring
                              (BACKSLASH :: 117 :: a2 :: b2 :: c2 :: d2 :: r))
                end
              else Json.cons_to u1
                     (Json.scanstring
                        (BACKSLASH :: 117 :: a2 :: b2 :: c2 :: d2 :: r))
          end).
  now rewrite H1, H3, H2, H4.
Qed.

Lemma escape_char_view (c : codepoint) : escape_view c (Json.escape_char c).
Proof.
  unfold Json.escape_char.
  destruct (c =? QUOTE) eqn:H1.
  { apply N.eqb_eq in H1. subst c. now apply EscShort. }
  destruct (c =? BACKSLASH) eqn:H2.
  { apply N.eqb_eq in H2. subst c. now apply EscShort. }
  destruct (c =? 10) eqn:H3.
  { apply N.eqb_eq in H3. subst c. now apply EscShort. }
  destruct (c =? 13) eqn:H4.
  { apply N.eqb_eq in H4. subst c. now apply EscShort. }
  destruct (c =? 9) eqn:H5.
  { apply N.eqb_eq in H5. subst c. now apply EscShort. }
  destruct (c =? 8) eqn:H6.
  { apply N.eqb_eq in H6. subst c. now apply EscShort. }
  destruct (c =? 12) eqn:H7.
  { apply N.eqb_eq in H7. subst c. now apply EscShort. }
  apply N.eqb_neq in H1, H2.
  destruct ((32 <=? c) && (c <=? 126)) eqn:H8.
  { apply andb_true_iff in H8. destruct H8 as [H8 _].
    apply N.leb_le in H8. now apply EscPlain. }
  destruct (c <? 65536) eqn:H9.
  { apply N.ltb_lt in H9. now apply EscBmp. }
  apply N.ltb_ge in H9. now apply EscAstral.
Qed.

Lemma high_part_range (c : codepoint) :
  Json.is_high_surrogate (high_part c) = true
  /\ Json.is_low_surrogate (high_part c) = false
  /\ high_part c < 65536.
Proof.
  unfold high_part, Json.is_high_surrogate, Json.is_low_surrogate.
  pose proof (N.mod_lt (((c - 65536) / 1024)) 1024 ltac:(discriminate)) as H.
  set (m := ((c - 65536) / 1024) mod 1024) in *.
  repeat split.
  - apply andb_true_iff; split; apply N.leb_le; lia.
  - apply andb_false_iff; left; apply N.leb_gt; lia.
  - lia.
Qed.

Lemma low_part_range (c : codepoint) :
  Json.is_low_surrogate (low_part c) = true /\ low_part c < 65536.
Proof.
  unfold low_part, Json.is_low_surrogate.
  pose proof (N.mod_lt (c - 65536) 1024 ltac:(discriminate)) as H.
  set (m := (c - 65536) mod 1024) in *.
  split; [apply andb_true_iff; split; apply N.leb_le; lia | lia].
Qed.

Lemma join_parts (c : codepoint) :
  65536 <= c -> c < 1114112 ->
  Json.join_surrogates (high_part c) (low_part c) = c.
Proof.
  intros H1 H2. unfold Json.join_surrogates, high_part, low_part.
  pose proof (N.div_mod (c - 65536) 1024 ltac:(discriminate)) as H.
  assert (Hq : (c - 65536) / 1024 < 1024)
    by (apply N.Div0.div_lt_upper_bound; lia).
  rewrite (N.mod_small _ _ Hq).
  set (q := (c - 65536) / 1024) in *. set (r := (c - 65536) mod 1024) in *.
  clearbody q r. lia.
Qed.

Lemma u_escape_app (v : N) (t : str) :
  Json.u_escape v ++ t
  = BACKSLASH :: 117 :: Json.hex_digit ((v / 4096) mod 16)
    :: Json.hex_digit ((v / 256) mod 16) :: Json.hex_digit ((v / 16) mod 16)
    :: Json.hex_digit (v mod 16) :: t.
Proof. reflexivity. Qed.

Lemma tail_no_low_ahead (s : str) (rest : str) :
  Json.starts_low s = false ->
  no_low_ahead (flat_map Json.escape_char s ++ QUOTE :: rest).
Proof.
  intros Hlow a b c d r' Heq.
  destruct s as [| x s]; simpl in Heq; [discriminate Heq |].
  simpl in Hlow.
  destruct (escape_char_view x) as [e He Hu | H1 H2 H3 | Hx | Hx].
  - simpl in Heq. injection Heq as Heq _. congruence.
  - simpl in Heq. injection Heq as Heq _. congruence.
  - rewrite <- app_assoc, u_escape_app in Heq.
    injection Heq as <- <- <- <- _.
    exists x. split; [now apply hex4_digits | exact Hlow].
  - rewrite <- !app_assoc, u_escape_app in Heq.
    injection Heq as <- <- <- <- _.
    destruct (high_part_range x) as (_ & Hl & Hlt).
    exists (high_part x). split; [now apply hex4_digits | exact Hl].
Qed.

(** Decoding what the encoder wrote for a string gives the string back. *)
Lemma scanstring_escaped (s : str) :
  Json.str_ok s = true ->
  forall rest,
    Json.scanstring (flat_map Json.escape_char s ++ QUOTE :: rest)
    = Some (s, rest).
Proof.
  induction s as [| c s IH]; intros Hok rest; [reflexivity |].
  simpl in Hok. apply andb_true_iff in Hok. destruct Hok as [Hok Hs].
  apply andb_true_iff in Hok. destruct Hok as [Hc Hpair].
  apply N.ltb_lt in Hc. apply negb_true_iff in Hpair.
  specialize (IH Hs rest).
  change (flat_map Json.escape_char (c :: s))
    with (Json.escape_char c ++ flat_map Json.escape_char s).
  rewrite <- app_assoc.
  set (tail := flat_map Json.escape_char s ++ QUOTE :: rest) in *.
  destruct (escape_char_view c) as [e He Hu | H1 H2 H3 | Hx | Hx].
  - change ([BACKSLASH; e] ++ tail) with (BACKSLASH :: e :: tail).
    rewrite (scanstring_short e c tail He Hu), IH. reflexivity.
  - change ([c] ++ tail) with (c :: tail).
    rewrite (scanstring_plain c tail H1 H2 H3), IH. reflexivity.
  - rewrite u_escape_app.
    rewrite (scanstring_u _ _ _ _ c tail (hex4_digits c Hx)), IH;
      [reflexivity |].
    destruct (Json.is_high_surrogate c) eqn:Hh; [right | now left].
    apply tail_no_low_ahead. exact Hpair.
  - rewrite <- app_assoc, u_escape_app, u_escape_app.
    destruct (high_part_range c) as (Hh & _ & Hhlt).
    destruct (low_part_range c) as (Hl & Hllt).
    rewrite (scanstring_pair _ _ _ _ _ _ _ _ (high_part c) (low_part c) tail
               (hex4_digits _ Hhlt) (hex4_digits _ Hllt) Hh Hl), IH.
    simpl. now rewrite join_parts.
Qed.

Local Close Scope N_scope.


Lemma pyobj_induction (P : pyobj -> Prop) :
  P PNone -> (forall b, P (PBool b)) -> (forall z, P (PInt z)) ->
  (forall f, P (PFloat f)) -> (forall s, P (PStr s)) ->
  (forall l, Forall P l -> P (PList l)) ->
  (forall d, Forall (fun kv => P (snd kv)) d -> P (PDict d)) ->
  forall o, P o.
Proof.
  intros HN HB HI HF HS HL HD.
  fix IH 1. intros [| b | z | f | s | l | d].
  - exact HN.
  - apply HB.
  - apply HI.
  - apply HF.
  - apply HS.
  - apply HL. induction l as [| x l IHl]; constructor; [apply IH | exact IHl].
  - apply HD. induction d as [| [k v] d IHd]; constructor;
      [apply IH | exact IHd].
Qed.

(** *** Dictionaries *)

Lemma eqb_eq (a b : str) : PyStr.eqb a b = true <-> a = b.
Proof.
  revert b. induction a as [| x a IH]; intros [| y b]; simpl;
    try (split; [discriminate | discriminate]); [tauto |].
  rewrite andb_true_iff, N.eqb_eq, IH.
  split; [intros [-> ->]; reflexivity | intros H; injection H; auto].
Qed.

Lemma dict_set_fresh (d : list (str * pyobj)) (k : str) (v : pyobj) :
  ~ In k (map fst d) -> dict_set d k v = d ++ [(k, v)].
Proof.
  induction d as [| [k' v'] d IH]; intros Hk; simpl; [reflexivity |].
  destruct (PyStr.eqb k' k) eqn:He.
  - apply eqb_eq in He. subst k'. exfalso. apply Hk. now left.
  - rewrite IH; [reflexivity |]. intros Hin. apply Hk. now right.
Qed.

Lemma dict_of_pairs_from (d acc : list (str * pyobj)) :
  NoDup (map fst (acc ++ d)) ->
  fold_left (fun m kv => dict_set m (fst kv) (snd kv)) d acc = acc ++ d.
Proof.
  revert acc. induction d as [| [k v] d IH]; intros acc Hnd; simpl.
  - now rewrite app_nil_r.
  - rewrite dict_set_fresh.
    + rewrite IH; rewrite <- app_assoc; [reflexivity | exact Hnd].
    + rewrite map_app in Hnd. simpl in Hnd.
      apply NoDup_remove_2 in Hnd. intros Hin. apply Hnd.
      apply in_or_app. now left.
Qed.

(** With distinct keys, [dict(pairs)] keeps the pairs as they come. *)
Lemma dict_of_pairs_distinct (d : list (str * pyobj)) :
  NoDup (map fst d) -> dict_of_pairs d = d.
Proof. intros H. unfold dict_of_pairs. now rewrite dict_of_pairs_from. Qed.

(** *** The first code point of a value *)

Lemma lex_int_head (s : str) (r : str * str) :
  Json.lex_int s = Some r -> number_head s.
Proof.
  unfold Json.lex_int. destruct s as [| c s]; [discriminate |].
  simpl. destruct (c =? 45)%N eqn:Hc.
  - intros _. left. now apply N.eqb_eq.
  - destruct (c =? 48)%N eqn:H0.
    + intros _. right. apply N.eqb_eq in H0. lia.
    + unfold Json.is_digit. destruct ((48 <=? c)%N && (c <=? 57)%N) eqn:Hd.
      * intros _. right. apply andb_true_iff in Hd.
        rewrite !N.leb_le in Hd. exact Hd.
      * discriminate.
Qed.

Lemma match_number_head (fol : str -> spec_float) (s : str)
  (res : pyobj * str) :
  Json.match_number fol s = Some res -> number_head s.
Proof.
  unfold Json.match_number.
  destruct (Json.lex_int s) as [r |] eqn:H; [| discriminate].
  intros _. now apply lex_int_head in H.
Qed.

Lemma startswith_head (c d : codepoint) (s p : str) :
  d <> c -> PyStr.startswith (c :: s) (d :: p) = false.
Proof.
  intros H. cbn [PyStr.startswith]. apply N.eqb_neq in H. now rewrite H.
Qed.

(** A number is read by [match_number], whatever the fuel. *)
Lemma scan_once_number (fol : str -> spec_float) (fuel : nat) (s : str)
  (res : pyobj * str) :
  Json.match_number fol s = Some res ->
  Json.scan_once fol (S fuel) s = Some res.
Proof.
  intros H. pose proof (match_number_head _ _ _ H) as Hh.
  destruct s as [| c s]; [contradiction |]. simpl in Hh.
  cbn [Json.scan_once].
  replace (c =? QUOTE)%N with false
    by (symmetry; apply N.eqb_neq; unfold QUOTE; lia).
  replace (c =? 123)%N with false by (symmetry; apply N.eqb_neq; lia).
  replace (c =? 91)%N with false by (symmetry; apply N.eqb_neq; lia).
  replace (PyStr.startswith (c :: s) (lit "null")) with false
    by (symmetry; apply (startswith_head c 110%N s (lit "ull")); lia).
  replace (PyStr.startswith (c :: s) (lit "true")) with false
    by (symmetry; apply (startswith_head c 116%N s (lit "rue")); lia).
  replace (PyStr.startswith (c :: s) (lit "false")) with false
    by (symmetry; apply (startswith_head c 102%N s (lit "alse")); lia).
  now rewrite H.
Qed.

Lemma number_head_value_head (s : str) : number_head s -> value_head s.
Proof.
  destruct s as [| c s]; [contradiction |]. simpl. intros H.
  unfold Json.is_ws. repeat split; try lia.
  repeat (apply orb_false_iff; split); apply N.eqb_neq; lia.
Qed.

Lemma number_head_app (s rest : str) : number_head s -> number_head (s ++ rest).
Proof. destruct s; [contradiction | exact (fun H => H)]. Qed.

Lemma value_head_app (s rest : str) : value_head s -> value_head (s ++ rest).
Proof. destruct s; [contradiction | exact (fun H => H)]. Qed.

Lemma skip_ws_value (s : str) : value_head s -> Json.skip_ws s = s.
Proof.
  destruct s as [| c s]; [contradiction |]. simpl. intros [H _].
  now rewrite H.
Qed.

Lemma skip_ws_keep (c : codepoint) (s : str) :
  Json.is_ws c = false -> Json.skip_ws (c :: s) = c :: s.
Proof. intros H. simpl. now rewrite H. Qed.

Lemma skip_ws_space (s : str) : Json.skip_ws (SPACE :: s) = Json.skip_ws s.
Proof. reflexivity. Qed.

Lemma skip_ws_spaces (n : nat) (s : str) :
  Json.skip_ws (repeat SPACE n ++ s) = Json.skip_ws s.
Proof. induction n as [| n IH]; [reflexivity | exact IH]. Qed.

Lemma skip_ws_newline_indent (indent : option nat) (level : nat) (s : str) :
  Json.skip_ws (Json.newline_indent indent level ++ s) = Json.skip_ws s.
Proof.
  destruct indent as [k |]; [| reflexivity].
  simpl. apply skip_ws_spaces.
Qed.

#[local] Set Warnings "-notation-for-abbreviation".

Section Decode.

Variable float_repr : spec_float -> str.
Variable float_of_literal : str -> spec_float.

Notation enc := (Json.encode float_repr).
Notation scan := (Json.scan_once float_of_literal).
Notation elems := (Json.parse_elems float_of_literal).
Notation members := (Json.parse_members float_of_literal).
Notation wf := (Json.well_formed float_repr float_of_literal).
Notation member := (Json.member float_repr).
Notation members_text := (Json.members_text float_repr).
Notation reads_back := (Json.reads_back float_repr float_of_literal).

(** The equations of the decoder. *)
Lemma scan_once_string (fuel : nat) (r : str) :
  scan (S fuel) (QUOTE :: r)
  = match Json.scanstring r with
    | Some (x, rest) => Some (PStr x, rest)
    | None => None
    end.
Proof. reflexivity. Qed.

Lemma scan_once_array (fuel : nat) (r : str) :
  scan (S fuel) (91%N :: r)
  = match Json.skip_ws r with
    | c1 :: r1 =>
        if (c1 =? 93)%N then Some (PList [], r1)
        else
          match elems fuel (c1 :: r1) with
          | Some (l, rest) => Some (PList l, rest)
          | None => None
          end
    | [] => None
    end.
Proof. reflexivity. Qed.

Lemma scan_once_object (fuel : nat) (r : str) :
  scan (S fuel) (123%N :: r)
  = match Json.skip_ws r with
    | c1 :: r1 =>
        if (c1 =? 125)%N then Some (PDict [], r1)
        else if (c1 =? QUOTE)%N then
          match members fuel r1 with
          | Some (pairs, rest) => Some (PDict (dict_of_pairs pairs), rest)
          | None => None
          end
        else None
    | [] => None
    end.
Proof. reflexivity. Qed.

Lemma parse_elems_eq (fuel : nat) (s : str) :
  elems (S fuel) s
  = match scan fuel s with
    | None => None
    | Some (v, r) =>
        match Json.skip_ws r with
        | [] => None
        | c :: r' =>
            if (c =? 93)%N then Some ([v], r')
            else if (c =? 44)%N then
              match elems fuel (Json.skip_ws r') with
              | Some (l, rest) => Some (v :: l, rest)
              | None => None
              end
            else None
        end
    end.
Proof. reflexivity. Qed.

Lemma parse_members_eq (fuel : nat) (s : str) :
  members (S fuel) s
  = match Json.scanstring s with
    | None => None
    | Some (key, r) =>
        match Json.skip_ws r with
        | [] => None
        | c :: r1 =>
            if (c =? 58)%N then
              match scan fuel (Json.skip_ws r1) with
              | None => None
              | Some (v, r2) =>
                  match Json.skip_ws r2 with
                  | [] => None
                  | c2 :: r3 =>
                      if (c2 =? 125)%N then Some ([(key, v)], r3)
                      else if (c2 =? 44)%N then
                        match Json.skip_ws r3 with
                        | [] => None
                        | c3 :: r4 =>
                            if (c3 =? QUOTE)%N then
                              match members fuel r4 with
                              | Some (ps, rest) => Some ((key, v) :: ps, rest)
                              | None => None
                              end
                            else None
                        end
                      else None
                  end
              end
            else None
        end
    end.
Proof. reflexivity. Qed.

(** The equations of the encoder on a container that is not empty. *)
Lemma encode_list_cons (indent : option nat) (level : nat) (x : pyobj)
  (l : list pyobj) :
  enc indent level (PList (x :: l))
  = 91%N :: Json.newline_indent indent (S level)
    ++ PyStr.join (Json.item_separator indent (S level))
         (map (enc indent (S level)) (x :: l))
    ++ Json.newline_indent indent level ++ [93%N].
Proof. reflexivity. Qed.

Lemma encode_dict_cons (indent : option nat) (level : nat) (p : str * pyobj)
  (d : list (str * pyobj)) :
  enc indent level (PDict (p :: d))
  = 123%N :: Json.newline_indent indent (S level)
    ++ PyStr.join (Json.item_separator indent (S level))
         (map (member indent (S level)) (p :: d))
    ++ Json.newline_indent indent level ++ [125%N].
Proof.
  cbn [Json.encode]. unfold Json.member.
  change (lit "{") with [123%N]. change (lit "}") with [125%N].
  cbn [app]. do 4 f_equal. apply map_ext. now intros [k v].
Qed.

Lemma encode_head (o : pyobj) (indent : option nat) (level : nat) :
  wf o -> value_head (enc indent level o).
Proof.
  intros H. destruct o as [| [|] | z | f | s | [| x l] | [| p d]];
    try (cbn; repeat split; try reflexivity; discriminate).
  - apply number_head_value_head.
    pose proof (match_number_int float_of_literal z [] eq_refl) as Hz.
    rewrite app_nil_r in Hz. now apply match_number_head in Hz.
  - inversion H as [| | | f' Hf | | |]; subst.
    destruct f as [sg | [|] | | sg m e];
      try (cbn; repeat split; try reflexivity; discriminate).
    + apply number_head_value_head.
      specialize (Hf [] eq_refl). rewrite app_nil_r in Hf.
      now apply match_number_head in Hf.
    + apply number_head_value_head.
      specialize (Hf [] eq_refl). rewrite app_nil_r in Hf.
      now apply match_number_head in Hf.
Qed.

Lemma item_separator_shape (indent : option nat) (level : nat) :
  exists ws,
    Json.item_separator indent level = 44%N :: ws
    /\ ws <> []
    /\ forall s, Json.skip_ws (ws ++ s) = Json.skip_ws s.
Proof.
  destruct indent as [k |].
  - exists (Json.newline_indent (Some k) level). repeat split.
    + discriminate.
    + apply skip_ws_newline_indent.
  - exists [SPACE]. repeat split. discriminate.
Qed.

Lemma delimited_close (indent : option nat) (level : nat) (c : codepoint)
  (rest : str) :
  (c = 93 \/ c = 125)%N ->
  Json.delimited (Json.newline_indent indent level ++ c :: rest) = true.
Proof.
  intros Hc. destruct indent as [k |]; [reflexivity |].
  simpl. destruct Hc as [-> | ->]; reflexivity.
Qed.

(** The items of an array, up to its closing bracket. *)
Lemma parse_elems_items (indent : option nat) (level level0 : nat)
  (l : list pyobj) :
  l <> [] -> Forall reads_back l -> Forall wf l ->
  forall fuel rest,
    2 * List.length (PyStr.join (Json.item_separator indent level)
                       (map (enc indent level) l)) + 2 <= fuel ->
    elems fuel
      (PyStr.join (Json.item_separator indent level) (map (enc indent level) l)
       ++ Json.newline_indent indent level0 ++ 93%N :: rest)
    = Some (l, rest).
Proof.
  intros Hne Hrb Hwf. induction l as [| x l IH]; [contradiction |].
  inversion Hrb as [| x' l' Hx Hl]; subst.
  inversion Hwf as [| x' l' Wx Wl]; subst.
  intros fuel rest Hfuel.
  destruct fuel as [| fuel]; [lia |]. rewrite parse_elems_eq.
  destruct l as [| y l].
  - cbn [map PyStr.join] in *.
    rewrite (Hx indent level fuel); [| now apply delimited_close; left | lia].
    rewrite skip_ws_newline_indent. cbn [Json.skip_ws].
    change (Json.is_ws 93%N) with false. cbv iota.
    now rewrite N.eqb_refl.
  - change (PyStr.join (Json.item_separator indent level)
              (map (enc indent level) (x :: y :: l)))
      with (enc indent level x ++ Json.item_separator indent level
            ++ PyStr.join (Json.item_separator indent level)
                 (map (enc indent level) (y :: l))) in *.
    destruct (item_separator_shape indent level) as (ws & Hsep & Hws & Hskip).
    rewrite Hsep in *.
    rewrite !length_app in Hfuel. cbn [List.length] in Hfuel.
    rewrite <- !app_assoc. cbn [app].
    rewrite (Hx indent level fuel); [| reflexivity | lia].
    cbn [Json.skip_ws]. change (Json.is_ws 44%N) with false. cbv iota.
    change (44 =? 93)%N with false. change (44 =? 44)%N with true. cbv iota.
    rewrite Hskip.
    rewrite skip_ws_value.
    + rewrite IH; [reflexivity | discriminate | exact Hl | exact Wl | lia].
    + cbn [map PyStr.join]. inversion Wl as [| y' l' Wy _]; subst.
      pose proof (encode_head y indent level Wy) as Hy.
      destruct l; cbn [map]; rewrite <- ?app_assoc; now apply value_head_app.
Qed.

Lemma join_members (indent : option nat) (level : nat) (p : str * pyobj)
  (d : list (str * pyobj)) :
  PyStr.join (Json.item_separator indent level)
    (map (member indent level) (p :: d))
  = QUOTE :: members_text indent level (p :: d).
Proof.
  revert p. induction d as [| q d IH]; intros [k v].
  - cbn [map PyStr.join Json.members_text]. unfold Json.member, Json.encode_string.
    cbn [fst snd app]. rewrite <- !app_assoc. cbn [app].
    now rewrite app_nil_r.
  - change (PyStr.join (Json.item_separator indent level)
              (map (member indent level) ((k, v) :: q :: d)))
      with (member indent level (k, v) ++ Json.item_separator indent level
            ++ PyStr.join (Json.item_separator indent level)
                 (map (member indent level) (q :: d))).
    rewrite IH. unfold Json.member, Json.encode_string.
    cbn [fst snd app Json.members_text]. rewrite <- !app_assoc. cbn [app].
    reflexivity.
Qed.

Lemma parse_members_text (indent : option nat) (level level0 : nat)
  (d : list (str * pyobj)) :
  d <> [] ->
  Forall (fun kv => reads_back (snd kv)) d ->
  Forall (fun kv => Json.str_ok (fst kv) = true /\ wf (snd kv)) d ->
  forall fuel rest,
    2 * List.length (members_text indent level d) + 2 <= fuel ->
    members fuel
      (members_text indent level d
       ++ Json.newline_indent indent level0 ++ 125%N :: rest)
    = Some (d, rest).
Proof.
  intros Hne Hrb Hwf. induction d as [| [k v] d IH]; [contradiction |].
  inversion Hrb as [| p' d' Hv Hd]; subst. cbn [snd] in Hv.
  inversion Hwf as [| p' d' [Wk Wv] Wd]; subst. cbn [fst snd] in Wk, Wv.
  intros fuel rest Hfuel.
  destruct fuel as [| fuel]; [lia |]. rewrite parse_members_eq.
  cbn [Json.members_text] in *.
  rewrite !length_app in Hfuel. cbn [List.length] in Hfuel.
  rewrite !length_app in Hfuel.
  rewrite <- !app_assoc. cbn [app]. rewrite <- !app_assoc.
  rewrite (scanstring_escaped k Wk).
  change Json.key_separator with [58%N; SPACE]. cbn [app].
  rewrite (skip_ws_keep 58%N) by reflexivity.
  change (58 =? 58)%N with true. cbv iota.
  rewrite skip_ws_space.
  rewrite skip_ws_value
    by (apply value_head_app, encode_head; exact Wv).
  destruct d as [| q d].
  - cbn [app].
    rewrite (Hv indent level fuel); [| now apply delimited_close; right | lia].
    rewrite skip_ws_newline_indent. cbn [Json.skip_ws].
    change (Json.is_ws 125%N) with false. cbv iota.
    now rewrite N.eqb_refl.
  - destruct (item_separator_shape indent level) as (ws & Hsep & Hws & Hskip).
    rewrite Hsep in *. cbn [List.length] in Hfuel.
    rewrite !length_app in Hfuel. cbn [List.length] in Hfuel.
    rewrite <- !app_assoc. cbn [app].
    rewrite (Hv indent level fuel); [| reflexivity | lia].
    cbn [Json.skip_ws]. change (Json.is_ws 44%N) with false. cbv iota.
    change (44 =? 125)%N with false. change (44 =? 44)%N with true. cbv iota.
    rewrite Hskip. cbn [Json.skip_ws].
    change (Json.is_ws QUOTE) with false. cbv iota.
    change (QUOTE =? QUOTE)%N with true. cbv iota.
    rewrite IH; [reflexivity | discriminate | exact Hd | exact Wd | lia].
Qed.

Lemma Forall_modus (A : Type) (P Q : A -> Prop) (l : list A) :
  Forall (fun x => P x -> Q x) l -> Forall P l -> Forall Q l.
Proof.
  induction 1 as [| x l H _ IH]; intros HP; [constructor |].
  inversion HP; subst. constructor; auto.
Qed.

Lemma scan_once_array_items (fuel : nat) (r text : str) (l : list pyobj)
  (rest : str) :
  Json.skip_ws r = text -> value_head text ->
  elems fuel text = Some (l, rest) ->
  scan (S fuel) (91%N :: r) = Some (PList l, rest).
Proof.
  intros Hr Hhead Hp. rewrite scan_once_array, Hr.
  destruct text as [| c1 r1]; [contradiction |].
  destruct Hhead as (_ & Hc & _). apply N.eqb_neq in Hc.
  now rewrite Hc, Hp.
Qed.

Lemma scan_once_object_members (fuel : nat) (r text : str)
  (d : list (str * pyobj)) (rest : str) :
  Json.skip_ws r = QUOTE :: text ->
  NoDup (map fst d) ->
  members fuel text = Some (d, rest) ->
  scan (S fuel) (123%N :: r) = Some (PDict d, rest).
Proof.
  intros Hr Hnd Hp. rewrite scan_once_object, Hr.
  change (QUOTE =? 125)%N with false. change (QUOTE =? QUOTE)%N with true.
  cbv iota. now rewrite Hp, dict_of_pairs_distinct.
Qed.

(** Every well-formed object reads back from its text. *)
Lemma scan_once_encode (o : pyobj) : wf o -> reads_back o.
Proof.
  induction o as [| b | z | f | s | l IHl | d IHd] using pyobj_induction;
    intros Hwf indent level fuel rest Hrest Hfuel;
    (destruct fuel as [| fuel]; [lia |]).
  - reflexivity.
  - destruct b; reflexivity.
  - apply scan_once_number, match_number_int, Hrest.
  - inversion Hwf as [| | | f' Hf | | |]; subst.
    destruct f as [sg | [|] | | sg m e]; try reflexivity;
      apply scan_once_number; exact (Hf rest Hrest).
  - inversion Hwf as [| | | | s' Hs | |]; subst.
    cbn [Json.encode]. unfold Json.encode_string.
    cbn [app]. rewrite <- app_assoc. cbn [app].
    rewrite scan_once_string, (scanstring_escaped s Hs). reflexivity.
  - inversion Hwf as [| | | | | l' Hl |]; subst.
    destruct l as [| x l]; [reflexivity |].
    rewrite encode_list_cons in *. cbn [app].
    cbn [List.length] in Hfuel. rewrite !length_app in Hfuel.
    assert (Hhead : value_head
              (PyStr.join (Json.item_separator indent (S level))
                 (map (enc indent (S level)) (x :: l))
               ++ Json.newline_indent indent level ++ 93%N :: rest)).
    { inversion Hl as [| x' l' Wx _]; subst.
      pose proof (encode_head x indent (S level) Wx) as Hx.
      destruct l; cbn [map PyStr.join]; rewrite <- ?app_assoc;
        now apply value_head_app. }
    apply scan_once_array_items
      with (text := PyStr.join (Json.item_separator indent (S level))
                      (map (enc indent (S level)) (x :: l))
                    ++ Json.newline_indent indent level ++ 93%N :: rest).
    + rewrite <- !app_assoc. rewrite skip_ws_newline_indent.
      now apply skip_ws_value.
    + exact Hhead.
    + apply parse_elems_items;
        [discriminate | exact (Forall_modus _ _ _ _ IHl Hl) | exact Hl | lia].
  - inversion Hwf as [| | | | | | d' Hnd Hd]; subst.
    destruct d as [| p d]; [reflexivity |].
    rewrite encode_dict_cons in *. cbn [app].
    cbn [List.length] in Hfuel. rewrite !length_app in Hfuel.
    rewrite join_members in *. cbn [List.length] in Hfuel.
    assert (Hrb : Forall (fun kv => reads_back (snd kv)) (p :: d)).
    { clear - IHd Hd. induction IHd as [| q d' Hq _ IH]; [constructor |].
      inversion Hd as [| q' d'' [_ Wq] Hd']; subst.
      constructor; [now apply Hq | now apply IH]. }
    apply scan_once_object_members
      with (text := members_text indent (S level) (p :: d)
                    ++ Json.newline_indent indent level ++ 125%N :: rest).
    + rewrite <- !app_assoc. rewrite skip_ws_newline_indent.
      cbn [app]. now apply skip_ws_keep.
    + exact Hnd.
    + apply parse_members_text; [discriminate | exact Hrb | exact Hd | lia].
Qed.

(** [json.loads] of [json.dumps], with or without indentation. *)
Lemma loads_encode (indent : option nat) (o : pyobj) :
  wf o ->
  Json.loads float_of_literal (enc indent 0 o) = Some o.
Proof.
  intros Hwf. unfold Json.loads.
  pose proof (encode_head o indent 0 Hwf) as Hhead.
  assert (Hbom : PyStr.startswith (enc indent 0 o) [65279%N] = false).
  { destruct (enc indent 0 o) as [| c r]; [contradiction |].
    destruct Hhead as (_ & _ & _ & Hc).
    apply startswith_head. congruence. }
  rewrite Hbom, (skip_ws_value _ Hhead).
  pose proof (scan_once_encode o Hwf indent 0
                (2 * List.length (enc indent 0 o) + 2) [] eq_refl
                ltac:(lia)) as H.
  rewrite app_nil_r in H. now rewrite H.
Qed.

End Decode.

(** ** What the decoder builds is well formed *)

Lemma tail_of_refl (s : str) : tail_of s s.
Proof. now exists []. Qed.

Lemma tail_of_cons (c : codepoint) (r s : str) : tail_of r s -> tail_of r (c :: s).
Proof. intros [p ->]. now exists (c :: p). Qed.

Lemma tail_of_trans (r s t : str) : tail_of r s -> tail_of s t -> tail_of r t.
Proof. intros [p ->] [q ->]. exists (q ++ p). now rewrite app_assoc. Qed.

Lemma scalar_text_tail (r s : str) : tail_of r s -> scalar_text s -> scalar_text r.
Proof. intros [p ->] H. now apply Forall_app in H. Qed.

Lemma skip_ws_tail (s : str) : tail_of (Json.skip_ws s) s.
Proof.
  induction s as [| c s IH]; simpl; [apply tail_of_refl |].
  destruct (Json.is_ws c); [now apply tail_of_cons | apply tail_of_refl].
Qed.

Lemma skipn_tail (n : nat) (s : str) : tail_of (skipn n s) s.
Proof. exists (firstn n s). symmetry. apply firstn_skipn. Qed.

Lemma span_digits_tail (s : str) : tail_of (snd (Json.span_digits s)) s.
Proof.
  induction s as [| c s IH]; simpl; [apply tail_of_refl |].
  destruct (Json.is_digit c); [| apply tail_of_refl].
  destruct (Json.span_digits s) as [d r]. simpl in *. now apply tail_of_cons.
Qed.

Lemma lex_int_tail (s i r : str) : Json.lex_int s = Some (i, r) -> tail_of r s.
Proof.
  unfold Json.lex_int. destruct s as [| c s']; [discriminate |].
  destruct (c =? 45)%N.
  - destruct s' as [| c' s2]; [discriminate |].
    pose proof (span_digits_tail s2) as Hs.
    destruct (c' =? 48)%N;
      [| destruct (Json.is_digit c');
         [destruct (Json.span_digits s2) as [d r'] | discriminate]];
      intros [= _ <-]; repeat apply tail_of_cons;
      [apply tail_of_refl | exact Hs].
  - pose proof (span_digits_tail s') as Hs.
    destruct (c =? 48)%N;
      [| destruct (Json.is_digit c);
         [destruct (Json.span_digits s') as [d r'] | discriminate]];
      intros [= _ <-]; repeat apply tail_of_cons;
      [apply tail_of_refl | exact Hs].
Qed.

Lemma lex_frac_tail (s : str) : tail_of (snd (Json.lex_frac s)) s.
Proof.
  unfold Json.lex_frac. destruct s as [| c s']; [apply tail_of_refl |].
  destruct (c =? 46)%N; [| apply tail_of_refl].
  pose proof (span_digits_tail s') as Hs.
  destruct (Json.span_digits s') as [[| x d] r]; simpl in *;
    [apply tail_of_refl | now apply tail_of_cons].
Qed.

Lemma lex_exp_tail (s : str) : tail_of (snd (Json.lex_exp s)) s.
Proof.
  unfold Json.lex_exp. destruct s as [| c s']; [apply tail_of_refl |].
  destruct ((c =? 101)%N || (c =? 69)%N); [| apply tail_of_refl].
  destruct s' as [| d s''].
  - simpl. apply tail_of_refl.
  - destruct ((d =? 45)%N || (d =? 43)%N).
    + pose proof (span_digits_tail s'') as Hs.
      destruct (Json.span_digits s'') as [[| x ds] r]; simpl in *;
        [apply tail_of_refl | now repeat apply tail_of_cons].
    + pose proof (span_digits_tail (d :: s'')) as Hs.
      destruct (Json.span_digits (d :: s'')) as [[| x ds] r]; simpl in *;
        [apply tail_of_refl | now apply tail_of_cons].
Qed.

(** A number is an [int], or the float of its literal. *)
Lemma match_number_sound (fol : str -> spec_float) (s r : str) (v : pyobj) :
  Json.match_number fol s = Some (v, r) ->
  tail_of r s /\ ((exists z, v = PInt z) \/ (exists t, v = PFloat (fol t))).
Proof.
  unfold Json.match_number.
  destruct (Json.lex_int s) as [[i s1] |] eqn:Hi; [| discriminate].
  apply lex_int_tail in Hi.
  pose proof (lex_frac_tail s1) as Hf.
  destruct (Json.lex_frac s1) as [f s2].
  pose proof (lex_exp_tail s2) as He.
  destruct (Json.lex_exp s2) as [e s3]. simpl in *.
  assert (Ht : tail_of s3 s)
    by (eapply tail_of_trans; [exact He |];
        eapply tail_of_trans; [exact Hf | exact Hi]).
  destruct (f ++ e); intros [= <- <-]; (split; [exact Ht |]);
    [left | right]; eauto.
Qed.

Local Open Scope N_scope.

Lemma scalar_facts (c : N) :
  scalar c = true ->
  c < 1114112 /\ Json.is_high_surrogate c = false
  /\ Json.is_low_surrogate c = false.
Proof.
  unfold scalar, Json.is_high_surrogate, Json.is_low_surrogate.
  intros H. apply andb_true_iff in H. destruct H as [H1 H2].
  apply N.ltb_lt in H1. apply negb_true_iff, andb_false_iff in H2.
  rewrite !N.leb_gt in H2.
  repeat split; [exact H1 | |];
    apply andb_false_iff; rewrite !N.leb_gt.
  - lia.
  - lia.
Qed.

Lemma some_eq (A : Type) (a b : A) : Some a = Some b -> a = b.
Proof. congruence. Qed.

Lemma some_pair_eq (A B : Type) (a a' : A) (b b' : B) :
  Some (a, b) = Some (a', b') -> a = a' /\ b = b'.
Proof. intros H. split; congruence. Qed.

Lemma hex_val_bound (c : codepoint) (v : N) : Json.hex_val c = Some v -> v < 16.
Proof.
  unfold Json.hex_val, Json.is_digit.
  destruct ((48 <=? c) && (c <=? 57)) eqn:H1.
  { apply andb_true_iff in H1. rewrite !N.leb_le in H1.
    intros [= <-]. lia. }
  destruct ((97 <=? c) && (c <=? 102)) eqn:H2.
  { apply andb_true_iff in H2. rewrite !N.leb_le in H2.
    intros [= <-]. lia. }
  destruct ((65 <=? c) && (c <=? 70)) eqn:H3; [| discriminate].
  apply andb_true_iff in H3. rewrite !N.leb_le in H3.
  intros [= <-]. lia.
Qed.

Lemma hex4_bound (a b c d : codepoint) (u : N) :
  Json.hex4 a b c d = Some u -> u < 65536.
Proof.
  unfold Json.hex4.
  destruct (Json.hex_val a) as [x |] eqn:Ha; [| discriminate].
  destruct (Json.hex_val b) as [y |] eqn:Hb; [| discriminate].
  destruct (Json.hex_val c) as [z |] eqn:Hc; [| discriminate].
  destruct (Json.hex_val d) as [w |] eqn:Hd; [| discriminate].
  apply hex_val_bound in Ha. apply hex_val_bound in Hb.
  apply hex_val_bound in Hc. apply hex_val_bound in Hd.
  intros H. apply some_eq in H. subst u. lia.
Qed.

Lemma join_surrogates_range (hi lo : N) :
  Json.is_high_surrogate hi = true -> Json.is_low_surrogate lo = true ->
  65536 <= Json.join_surrogates hi lo < 1114112.
Proof.
  unfold Json.is_high_surrogate, Json.is_low_surrogate, Json.join_surrogates.
  rewrite !andb_true_iff, !N.leb_le. lia.
Qed.

Lemma unescape_range (e x : codepoint) : Json.unescape e = Some x -> x < 128.
Proof.
  unfold Json.unescape, QUOTE, BACKSLASH.
  repeat match goal with
         | |- (if ?b then _ else _) = _ -> _ => destruct b
         end; try discriminate; intros [= <-]; lia.
Qed.

Lemma not_low (c : codepoint) :
  c < 56320 \/ 57344 <= c -> Json.is_low_surrogate c = false.
Proof.
  intros H. unfold Json.is_low_surrogate.
  apply andb_false_iff. rewrite !N.leb_gt. lia.
Qed.

Lemma not_high (c : codepoint) :
  c < 55296 \/ 56320 <= c -> Json.is_high_surrogate c = false.
Proof.
  intros H. unfold Json.is_high_surrogate.
  apply andb_false_iff. rewrite !N.leb_gt. lia.
Qed.

(** The equations of [scanstring]. *)
Lemma scanstring_u_eq (a b c d : codepoint) (r : str) :
  Json.scanstring (BACKSLASH :: 117 :: a :: b :: c :: d :: r)
  = match Json.hex4 a b c d with
    | None => None
    | Some u1 =>
        if Json.is_high_surrogate u1 then
          match r with
          | x :: y :: a2 :: b2 :: c2 :: d2 :: r2 =>
              if (x =? BACKSLASH) && (y =? 117) then
                match Json.hex4 a2 b2 c2 d2 with
                | None => None
                | Some u2 =>
                    if Json.is_low_surrogate u2
                    then Json.cons_to (Json.join_surrogates u1 u2)
                           (Json.scanstring r2)
                    else Json.cons_to u1 (Json.scanstring r)
                end
              else Json.cons_to u1 (Json.scanstring r)
          | _ => Json.cons_to u1 (Json.scanstring r)
          end
        else Json.cons_to u1 (Json.scanstring r)
    end.
Proof. reflexivity. Qed.

Lemma scanstring_escape_eq (e : codepoint) (t : str) :
  (e =? 117) = false ->
  Json.scanstring (BACKSLASH :: e :: t)
  = match Json.unescape e with
    | Some x => Json.cons_to x (Json.scanstring t)
    | None => None
    end.
Proof. intros H. simpl. now rewrite H. Qed.

Lemma scanstring_raw_eq (c : codepoint) (t : str) :
  (c =? QUOTE) = false -> (c =? BACKSLASH) = false ->
  Json.scanstring (c :: t)
  = if c <=? 31 then None else Json.cons_to c (Json.scanstring t).
Proof. intros H1 H2. simpl. now rewrite H1, H2. Qed.

Lemma cons_to_some (c : codepoint) (o : option (str * str)) (x r : str) :
  Json.cons_to c o = Some (x, r) ->
  exists x', x = c :: x' /\ o = Some (x', r).
Proof.
  destruct o as [[x' r'] |]; [| discriminate].
  intros [= <- <-]. now exists x'.
Qed.

(** One more code point in front of a scanned rest. *)
Lemma scanned_step (c : codepoint) (t s x r : str) :
  scanned t -> tail_of t s -> c < 1114112 ->
  (Json.is_high_surrogate c = true -> ~ low_escape_first t) ->
  Json.cons_to c (Json.scanstring t) = Some (x, r) ->
  Json.str_ok x = true /\ tail_of r s /\ exists x', x = c :: x'.
Proof.
  intros Ht Hts Hc Hhigh H.
  apply cons_to_some in H. destruct H as (x' & -> & H).
  destruct (Ht x' r H) as (Hok & Htail & Hlow).
  split; [| split; [now apply tail_of_trans with t | now exists x']].
  simpl. rewrite Hok, andb_true_r.
  apply andb_true_iff. split; [now apply N.ltb_lt |].
  apply negb_true_iff.
  destruct (Json.is_high_surrogate c) eqn:Hh; [| reflexivity].
  destruct (Json.starts_low x') eqn:Hl; [| reflexivity].
  exfalso. now apply (Hhigh eq_refl), Hlow.
Qed.

Lemma high_not_low (u : N) :
  Json.is_high_surrogate u = true -> Json.is_low_surrogate u = false.
Proof.
  unfold Json.is_high_surrogate. rewrite andb_true_iff, !N.leb_le.
  intros H. apply not_low. lia.
Qed.

(** On a text of scalar values [scanstring] builds well-formed strings. *)
Lemma scanstring_scanned (n : nat) :
  forall s, (List.length s <= n)%nat -> scalar_text s -> scanned s.
Proof.
  induction n as [| n IH]; intros s Hlen Hs x r H.
  { destruct s; [discriminate H | simpl in Hlen; lia]. }
  destruct s as [| c s']; [discriminate H |].
  simpl in Hlen.
  inversion Hs as [| c0 s0 Hc Hs']; subst.
  destruct (scalar_facts c Hc) as (Hc1 & Hc2 & Hc3).
  destruct (c =? QUOTE) eqn:Hq.
  { simpl in H. rewrite Hq in H. apply some_eq in H.
    injection H as <- <-.
    split; [reflexivity |].
    split; [apply tail_of_cons, tail_of_refl | discriminate]. }
  destruct (c =? BACKSLASH) eqn:Hb.
  2:{ rewrite (scanstring_raw_eq c s' Hq Hb) in H.
      destruct (c <=? 31); [discriminate H |].
      destruct (scanned_step c s' (c :: s') x r) as (Hok & Htl & x' & ->);
        [apply IH; [lia | exact Hs'] | apply tail_of_cons, tail_of_refl
         | exact Hc1 | congruence | exact H |].
      split; [exact Hok | split; [exact Htl |]].
      simpl. congruence. }
  apply N.eqb_eq in Hb. subst c.
  destruct s' as [| e s'']; [discriminate H |].
  inversion Hs' as [| e0 s0 He Hs'']; subst. simpl in Hlen.
  destruct (e =? 117) eqn:He117.
  2:{ rewrite (scanstring_escape_eq e s'' He117) in H.
      destruct (Json.unescape e) as [x1 |] eqn:Hu; [| discriminate H].
      pose proof (unescape_range e x1 Hu) as Hx1.
      destruct (scanned_step x1 s'' (BACKSLASH :: e :: s'') x r)
        as (Hok & Htl & x' & ->);
        [apply IH; [lia | exact Hs''] | do 2 apply tail_of_cons; apply tail_of_refl
         | lia | rewrite not_high by lia; discriminate | exact H |].
      split; [exact Hok | split; [exact Htl |]].
      simpl. rewrite not_low by lia. discriminate. }
  apply N.eqb_eq in He117. subst e.
  destruct s'' as [| a [| b [| c1 [| d r0]]]]; try discriminate H.
  assert (Hr0 : scalar_text r0).
  { apply (scalar_text_tail r0 (a :: b :: c1 :: d :: r0));
      [do 4 apply tail_of_cons; apply tail_of_refl | exact Hs'']. }
  assert (Hlen0 : (List.length r0 <= n)%nat) by (simpl in Hlen; lia).
  assert (Htail0 : tail_of r0 (BACKSLASH :: 117 :: a :: b :: c1 :: d :: r0))
    by (do 6 apply tail_of_cons; apply tail_of_refl).
  rewrite scanstring_u_eq in H.
  destruct (Json.hex4 a b c1 d) as [u1 |] eqn:Hu1; [| discriminate H].
  pose proof (hex4_bound a b c1 d u1 Hu1) as Hb1.
  (* the code point [u1] stands alone in front of the rest [r0] *)
  assert (Halone :
            (Json.is_high_surrogate u1 = true -> ~ low_escape_first r0) ->
            Json.cons_to u1 (Json.scanstring r0) = Some (x, r) ->
            Json.str_ok x = true
            /\ tail_of r (BACKSLASH :: 117 :: a :: b :: c1 :: d :: r0)
            /\ (Json.starts_low x = true ->
                low_escape_first (BACKSLASH :: 117 :: a :: b :: c1 :: d :: r0))).
  { intros Hno H1.
    destruct (scanned_step u1 r0 (BACKSLASH :: 117 :: a :: b :: c1 :: d :: r0)
                x r) as (Hok & Htl & x' & ->);
      [apply IH; assumption | exact Htail0 | lia | exact Hno | exact H1 |].
    split; [exact Hok | split; [exact Htl |]].
    simpl. intros Hlow. now exists a, b, c1, d, r0, u1. }
  destruct (Json.is_high_surrogate u1) eqn:Hh.
  2:{ apply Halone; [discriminate | exact H]. }
  destruct r0 as [| x0 [| y0 [| a2 [| b2 [| c2 [| d2 r2]]]]]];
    try (apply Halone; [| exact H];
         intros _ (a' & b' & c' & d' & r' & u' & Heq & _); discriminate Heq).
  destruct ((x0 =? BACKSLASH) && (y0 =? 117)) eqn:Hxy.
  2:{ apply Halone; [| exact H].
      intros _ (a' & b' & c' & d' & r' & u' & Heq & _).
      injection Heq as -> -> _. discriminate Hxy. }
  destruct (Json.hex4 a2 b2 c2 d2) as [u2 |] eqn:Hu2; [| discriminate H].
  destruct (Json.is_low_surrogate u2) eqn:Hl2.
  2:{ apply Halone; [| exact H].
      intros _ (a' & b' & c' & d' & r' & u' & Heq & Hu' & Hl').
      injection Heq as _ _ -> -> -> -> _. congruence. }
  pose proof (join_surrogates_range u1 u2 Hh Hl2) as Hj.
  destruct (scanned_step (Json.join_surrogates u1 u2) r2
              (BACKSLASH :: 117 :: a :: b :: c1 :: d
               :: x0 :: y0 :: a2 :: b2 :: c2 :: d2 :: r2) x r)
    as (Hok & Htl & x' & ->).
  - apply IH; [simpl in Hlen0; lia |].
    apply (scalar_text_tail r2 (x0 :: y0 :: a2 :: b2 :: c2 :: d2 :: r2));
      [do 6 apply tail_of_cons; apply tail_of_refl | exact Hr0].
  - do 12 apply tail_of_cons. apply tail_of_refl.
  - lia.
  - rewrite not_high by lia. discriminate.
  - exact H.
  - split; [exact Hok | split; [exact Htl |]].
    simpl. rewrite not_low by lia. discriminate.
Qed.

Lemma scanstring_sound (s x r : str) :
  scalar_text s -> Json.scanstring s = Some (x, r) ->
  Json.str_ok x = true /\ tail_of r s.
Proof.
  intros Hs H.
  destruct (scanstring_scanned (List.length s) s (le_n _) Hs x r H)
    as (Hok & Htl & _).
  now split.
Qed.

Local Close Scope N_scope.

(** *** Dictionaries built by the decoder *)

Section DictInvariant.

Variable P : str * pyobj -> Prop.

Lemma dict_set_keys (d : list (str * pyobj)) (k : str) (v : pyobj) :
  NoDup (map fst d) -> NoDup (map fst (dict_set d k v)).
Proof.
  intros Hnd.
  destruct (in_dec (list_eq_dec N.eq_dec) k (map fst d)) as [Hin | Hout].
  - replace (map fst (dict_set d k v)) with (map fst d); [exact Hnd |].
    clear Hnd. induction d as [| [k' v'] d IH]; [contradiction |].
    simpl. destruct (PyStr.eqb k' k) eqn:He; simpl; [reflexivity |].
    rewrite <- IH; [reflexivity |].
    destruct Hin as [Hk | Hin]; [| exact Hin].
    simpl in Hk. subst k'. now rewrite eqb_refl in He.
  - rewrite dict_set_fresh by exact Hout.
    rewrite map_app. simpl.
    apply NoDup_app; [exact Hnd | repeat constructor; intros [] |].
    intros x Hx [<- | []]. contradiction.
Qed.

Lemma dict_set_Forall (d : list (str * pyobj)) (k : str) (v : pyobj) :
  Forall P d -> P (k, v) -> Forall P (dict_set d k v).
Proof.
  intros Hd Hkv. induction Hd as [| [k' v'] d Hp Hd IH]; simpl.
  - now repeat constructor.
  - destruct (PyStr.eqb k' k) eqn:He.
    + apply eqb_eq in He. subst k'. now constructor.
    + now constructor.
Qed.

Lemma dict_of_pairs_invariant (pairs : list (str * pyobj)) :
  Forall P pairs ->
  NoDup (map fst (dict_of_pairs pairs)) /\ Forall P (dict_of_pairs pairs).
Proof.
  unfold dict_of_pairs. intros Hp.
  assert (Hgen : forall acc,
            NoDup (map fst acc) -> Forall P acc ->
            NoDup (map fst (fold_left
                              (fun m kv => dict_set m (fst kv) (snd kv))
                              pairs acc))
            /\ Forall P (fold_left
                           (fun m kv => dict_set m (fst kv) (snd kv))
                           pairs acc)).
  { induction Hp as [| [k v] pairs Hkv Hp IH]; intros acc Hnd Hacc;
      [now split |].
    simpl. apply IH; [now apply dict_set_keys | now apply dict_set_Forall]. }
  apply Hgen; constructor.
Qed.

End DictInvariant.

(** *** The decoder *)

Lemma skip_ws_cons_tail (s r : str) (c : codepoint) :
  Json.skip_ws s = c :: r -> tail_of (c :: r) s /\ tail_of r s.
Proof.
  intros H. pose proof (skip_ws_tail s) as Ht. rewrite H in Ht.
  split; [exact Ht |].
  apply tail_of_trans with (c :: r); [apply tail_of_cons, tail_of_refl | exact Ht].
Qed.

Section Sound.

Variable float_repr : spec_float -> str.
Variable float_of_literal : str -> spec_float.

(** What the interpreter guarantees: the [repr] of a float that [float]
    built reads back as that float. *)
Hypothesis float_contract :
  forall t, Json.float_text_ok float_repr float_of_literal (float_of_literal t).

Notation scan := (Json.scan_once float_of_literal).
Notation elems := (Json.parse_elems float_of_literal).
Notation members := (Json.parse_members float_of_literal).
Notation wf := (Json.well_formed float_repr float_of_literal).
Notation wf_member :=
  (fun kv : str * pyobj => Json.str_ok (fst kv) = true /\ wf (snd kv)).

(** What the three functions of the decoder guarantee with [fuel]. *)
Notation sound_at fuel :=
  ((forall s v r, scalar_text s -> scan fuel s = Some (v, r) ->
                  wf v /\ tail_of r s)
   /\ (forall s l r, scalar_text s -> elems fuel s = Some (l, r) ->
                     Forall wf l /\ tail_of r s)
   /\ (forall s ps r, scalar_text s -> members fuel s = Some (ps, r) ->
                      Forall wf_member ps /\ tail_of r s)).

Lemma scan_once_eq (fuel : nat) (c : codepoint) (r : str) :
  scan (S fuel) (c :: r)
  = if (c =? QUOTE)%N then
      match Json.scanstring r with
      | Some (x, rest) => Some (PStr x, rest)
      | None => None
      end
    else if (c =? 123)%N then
      match Json.skip_ws r with
      | c1 :: r1 =>
          if (c1 =? 125)%N then Some (PDict [], r1)
          else if (c1 =? QUOTE)%N then
            match members fuel r1 with
            | Some (pairs, rest) => Some (PDict (dict_of_pairs pairs), rest)
            | None => None
            end
          else None
      | [] => None
      end
    else if (c =? 91)%N then
      match Json.skip_ws r with
      | c1 :: r1 =>
          if (c1 =? 93)%N then Some (PList [], r1)
          else
            match elems fuel (c1 :: r1) with
            | Some (l, rest) => Some (PList l, rest)
            | None => None
            end
      | [] => None
      end
    else if PyStr.startswith (c :: r) (lit "null")
         then Some (PNone, skipn 4 (c :: r))
    else if PyStr.startswith (c :: r) (lit "true")
         then Some (PBool true, skipn 4 (c :: r))
    else if PyStr.startswith (c :: r) (lit "false")
         then Some (PBool false, skipn 5 (c :: r))
    else
      match Json.match_number float_of_literal (c :: r) with
      | Some res => Some res
      | None =>
          if PyStr.startswith (c :: r) (lit "NaN")
          then Some (PFloat S754_nan, skipn 3 (c :: r))
          else if PyStr.startswith (c :: r) (lit "Infinity")
          then Some (PFloat (S754_infinity false), skipn 8 (c :: r))
          else if PyStr.startswith (c :: r) (lit "-Infinity")
          then Some (PFloat (S754_infinity true), skipn 9 (c :: r))
          else None
      end.
Proof. reflexivity. Qed.

Lemma scan_sound_step (fuel : nat) :
  sound_at fuel ->
  forall s v r, scalar_text s -> scan (S fuel) s = Some (v, r) ->
                wf v /\ tail_of r s.
Proof.
  intros (IH1 & IH2 & IH3) s v r Hs H.
  destruct s as [| c r0]; [discriminate H |].
  assert (Hr0 : scalar_text r0) by now inversion Hs.
  rewrite scan_once_eq in H.
  destruct (c =? QUOTE)%N.
  { destruct (Json.scanstring r0) as [[x rest] |] eqn:Hx; [| discriminate H].
    apply some_pair_eq in H. destruct H as [<- <-].
    destruct (scanstring_sound r0 x rest Hr0 Hx) as [Hok Ht].
    split; [now constructor | now apply tail_of_cons]. }
  destruct (c =? 123)%N.
  { destruct (Json.skip_ws r0) as [| c1 r1] eqn:Hw; [discriminate H |].
    destruct (skip_ws_cons_tail r0 r1 c1 Hw) as [Ht1 Ht2].
    destruct (c1 =? 125)%N.
    { apply some_pair_eq in H. destruct H as [<- <-].
      split; [repeat constructor | now apply tail_of_cons]. }
    destruct (c1 =? QUOTE)%N; [| discriminate H].
    destruct (members fuel r1) as [[pairs rest] |] eqn:Hm; [| discriminate H].
    apply some_pair_eq in H. destruct H as [<- <-].
    destruct (IH3 r1 pairs rest (scalar_text_tail _ _ Ht2 Hr0) Hm) as [Hp Ht].
    destruct (dict_of_pairs_invariant _ pairs Hp) as [Hnd Hall].
    split; [now constructor |].
    apply tail_of_cons. now apply tail_of_trans with r1. }
  destruct (c =? 91)%N.
  { destruct (Json.skip_ws r0) as [| c1 r1] eqn:Hw; [discriminate H |].
    destruct (skip_ws_cons_tail r0 r1 c1 Hw) as [Ht1 Ht2].
    destruct (c1 =? 93)%N.
    { apply some_pair_eq in H. destruct H as [<- <-].
      split; [repeat constructor | now apply tail_of_cons]. }
    destruct (elems fuel (c1 :: r1)) as [[l rest] |] eqn:He; [| discriminate H].
    apply some_pair_eq in H. destruct H as [<- <-].
    destruct (IH2 (c1 :: r1) l rest (scalar_text_tail _ _ Ht1 Hr0) He)
      as [Hl Ht].
    split; [now constructor |].
    apply tail_of_cons. now apply tail_of_trans with (c1 :: r1). }
  destruct (PyStr.startswith (c :: r0) (lit "null")).
  { apply some_pair_eq in H. destruct H as [<- <-].
    split; [constructor | apply skipn_tail]. }
  destruct (PyStr.startswith (c :: r0) (lit "true")).
  { apply some_pair_eq in H. destruct H as [<- <-].
    split; [constructor | apply skipn_tail]. }
  destruct (PyStr.startswith (c :: r0) (lit "false")).
  { apply some_pair_eq in H. destruct H as [<- <-].
    split; [constructor | apply skipn_tail]. }
  destruct (Json.match_number float_of_literal (c :: r0)) as [[v' r'] |] eqn:Hn.
  { apply some_pair_eq in H. destruct H as [<- <-].
    destruct (match_number_sound _ _ _ _ Hn) as [Ht [[z ->] | [t ->]]].
    - split; [constructor | exact Ht].
    - split; [constructor; apply float_contract | exact Ht]. }
  destruct (PyStr.startswith (c :: r0) (lit "NaN")).
  { apply some_pair_eq in H. destruct H as [<- <-].
    split; [now constructor | apply skipn_tail]. }
  destruct (PyStr.startswith (c :: r0) (lit "Infinity")).
  { apply some_pair_eq in H. destruct H as [<- <-].
    split; [now constructor | apply skipn_tail]. }
  destruct (PyStr.startswith (c :: r0) (lit "-Infinity")); [| discriminate H].
  apply some_pair_eq in H. destruct H as [<- <-].
  split; [now constructor | apply skipn_tail].
Qed.

Lemma elems_sound_step (fuel : nat) :
  sound_at fuel ->
  forall s l r, scalar_text s -> elems (S fuel) s = Some (l, r) ->
                Forall wf l /\ tail_of r s.
Proof.
  intros (IH1 & IH2 & IH3) s l r Hs H.
  rewrite parse_elems_eq in H.
  destruct (scan fuel s) as [[v r1] |] eqn:Hv; [| discriminate H].
  destruct (IH1 s v r1 Hs Hv) as [Wv Ht1].
  destruct (Json.skip_ws r1) as [| c r2] eqn:Hw; [discriminate H |].
  destruct (skip_ws_cons_tail r1 r2 c Hw) as [_ Ht2].
  assert (Ht : tail_of r2 s) by now apply tail_of_trans with r1.
  destruct (c =? 93)%N.
  { apply some_pair_eq in H. destruct H as [<- <-].
    split; [now repeat constructor | exact Ht]. }
  destruct (c =? 44)%N; [| discriminate H].
  destruct (elems fuel (Json.skip_ws r2)) as [[l' rest] |] eqn:Hl;
    [| discriminate H].
  apply some_pair_eq in H. destruct H as [<- <-].
  assert (Ht3 : tail_of (Json.skip_ws r2) s)
    by (apply tail_of_trans with r2; [apply skip_ws_tail | exact Ht]).
  destruct (IH2 _ l' rest (scalar_text_tail _ _ Ht3 Hs) Hl) as [Wl Ht4].
  split; [now constructor | now apply tail_of_trans with (Json.skip_ws r2)].
Qed.

Lemma members_sound_step (fuel : nat) :
  sound_at fuel ->
  forall s ps r, scalar_text s -> members (S fuel) s = Some (ps, r) ->
                 Forall wf_member ps /\ tail_of r s.
Proof.
  intros (IH1 & IH2 & IH3) s ps r Hs H.
  rewrite parse_members_eq in H.
  destruct (Json.scanstring s) as [[key r0] |] eqn:Hk; [| discriminate H].
  destruct (scanstring_sound s key r0 Hs Hk) as [Wk Ht0].
  destruct (Json.skip_ws r0) as [| c r1] eqn:Hw0; [discriminate H |].
  destruct (skip_ws_cons_tail r0 r1 c Hw0) as [_ Ht1].
  destruct (c =? 58)%N; [| discriminate H].
  assert (Ht2 : tail_of (Json.skip_ws r1) s).
  { apply tail_of_trans with r1; [apply skip_ws_tail |].
    now apply tail_of_trans with r0. }
  destruct (scan fuel (Json.skip_ws r1)) as [[v r2] |] eqn:Hv;
    [| discriminate H].
  destruct (IH1 _ v r2 (scalar_text_tail _ _ Ht2 Hs) Hv) as [Wv Ht3].
  assert (Ht4 : tail_of r2 s) by now apply tail_of_trans with (Json.skip_ws r1).
  destruct (Json.skip_ws r2) as [| c2 r3] eqn:Hw2; [discriminate H |].
  destruct (skip_ws_cons_tail r2 r3 c2 Hw2) as [_ Ht5].
  assert (Ht6 : tail_of r3 s) by now apply tail_of_trans with r2.
  destruct (c2 =? 125)%N.
  { apply some_pair_eq in H. destruct H as [<- <-].
    split; [now repeat constructor | exact Ht6]. }
  destruct (c2 =? 44)%N; [| discriminate H].
  destruct (Json.skip_ws r3) as [| c3 r4] eqn:Hw3; [discriminate H |].
  destruct (skip_ws_cons_tail r3 r4 c3 Hw3) as [_ Ht7].
  assert (Ht8 : tail_of r4 s) by now apply tail_of_trans with r3.
  destruct (c3 =? QUOTE)%N; [| discriminate H].
  destruct (members fuel r4) as [[ps' rest] |] eqn:Hm; [| discriminate H].
  apply some_pair_eq in H. destruct H as [<- <-].
  destruct (IH3 r4 ps' rest (scalar_text_tail _ _ Ht8 Hs) Hm) as [Wp Ht9].
  split; [now repeat constructor | now apply tail_of_trans with r4].
Qed.

Lemma decoder_sound (fuel : nat) : sound_at fuel.
Proof.
  induction fuel as [| fuel IH].
  - repeat split; intros; discriminate.
  - split; [| split].
    + now apply scan_sound_step.
    + now apply elems_sound_step.
    + now apply members_sound_step.
Qed.

(** Every object [loads] builds from a text of scalar values is well
    formed. *)
Lemma loads_well_formed (text : str) (v : pyobj) :
  scalar_text text ->
  Json.loads float_of_literal text = Some v -> wf v.
Proof.
  intros Hs. unfold Json.loads.
  destruct (PyStr.startswith text [65279%N]); [discriminate |].
  destruct (scan (2 * List.length text + 2) (Json.skip_ws text))
    as [[v' r] |] eqn:Hv; [| discriminate].
  destruct (Json.skip_ws r); [| discriminate].
  intros H. apply some_eq in H. subst v'.
  destruct (decoder_sound (2 * List.length text + 2)) as (H1 & _ & _).
  exact (proj1 (H1 _ v r (scalar_text_tail _ _ (skip_ws_tail text) Hs) Hv)).
Qed.

End Sound.

(** ** The JSON formatter *)

Lemma startswith_app (p x : str) : PyStr.startswith (p ++ x) p = true.
Proof.
  induction p as [| c p IH]; [reflexivity |].
  simpl. now rewrite N.eqb_refl.
Qed.

Lemma skipn_length_app (A : Type) (p x : list A) :
  skipn (List.length p) (p ++ x) = x.
Proof. induction p as [| c p IH]; [reflexivity | exact IH]. Qed.

Lemma firstn_length_app (A : Type) (b c : list A) :
  firstn (List.length b) (b ++ c) = b.
Proof. induction b as [| x b IH]; [reflexivity | simpl; now rewrite IH]. Qed.

(** The body of a fenced block is recovered from the block. *)
Lemma fence_body_fenced (body : str) :
  fence_body (fence_json_open ++ body ++ fence_close) = Some body.
Proof.
  unfold fence_body.
  rewrite startswith_app, skipn_length_app.
  replace (List.length (body ++ fence_close) - List.length fence_close)
    with (List.length body) by (rewrite length_app; lia).
  rewrite skipn_length_app, firstn_length_app, eqb_refl. reflexivity.
Qed.

(** The formatter answers a well-formed result with a fenced block whose
    body parses to that result. *)
Lemma format_as_json_reads_back (E : Collaborators) (result : pyobj) :
  Json.well_formed (float_repr E) (float_of_literal E) result ->
  exists out body,
    _format_as_json E (dumps E result) = Returns out
    /\ fence_body out = Some body
    /\ loads E body = Some result.
Proof.
  intros Hwf.
  exists (fence_json_open ++ dumps_indent E 2 result ++ fence_close),
         (dumps_indent E 2 result).
  split; [| split].
  - unfold _format_as_json, loads, dumps, Json.dumps.
    now rewrite (loads_encode (float_repr E) (float_of_literal E) None result Hwf).
  - apply fence_body_fenced.
  - exact (loads_encode (float_repr E) (float_of_literal E) (Some 2) result Hwf).
Qed.

(** C7.  A structured result formatted in JSON mode reads back from the
    text inside the fenced block: the formatter answers with a block
    labelled [json] whose body parses to the result itself, so the rows
    keep their order and each record its keys and values.  The result is
    any object as the decoder builds them ([Json.well_formed], see
    [loads_well_formed]); an array of objects is the case [PList] of
    [PDict]s. *)
Theorem json_format_round_trip (E : Collaborators) (result : pyobj) :
  Json.well_formed (float_repr E) (float_of_literal E) result ->
  exists out body,
    _format_as_json E (dumps E result) = Returns out
    /\ fence_body out = Some body
    /\ loads E body = Some result.
Proof. exact (format_as_json_reads_back E result). Qed.

(** The same for every result the response parser can hand over: whatever
    [json.loads] builds from a text of scalar values reads back from the
    fenced block, given that the [repr] of a float reads back as that
    float. *)
Corollary parsed_result_round_trip (E : Collaborators) (text : str)
  (result : pyobj) :
  (forall t, Json.float_text_ok (float_repr E) (float_of_literal E)
               (float_of_literal E t)) ->
  scalar_text text ->
  loads E text = Some result ->
  exists out body,
    _format_as_json E (dumps E result) = Returns out
    /\ fence_body out = Some body
    /\ loads E body = Some result.
Proof.
  intros Hfloat Hs Hl.
  apply format_as_json_reads_back.
  exact (loads_well_formed (float_repr E) (float_of_literal E) Hfloat
           text result Hs Hl).
Qed.

Lemma example_rows_well_formed :
  Json.well_formed (float_repr stand_in) (float_of_literal stand_in)
    example_rows.
Proof.
  assert (Hkeys : NoDup [lit "name"; lit "val"]).
  { constructor; [| constructor; [| constructor]]; simpl.
    - intros [H | []]. discriminate H.
    - intros []. }
  repeat (constructor; try exact Hkeys; try reflexivity).
Qed.

Lemma json_format_round_trip_witness :
  exists out body,
    _format_as_json stand_in (dumps stand_in example_rows) = Returns out
    /\ fence_body out = Some body
    /\ loads stand_in body = Some example_rows.
Proof.
  apply (json_format_round_trip stand_in example_rows).
  apply example_rows_well_formed.
Defined.

(** ** [find], [rfind] and slices *)

Lemma startswith_single (c : codepoint) (s : str) :
  PyStr.startswith s [c]
  = match s with [] => false | d :: _ => (c =? d)%N end.
Proof. destruct s as [| d s]; [reflexivity |]. simpl. apply andb_true_r. Qed.

Lemma find_from_cons (i : Z) (d : codepoint) (s : str) (c : codepoint) :
  PyStr.find_from i (d :: s) [c]
  = if (c =? d)%N then i else PyStr.find_from (i + 1) s [c].
Proof.
  change (PyStr.find_from i (d :: s) [c])
    with (if PyStr.startswith (d :: s) [c] then i
          else PyStr.find_from (i + 1) s [c]).
  now rewrite startswith_single.
Qed.

Lemma find_from_nil (i : Z) (c : codepoint) : PyStr.find_from i [] [c] = (-1)%Z.
Proof. reflexivity. Qed.

Lemma rfind_from_cons (i : Z) (d : codepoint) (s : str) (c : codepoint) :
  PyStr.rfind_from i (d :: s) [c]
  = if (PyStr.rfind_from (i + 1) s [c] =? -1)%Z
    then (if (c =? d)%N then i else (-1)%Z)
    else PyStr.rfind_from (i + 1) s [c].
Proof.
  change (PyStr.rfind_from i (d :: s) [c])
    with (if (PyStr.rfind_from (i + 1) s [c] =? -1)%Z
          then (if PyStr.startswith (d :: s) [c] then i else (-1)%Z)
          else PyStr.rfind_from (i + 1) s [c]).
  now rewrite startswith_single.
Qed.

Lemma rfind_from_nil (i : Z) (c : codepoint) :
  PyStr.rfind_from i [] [c] = (-1)%Z.
Proof. reflexivity. Qed.

(** [find] answers [-1] or an index of the string. *)
Lemma find_from_bounds (c : codepoint) (s : str) :
  forall i,
    PyStr.find_from i s [c] = (-1)%Z
    \/ (i <= PyStr.find_from i s [c] < i + Z.of_nat (List.length s))%Z.
Proof.
  induction s as [| d s IH]; intros i; [now left |].
  rewrite find_from_cons. cbn [List.length].
  destruct (c =? d)%N; [right; lia |].
  destruct (IH (i + 1)%Z) as [H | H]; [now left | right; lia].
Qed.

Lemma rfind_from_bounds (c : codepoint) (s : str) :
  forall i,
    PyStr.rfind_from i s [c] = (-1)%Z
    \/ (i <= PyStr.rfind_from i s [c] < i + Z.of_nat (List.length s))%Z.
Proof.
  induction s as [| d s IH]; intros i; [now left |].
  rewrite rfind_from_cons. cbn [List.length].
  destruct (IH (i + 1)%Z) as [H | H].
  - rewrite H. simpl. destruct (c =? d)%N; [right; lia | now left].
  - destruct (PyStr.rfind_from (i + 1) s [c] =? -1)%Z eqn:Hr.
    + destruct (c =? d)%N; [right; lia | now left].
    + right; lia.
Qed.

Lemma find_from_absent (c : codepoint) (s : str) :
  forall i, ~ In c s -> PyStr.find_from i s [c] = (-1)%Z.
Proof.
  induction s as [| d s IH]; intros i H; [reflexivity |].
  rewrite find_from_cons.
  destruct (c =? d)%N eqn:Hc.
  - apply N.eqb_eq in Hc. exfalso. apply H. now left.
  - apply IH. intros Hin. apply H. now right.
Qed.

Lemma rfind_from_absent (c : codepoint) (s : str) :
  forall i, ~ In c s -> PyStr.rfind_from i s [c] = (-1)%Z.
Proof.
  induction s as [| d s IH]; intros i H; [reflexivity |].
  rewrite rfind_from_cons, IH by (intros Hin; apply H; now right).
  simpl.
  destruct (c =? d)%N eqn:Hc; [| reflexivity].
  apply N.eqb_eq in Hc. exfalso. apply H. now left.
Qed.

(** [find] answers the place of the first occurrence. *)
Lemma find_from_first (c : codepoint) (pre rest : str) :
  forall i,
    ~ In c pre ->
    PyStr.find_from i (pre ++ c :: rest) [c]
    = (i + Z.of_nat (List.length pre))%Z.
Proof.
  induction pre as [| d pre IH]; intros i H.
  - simpl app. rewrite find_from_cons, N.eqb_refl. simpl. lia.
  - simpl app. rewrite find_from_cons.
    destruct (c =? d)%N eqn:Hc.
    + apply N.eqb_eq in Hc. exfalso. apply H. now left.
    + rewrite IH by (intros Hin; apply H; now right).
      cbn [List.length]. lia.
Qed.

(** [rfind] answers the place of the last occurrence. *)
Lemma rfind_from_last (c : codepoint) (pre rest : str) :
  forall i,
    (0 <= i)%Z -> ~ In c rest ->
    PyStr.rfind_from i (pre ++ c :: rest) [c]
    = (i + Z.of_nat (List.length pre))%Z.
Proof.
  induction pre as [| d pre IH]; intros i Hi H.
  - simpl app. rewrite rfind_from_cons, rfind_from_absent by exact H.
    simpl. rewrite N.eqb_refl. lia.
  - simpl app. rewrite rfind_from_cons, IH by (try lia; exact H).
    cbn [List.length].
    destruct (i + 1 + Z.of_nat (List.length pre) =? -1)%Z eqn:Hr; lia.
Qed.

(** What follows the last occurrence does not count. *)
Lemma rfind_from_before (c : codepoint) (pre rest : str) :
  forall i,
    ~ In c rest ->
    PyStr.rfind_from i (pre ++ rest) [c] = PyStr.rfind_from i pre [c].
Proof.
  induction pre as [| d pre IH]; intros i H.
  - simpl app. now rewrite rfind_from_absent.
  - simpl app. now rewrite !rfind_from_cons, IH.
Qed.

(** A string in which [find] succeeds splits at the first occurrence. *)
Lemma find_from_hit (c : codepoint) (s : str) :
  forall i,
    PyStr.find_from i s [c] <> (-1)%Z ->
    exists pre rest,
      s = pre ++ c :: rest /\ ~ In c pre
      /\ PyStr.find_from i s [c] = (i + Z.of_nat (List.length pre))%Z.
Proof.
  induction s as [| d s IH]; intros i H; [now contradiction H |].
  rewrite find_from_cons in *.
  destruct (c =? d)%N eqn:Hc.
  - apply N.eqb_eq in Hc. subst d. exists [], s.
    split; [reflexivity | split; [intros [] | simpl; lia]].
  - destruct (IH _ H) as (pre & rest & -> & Hpre & Hf).
    exists (d :: pre), rest.
    split; [reflexivity | split].
    + intros [Hd | Hin]; [| now apply Hpre].
      subst d. now rewrite N.eqb_refl in Hc.
    + rewrite Hf. cbn [List.length]. lia.
Qed.

Lemma clip_inside (len i : Z) : (0 <= i <= len)%Z -> PyStr.clip len i = i.
Proof.
  intros H. unfold PyStr.clip.
  destruct (i <? 0)%Z eqn:Hi; lia.
Qed.

(** [s[lo:hi]] between two indices of [s]. *)
Lemma slice_inside (s : str) (lo hi : nat) :
  lo <= List.length s -> hi <= List.length s ->
  PyStr.slice s (Z.of_nat lo) (Z.of_nat hi) = firstn (hi - lo) (skipn lo s).
Proof.
  intros Hlo Hhi. unfold PyStr.slice.
  rewrite !clip_inside by lia.
  rewrite Nat2Z.id.
  replace (Z.to_nat (Z.of_nat hi - Z.of_nat lo)) with (hi - lo) by lia.
  reflexivity.
Qed.

(** The slice that spans the part in the middle. *)
Lemma slice_middle (pre mid post : str) :
  PyStr.slice (pre ++ mid ++ post) (Z.of_nat (List.length pre))
    (Z.of_nat (List.length pre + List.length mid))
  = mid.
Proof.
  rewrite slice_inside by (rewrite !length_app; lia).
  rewrite skipn_length_app.
  replace (List.length pre + List.length mid - List.length pre)
    with (List.length mid) by lia.
  apply firstn_length_app.
Qed.

(** A slice that ends where it starts, or before, is empty. *)
Lemma slice_backwards (s : str) (lo hi : Z) :
  (0 <= lo <= Z.of_nat (List.length s))%Z -> (-1 < hi <= lo)%Z ->
  PyStr.slice s lo hi = [].
Proof.
  intros Hlo Hhi. unfold PyStr.slice.
  rewrite (clip_inside _ lo) by lia.
  rewrite (clip_inside _ hi) by lia.
  replace (Z.to_nat (hi - lo)) with 0 by lia.
  reflexivity.
Qed.

Ltac absent := cbv; intuition discriminate.

Lemma lit_open_bracket : lit "[" = [91%N : codepoint].
Proof. reflexivity. Qed.

Lemma lit_close_bracket : lit "]" = [93%N : codepoint].
Proof. reflexivity. Qed.

(** ** The router and the session *)

Lemma tolower_letter (l c : codepoint) :
  (97 <= l <= 122)%N ->
  ((l =? PyStr.ascii_tolower c)%N = true <-> letter l c).
Proof.
  intros Hl. unfold PyStr.ascii_tolower, letter.
  rewrite N.eqb_eq.
  destruct ((65 <=? c)%N && (c <=? 90)%N) eqn:Hc.
  - apply andb_prop in Hc. destruct Hc as [H1 H2].
    apply N.leb_le in H1, H2. lia.
  - apply andb_false_iff in Hc.
    destruct Hc as [Hc | Hc]; apply N.leb_gt in Hc; lia.
Qed.

(** X1.  For an ASCII input the router decides on the first four code
    points alone: the input is taken for a URL exactly when they are the
    letters h, t, t, p, each in either case.  Nothing after them is looked
    at, and white space before them makes the input a question. *)
Theorem ascii_input_is_url_iff (E : Collaborators) (user_input : str) :
  forallb PyStr.is_ascii user_input = true ->
  PyStr.startswith (lower E user_input) (lit "http") = true
  <-> exists c1 c2 c3 c4 rest,
        user_input = c1 :: c2 :: c3 :: c4 :: rest
        /\ letter 104%N c1 /\ letter 116%N c2
        /\ letter 116%N c3 /\ letter 112%N c4.
Proof.
  intros Hascii. unfold lower, PyStr.lower. rewrite Hascii.
  assert (H104 : (97 <= 104 <= 122)%N) by lia.
  assert (H116 : (97 <= 116 <= 122)%N) by lia.
  assert (H112 : (97 <= 112 <= 122)%N) by lia.
  destruct user_input as [| c1 [| c2 [| c3 [| c4 rest]]]];
    try (split; [intros H; cbn in H; try discriminate H;
                 repeat (apply andb_prop in H; destruct H as [_ H]);
                 discriminate H
                | intros (? & ? & ? & ? & ? & H & _); discriminate H]).
  change (PyStr.startswith (map PyStr.ascii_tolower (c1 :: c2 :: c3 :: c4 :: rest))
            (lit "http"))
    with ((104 =? PyStr.ascii_tolower c1)%N
          && ((116 =? PyStr.ascii_tolower c2)%N
              && ((116 =? PyStr.ascii_tolower c3)%N
                  && ((112 =? PyStr.ascii_tolower c4)%N && true)))).
  rewrite andb_true_r, !andb_true_iff.
  rewrite (tolower_letter 104%N c1 H104), (tolower_letter 116%N c2 H116),
    (tolower_letter 116%N c3 H116), (tolower_letter 112%N c4 H112).
  split.
  - intros (H1 & H2 & H3 & H4). now exists c1, c2, c3, c4, rest.
  - intros (d1 & d2 & d3 & d4 & r & Heq & H1 & H2 & H3 & H4).
    injection Heq as -> -> -> -> _. now repeat split.
Qed.

Lemma ascii_input_is_url_iff_witness :
  PyStr.startswith (lower stand_in (lit "hTTp-anything")) (lit "http") = true
  <-> exists c1 c2 c3 c4 rest,
        lit "hTTp-anything" = c1 :: c2 :: c3 :: c4 :: rest
        /\ letter 104%N c1 /\ letter 116%N c2
        /\ letter 116%N c3 /\ letter 112%N c4.
Proof.
  apply (ascii_input_is_url_iff stand_in (lit "hTTp-anything")).
  reflexivity.
Defined.

Lemma process_query_consistent (E : Collaborators) (self : WebExtractor)
  (user_input : str) :
  session_consistent E self ->
  session_consistent E (snd (process_query E self user_input)).
Proof.
  intros H. unfold process_query.
  destruct (PyStr.startswith _ _).
  - unfold fetch_url, fetch_content.
    destruct (http_get E user_input) as [text | e] eqn:Hget; cbn [snd].
    + right. exists user_input, user_input, text. now repeat split.
    + destruct H as [[H1 H2] | (url & fetched & text & _ & H1 & H2 & H3)].
      * left. now split.
      * right. exists user_input, fetched, text. now repeat split.
  - now destruct (negb _).
Qed.

Lemma run_session_consistent (E : Collaborators) (inputs : list str) :
  forall self,
    session_consistent E self ->
    session_consistent E (snd (run_session E self inputs)).
Proof.
  induction inputs as [| q inputs IH]; intros self H; [exact H |].
  cbn [run_session].
  pose proof (process_query_consistent E self q H) as Hq.
  destruct (process_query E self q) as [answer self'].
  specialize (IH self' Hq).
  destruct (run_session E self' inputs) as [answers self''].
  exact IH.
Qed.

(** X2.  Whatever is typed into a fresh extractor, in any order and with
    any failures of the network or of the model on the way, the session
    fields stay consistent between calls: either no content has been
    loaded, or a URL is recorded, the content is the body that some fetch
    returned, and the preprocessed text is the preprocessing of exactly
    that content. *)
Theorem session_stays_consistent (E : Collaborators) (inputs : list str) :
  session_consistent E (snd (run_session E init inputs)).
Proof.
  apply run_session_consistent. left. now split.
Qed.

(** [sub in s] when [s] holds [sub] somewhere. *)
Lemma find_from_eq (i : Z) (s sub : str) :
  PyStr.find_from i s sub
  = if PyStr.startswith s sub then i
    else match s with
         | [] => (-1)%Z
         | _ :: s' => PyStr.find_from (i + 1) s' sub
         end.
Proof. now destruct s. Qed.

Lemma find_from_infix (a sub b : str) :
  forall i, (0 <= i)%Z -> PyStr.find_from i (a ++ sub ++ b) sub <> (-1)%Z.
Proof.
  induction a as [| c a IH]; intros i Hi; rewrite find_from_eq.
  - simpl app. rewrite startswith_app. lia.
  - destruct (PyStr.startswith _ _); [lia |].
    simpl app. apply IH. lia.
Qed.

Lemma contains_infix (a sub b : str) :
  PyStr.contains (a ++ sub ++ b) sub = true.
Proof.
  unfold PyStr.contains, PyStr.find.
  apply negb_true_iff, Z.eqb_neq, find_from_infix. lia.
Qed.

(** X3.  Every URL that is fetched is acknowledged with a sentence that
    holds the words "fetched and preprocessed" and the input itself,
    as it was typed. *)
Theorem fetch_acknowledgment_names_url (E : Collaborators)
  (self : WebExtractor) (url text : str) :
  PyStr.startswith (lower E url) (lit "http") = true ->
  http_get E url = Returns text ->
  exists answer,
    fst (process_query E self url) = Returns answer
    /\ PyStr.contains answer url = true
    /\ PyStr.contains answer (lit "fetched and preprocessed") = true.
Proof.
  intros Hurl Hget. exists (msg_fetched url).
  split; [| split].
  - unfold process_query. rewrite Hurl.
    unfold fetch_url, fetch_content. now rewrite Hget.
  - apply contains_infix.
  - unfold msg_fetched.
    change (lit "I've fetched and preprocessed the content from ")
      with (lit "I've " ++ lit "fetched and preprocessed"
            ++ lit " the content from ").
    rewrite <- !app_assoc. apply contains_infix.
Qed.

Lemma fetch_acknowledgment_names_url_witness :
  exists answer,
    fst (process_query stand_in init example_url) = Returns answer
    /\ PyStr.contains answer example_url = true
    /\ PyStr.contains answer (lit "fetched and preprocessed") = true.
Proof.
  apply (fetch_acknowledgment_names_url stand_in init example_url
           example_page); reflexivity.
Defined.

(** ** Preprocessing: what the output holds *)

Lemma linebreak_is_space (c : codepoint) :
  PyStr.is_linebreak c = true -> PyStr.is_space c = true.
Proof.
  unfold PyStr.is_linebreak, PyStr.is_space.
  rewrite !orb_true_iff, !andb_true_iff, !N.leb_le, !N.eqb_eq. lia.
Qed.

Lemma visible_app (a b : str) : visible (a ++ b) = visible a ++ visible b.
Proof. apply filter_app. Qed.

Lemma visible_cons (c : codepoint) (s : str) :
  visible (c :: s) = visible [c] ++ visible s.
Proof. exact (visible_app [c] s). Qed.

Lemma visible_space (c : codepoint) :
  PyStr.is_space c = true -> visible [c] = [].
Proof. intros H. unfold visible. simpl. now rewrite H. Qed.

Lemma visible_lstrip (s : str) : visible (PyStr.lstrip s) = visible s.
Proof.
  induction s as [| c s IH]; [reflexivity |].
  cbn [PyStr.lstrip].
  destruct (PyStr.is_space c) eqn:Hc; [| reflexivity].
  now rewrite (visible_cons c s), (visible_space c Hc).
Qed.

Lemma visible_rev (s : str) : visible (List.rev s) = List.rev (visible s).
Proof. apply filter_rev. Qed.

Lemma visible_strip (s : str) : visible (PyStr.strip s) = visible s.
Proof.
  unfold PyStr.strip, PyStr.rstrip.
  now rewrite visible_rev, visible_lstrip, visible_rev, rev_involutive,
    visible_lstrip.
Qed.

Lemma visible_splitlines_go (s : str) :
  forall after_cr cur,
    flat_map visible (PyStr.splitlines_go after_cr cur s)
    = visible cur ++ visible s.
Proof.
  induction s as [| c s IH]; intros after_cr cur.
  - destruct cur; [reflexivity |].
    cbn [PyStr.splitlines_go flat_map]. reflexivity.
  - cbn [PyStr.splitlines_go]. rewrite (visible_cons c s).
    destruct (after_cr && (c =? LF)%N) eqn:Hcr.
    + apply andb_prop in Hcr. destruct Hcr as [_ Hc].
      apply N.eqb_eq in Hc. subst c.
      now rewrite IH, (visible_space LF eq_refl).
    + destruct (PyStr.is_linebreak c) eqn:Hc.
      * cbn [flat_map].
        now rewrite IH, (visible_space c (linebreak_is_space c Hc)).
      * now rewrite IH, visible_app, <- app_assoc.
Qed.

Lemma visible_split_go (s : str) :
  forall cur,
    flat_map visible (PyStr.split_go SPACE cur s) = visible cur ++ visible s.
Proof.
  induction s as [| c s IH]; intros cur.
  - cbn [PyStr.split_go flat_map]. reflexivity.
  - cbn [PyStr.split_go]. rewrite (visible_cons c s).
    destruct (c =? SPACE)%N eqn:Hc.
    + apply N.eqb_eq in Hc. subst c. cbn [flat_map].
      now rewrite IH, (visible_space SPACE eq_refl).
    + now rewrite IH, visible_app, <- app_assoc.
Qed.

Lemma visible_join (cs : list str) :
  visible (PyStr.join [LF] cs) = flat_map visible cs.
Proof.
  induction cs as [| c cs IH]; [reflexivity |].
  destruct cs as [| c' cs].
  - cbn [PyStr.join flat_map]. now rewrite app_nil_r.
  - change (PyStr.join [LF] (c :: c' :: cs))
      with (c ++ [LF] ++ PyStr.join [LF] (c' :: cs)).
    rewrite !visible_app, IH, (visible_space LF eq_refl).
    reflexivity.
Qed.

Lemma visible_truthy (cs : list str) :
  flat_map visible (filter PyStr.truthy cs) = flat_map visible cs.
Proof.
  induction cs as [| c cs IH]; [reflexivity |].
  destruct c as [| x c]; cbn [filter PyStr.truthy flat_map]; [exact IH |].
  now rewrite IH.
Qed.

Lemma visible_stripped (cs : list str) :
  flat_map visible (map PyStr.strip cs) = flat_map visible cs.
Proof.
  induction cs as [| c cs IH]; [reflexivity |].
  cbn [map flat_map]. now rewrite IH, visible_strip.
Qed.

Lemma visible_chunks (lines : list str) :
  flat_map visible
    (flat_map (fun line => map PyStr.strip (PyStr.split line SPACE)) lines)
  = flat_map visible lines.
Proof.
  induction lines as [| line lines IH]; [reflexivity |].
  cbn [flat_map]. rewrite flat_map_app, IH, visible_stripped.
  unfold PyStr.split. now rewrite visible_split_go.
Qed.

Lemma flatten_visible (text : str) : visible (flatten text) = visible text.
Proof.
  unfold flatten.
  rewrite visible_join, visible_truthy, visible_chunks, visible_stripped.
  unfold PyStr.splitlines. now rewrite visible_splitlines_go.
Qed.

Lemma visible_nil_iff (s : str) :
  visible s = [] <-> forallb PyStr.is_space s = true.
Proof.
  induction s as [| c s IH]; [now split |].
  unfold visible in *. cbn [filter forallb].
  destruct (PyStr.is_space c); cbn [negb andb]; [exact IH |].
  split; discriminate.
Qed.

Lemma settled_left_clean (c : str) : settled c -> left_clean c.
Proof.
  intros (_ & _ & _ & H). rewrite <- H. unfold PyStr.strip.
  apply rstrip_left_clean, lstrip_left_clean.
Qed.

(** A join of settled chunks is empty only when there is no chunk. *)
Lemma join_settled_nil (cs : list str) :
  Forall settled cs -> visible (PyStr.join [LF] cs) = [] -> cs = [].
Proof.
  intros Hcs H. destruct cs as [| c cs]; [reflexivity |].
  exfalso. inversion Hcs as [| c0 cs0 Hc _]; subst.
  pose proof (settled_left_clean c Hc) as Hl.
  destruct Hc as (Hne & _).
  destruct c as [| x c]; [now apply Hne |].
  rewrite visible_join in H. cbn [flat_map] in H.
  unfold visible at 1 in H. cbn [filter] in H.
  simpl in Hl. rewrite Hl in H. discriminate H.
Qed.

Lemma in_join (sep : str) (cs : list str) (x : codepoint) :
  In x (PyStr.join sep cs) -> In x sep \/ exists c, In c cs /\ In x c.
Proof.
  induction cs as [| c cs IH]; [intros [] |].
  destruct cs as [| c' cs].
  - intros H. right. exists c. split; [now left | exact H].
  - change (PyStr.join sep (c :: c' :: cs))
      with (c ++ sep ++ PyStr.join sep (c' :: cs)).
    rewrite !in_app_iff. intros [H | [H | H]].
    + right. exists c. split; [now left | exact H].
    + now left.
    + destruct (IH H) as [Hs | (d & Hd & Hx)]; [now left |].
      right. exists d. split; [now right | exact Hx].
Qed.

(** X4.  The preprocessed text is a sequence of chunks joined by single
    line feeds, and these chunks are its lines; each chunk is non-empty,
    has no white space at either end and no line boundary inside.  The
    text holds no space character at all: every word of the page is on a
    line of its own. *)
Theorem preprocessed_text_shape (E : Collaborators) (content : str) :
  exists chunks,
    _preprocess_content E content = PyStr.join [LF] chunks
    /\ PyStr.splitlines (_preprocess_content E content) = chunks
    /\ Forall settled chunks
    /\ ~ In SPACE (_preprocess_content E content).
Proof.
  rewrite preprocess_is_flatten. unfold flatten.
  set (chunks := filter PyStr.truthy _).
  pose proof (flatten_chunks_settled (soup_get_text E content)) as Hs.
  fold chunks in Hs.
  exists chunks. split; [reflexivity | split; [| split; [exact Hs |]]].
  - now apply splitlines_join.
  - intros Hin. apply in_join in Hin.
    destruct Hin as [[H | []] | (c & Hc & Hx)]; [discriminate H |].
    rewrite Forall_forall in Hs.
    destruct (Hs c Hc) as (_ & _ & Hsp & _).
    unfold no_space in Hsp. rewrite Forall_forall in Hsp.
    now apply (Hsp SPACE Hx).
Qed.

(** X5.  Preprocessing drops and adds white space only: the code points
    of the preprocessed text that are not white space are those of the
    text [get_text] gives, in the same order. *)
Theorem preprocessing_keeps_visible_text (E : Collaborators) (content : str) :
  visible (_preprocess_content E content)
  = visible (soup_get_text E content).
Proof. rewrite preprocess_is_flatten. apply flatten_visible. Qed.

Lemma flatten_nil_iff (text : str) :
  flatten text = [] <-> forallb PyStr.is_space text = true.
Proof.
  rewrite <- visible_nil_iff, <- (flatten_visible text).
  split; [now intros -> |].
  intros H. unfold flatten in *.
  now rewrite (join_settled_nil _ (flatten_chunks_settled _) H).
Qed.

(** X6.  The preprocessed text is empty exactly when the text of the
    page is white space only; such a page counts as no page for the
    queries that follow. *)
Theorem preprocessed_empty_iff_blank (E : Collaborators) (content : str) :
  _preprocess_content E content = []
  <-> forallb PyStr.is_space (soup_get_text E content) = true.
Proof. rewrite preprocess_is_flatten. apply flatten_nil_iff. Qed.

(** *** The length of the preprocessed text *)

Lemma lstrip_length (s : str) : List.length (PyStr.lstrip s) <= List.length s.
Proof.
  destruct (lstrip_suffix s) as [p Hp].
  rewrite Hp at 2. rewrite length_app. lia.
Qed.

Lemma strip_length (s : str) : List.length (PyStr.strip s) <= List.length s.
Proof.
  unfold PyStr.strip, PyStr.rstrip. rewrite length_rev.
  etransitivity; [apply lstrip_length |].
  rewrite length_rev. apply lstrip_length.
Qed.

(** A join with a separator of one code point: every chunk but the last
    is followed by one code point more. *)
Lemma join_length (x : codepoint) (cs : list str) :
  cs <> [] ->
  S (List.length (PyStr.join [x] cs))
  = List.length (List.concat cs) + List.length cs.
Proof.
  induction cs as [| c cs IH]; [congruence |]. intros _.
  destruct cs as [| c' cs].
  - cbn [PyStr.join List.concat List.length]. rewrite app_nil_r. lia.
  - change (PyStr.join [x] (c :: c' :: cs))
      with (c ++ [x] ++ PyStr.join [x] (c' :: cs)).
    change (List.concat (c :: c' :: cs)) with (c ++ List.concat (c' :: cs)).
    specialize (IH ltac:(discriminate)).
    rewrite !length_app. cbn [List.length] in *. lia.
Qed.

Lemma truthy_cost (cs : list str) :
  List.length (List.concat (filter PyStr.truthy cs))
  + List.length (filter PyStr.truthy cs)
  <= List.length (List.concat cs) + List.length cs.
Proof.
  induction cs as [| c cs IH]; [reflexivity |].
  destruct c as [| x c]; cbn [filter PyStr.truthy List.concat List.length app];
    rewrite ?length_app; cbn [List.length]; lia.
Qed.

Lemma stripped_cost (cs : list str) :
  List.length (List.concat (map PyStr.strip cs)) + List.length (map PyStr.strip cs)
  <= List.length (List.concat cs) + List.length cs.
Proof.
  induction cs as [| c cs IH]; [reflexivity |].
  cbn [map List.concat List.length]. rewrite !length_app.
  pose proof (strip_length c). lia.
Qed.

Lemma split_go_cost (sep : codepoint) (s : str) :
  forall cur,
    List.length (List.concat (PyStr.split_go sep cur s))
    + List.length (PyStr.split_go sep cur s)
    = List.length cur + List.length s + 1.
Proof.
  induction s as [| c s IH]; intros cur.
  - cbn [PyStr.split_go List.concat List.length]. rewrite app_nil_r. lia.
  - cbn [PyStr.split_go]. destruct (c =? sep)%N.
    + cbn [List.concat List.length]. rewrite length_app.
      specialize (IH []). cbn [List.length] in IH. lia.
    + rewrite IH, length_app. cbn [List.length]. lia.
Qed.

Lemma chunks_cost (lines : list str) :
  List.length
    (List.concat (flat_map (fun line => map PyStr.strip (PyStr.split line SPACE))
               lines))
  + List.length
      (flat_map (fun line => map PyStr.strip (PyStr.split line SPACE)) lines)
  <= List.length (List.concat lines) + List.length lines.
Proof.
  induction lines as [| line lines IH]; [reflexivity |].
  cbn [flat_map List.concat List.length].
  rewrite concat_app, !length_app.
  pose proof (stripped_cost (PyStr.split line SPACE)) as H1.
  pose proof (split_go_cost SPACE line []) as H2.
  unfold PyStr.split in *. cbn [List.length] in H2. lia.
Qed.

Lemma splitlines_go_cost (s : str) :
  forall after_cr cur,
    List.length (List.concat (PyStr.splitlines_go after_cr cur s))
    + List.length (PyStr.splitlines_go after_cr cur s)
    <= List.length cur + List.length s + 1.
Proof.
  induction s as [| c s IH]; intros after_cr cur.
  - destruct cur; cbn [PyStr.splitlines_go List.concat List.length];
      rewrite ?app_nil_r; cbn [List.length]; lia.
  - cbn [PyStr.splitlines_go].
    destruct (after_cr && (c =? LF)%N).
    + specialize (IH false cur). cbn [List.length]. lia.
    + destruct (PyStr.is_linebreak c).
      * cbn [List.concat List.length]. rewrite length_app.
        specialize (IH (c =? CR)%N []). cbn [List.length] in *. lia.
      * specialize (IH false (cur ++ [c])).
        rewrite length_app in IH. cbn [List.length] in *. lia.
Qed.

Lemma flatten_length (text : str) :
  List.length (flatten text) <= List.length text.
Proof.
  unfold flatten.
  set (lines := map PyStr.strip (PyStr.splitlines text)).
  set (chunks := flat_map _ lines).
  destruct (filter PyStr.truthy chunks) as [| c cs] eqn:Hf;
    [cbn [PyStr.join List.length]; lia |].
  assert (Hne : c :: cs <> []) by discriminate.
  pose proof (join_length LF (c :: cs) Hne) as H1.
  pose proof (truthy_cost chunks) as H2. rewrite Hf in H2.
  pose proof (chunks_cost lines) as H3. fold chunks in H3.
  pose proof (stripped_cost (PyStr.splitlines text)) as H4. fold lines in H4.
  pose proof (splitlines_go_cost text false []) as H5.
  unfold PyStr.splitlines in *. cbn [List.length] in H5.
  unfold str, codepoint in *. lia.
Qed.

(** X7.  The preprocessed text is never longer than the text of the
    page: every line feed it holds stands for at least one white-space
    code point of the page. *)
Theorem preprocessed_text_is_no_longer (E : Collaborators) (content : str) :
  List.length (_preprocess_content E content)
  <= List.length (soup_get_text E content).
Proof. rewrite preprocess_is_flatten. apply flatten_length. Qed.

(** ** A page and the queries that follow *)

(** X8.  After a URL has been fetched, a question goes to the model
    exactly when the body of the page is not empty and its text holds a
    code point that is not white space; the answer is then what
    [parse_response] makes of the completion for the prompt built from the
    preprocessed text, and an exception of the model is the outcome of the
    call.  Otherwise the answer is the request for a URL.  The question
    leaves the session as the fetch has set it. *)
Theorem fetched_page_answers_queries (E : Collaborators)
  (self : WebExtractor) (url text query : str) :
  PyStr.startswith (lower E url) (lit "http") = true ->
  PyStr.startswith (lower E query) (lit "http") = false ->
  http_get E url = Returns text ->
  let loaded := snd (process_query E self url) in
  process_query E loaded query
  = (if PyStr.truthy text
        && negb (forallb PyStr.is_space (soup_get_text E text))
     then
       match generate E (build_prompt (_preprocess_content E text) query) with
       | Raises e => Raises e
       | Returns response => parse_response E response query
       end
     else Returns msg_provide_url,
     loaded).
Proof.
  intros Hurl Hq Hget loaded.
  assert (Hl : loaded
               = {| current_url := Some url;
                    current_content := Some text;
                    preprocessed_content := Some (_preprocess_content E text) |}).
  { unfold loaded. rewrite (process_query_url E self url Hurl).
    now rewrite (fetch_url_success E self url text Hget). }
  rewrite Hl. unfold process_query. rewrite Hq.
  cbn [current_content opt_truthy].
  destruct (PyStr.truthy text); cbn [negb andb]; [| reflexivity].
  unfold _extract_info. cbn [preprocessed_content].
  destruct (forallb PyStr.is_space (soup_get_text E text)) eqn:Hb.
  - apply flatten_nil_iff in Hb. rewrite <- preprocess_is_flatten in Hb.
    now rewrite Hb.
  - destruct (_preprocess_content E text) as [| c p] eqn:Hp; [| reflexivity].
    rewrite preprocess_is_flatten in Hp. apply flatten_nil_iff in Hp.
    congruence.
Qed.

Lemma fetched_page_answers_queries_witness :
  let loaded := snd (process_query stand_in init example_url) in
  process_query stand_in loaded (lit "What is there?")
  = (Returns (lit "a: 1"), loaded).
Proof.
  apply (fetched_page_answers_queries stand_in init example_url example_page
           (lit "What is there?")); reflexivity.
Defined.

(** X9.  A fetch that fails raises the error of the network and does not
    disturb the answers: every question asked afterwards is answered as
    it would have been before the attempt, from the page loaded earlier
    (or with the request for a URL when there was none), and leaves the
    session as the failed fetch left it. *)
Theorem failed_fetch_keeps_answers (E : Collaborators) (self : WebExtractor)
  (url query : str) (e : exn) :
  PyStr.startswith (lower E url) (lit "http") = true ->
  PyStr.startswith (lower E query) (lit "http") = false ->
  http_get E url = Raises e ->
  let after := snd (process_query E self url) in
  fst (process_query E self url) = Raises e
  /\ fst (process_query E after query) = fst (process_query E self query)
  /\ snd (process_query E after query) = after.
Proof.
  intros Hurl Hq Hget after.
  assert (Hr : process_query E self url
               = (Raises e,
                  {| current_url := Some url;
                     current_content := current_content self;
                     preprocessed_content := preprocessed_content self |})).
  { rewrite (process_query_url E self url Hurl).
    now rewrite (fetch_url_failure E self url e Hget). }
  unfold after. rewrite Hr. cbn [fst snd].
  split; [reflexivity |].
  unfold process_query. rewrite Hq.
  cbn [current_content].
  destruct (negb (opt_truthy (current_content self))); now split.
Qed.

Lemma failed_fetch_keeps_answers_witness :
  let self := snd (process_query stand_in init example_url) in
  let after :=
    snd (process_query stand_in self (lit "https://unreachable.example")) in
  fst (process_query stand_in self (lit "https://unreachable.example"))
  = Raises ConnectionError
  /\ fst (process_query stand_in after (lit "What is there?"))
     = fst (process_query stand_in self (lit "What is there?"))
  /\ snd (process_query stand_in after (lit "What is there?")) = after.
Proof.
  apply (failed_fetch_keeps_answers stand_in
           (snd (process_query stand_in init example_url))
           (lit "https://unreachable.example") (lit "What is there?")
           ConnectionError); reflexivity.
Defined.

(** X10.  A query sees the first 500 code points of the preprocessed text
    and nothing else of the session: two sessions whose preprocessed texts
    agree on their first 500 code points answer every query alike, even
    when they hold different pages under different URLs. *)
Theorem query_sees_first_500_only (E : Collaborators)
  (self1 self2 : WebExtractor) (content1 content2 query : str) :
  preprocessed_content self1 = Some content1 ->
  preprocessed_content self2 = Some content2 ->
  PyStr.truthy content1 = true -> PyStr.truthy content2 = true ->
  firstn 500 content1 = firstn 500 content2 ->
  _extract_info E self1 query = _extract_info E self2 query.
Proof.
  intros H1 H2 T1 T2 Heq. unfold _extract_info.
  rewrite H1, H2, T1, T2. cbn [negb].
  unfold build_prompt. now rewrite !slice_to_500, Heq.
Qed.

Lemma query_sees_first_500_only_witness :
  _extract_info stand_in
    {| current_url := Some example_url;
       current_content := Some (lit "<p>one</p>");
       preprocessed_content := Some (repeat 97%N 500 ++ lit "one") |}
    (lit "What is there?")
  = _extract_info stand_in
      {| current_url := None;
         current_content := None;
         preprocessed_content := Some (repeat 97%N 500 ++ lit "two") |}
      (lit "What is there?").
Proof.
  apply (query_sees_first_500_only stand_in _ _
           (repeat 97%N 500 ++ lit "one") (repeat 97%N 500 ++ lit "two"));
    reflexivity.
Defined.

(** ** The response parser, on every completion *)

Lemma scalar_text_firstn (n : nat) (s : str) :
  scalar_text s -> scalar_text (firstn n s).
Proof.
  unfold scalar_text. intros H. revert n.
  induction H as [| c s Hc Hs IH]; intros [| n]; simpl; constructor;
    [exact Hc | apply IH].
Qed.

Lemma scalar_text_skipn (n : nat) (s : str) :
  scalar_text s -> scalar_text (skipn n s).
Proof.
  unfold scalar_text. intros H. revert n.
  induction H as [| c s Hc Hs IH]; intros [| n]; simpl;
    [constructor | constructor | now constructor | apply IH].
Qed.

Lemma scalar_text_slice (s : str) (lo hi : Z) :
  scalar_text s -> scalar_text (PyStr.slice s lo hi).
Proof.
  intros H. unfold PyStr.slice. now apply scalar_text_firstn, scalar_text_skipn.
Qed.

(** [rfind(...) + 1] is never [-1]. *)
Lemma json_end_found (response : str) :
  ((PyStr.rfind response (lit "]") + 1 =? -1)%Z) = false.
Proof.
  unfold PyStr.rfind. rewrite lit_close_bracket.
  apply Z.eqb_neq.
  destruct (rfind_from_bounds 93%N response 0) as [H | H]; lia.
Qed.

(** The body of [parse_response] once the test on [json_end] is dropped. *)
Lemma parse_response_eq (E : Collaborators) (response query : str) :
  parse_response E response query
  = if (PyStr.find response (lit "[") =? -1)%Z
    then Returns msg_could_not_extract
    else
      match
        loads E (PyStr.slice response (PyStr.find response (lit "["))
                   (PyStr.rfind response (lit "]") + 1))
      with
      | Some extracted_data => _format_result E (dumps E extracted_data) query
      | None =>
          Returns
            (msg_invalid_json
               (PyStr.slice response (PyStr.find response (lit "["))
                  (PyStr.rfind response (lit "]") + 1)))
      end.
Proof.
  unfold parse_response. cbv zeta.
  rewrite json_end_found.
  now destruct (PyStr.find response (lit "[") =? -1)%Z.
Qed.

(** A text that opens with a bracket parses to a list, when it parses. *)
Lemma loads_open_bracket (E : Collaborators) (rest : str) (parsed : pyobj) :
  loads E (91%N :: rest) = Some parsed -> exists l, parsed = PList l.
Proof.
  unfold loads, Json.loads.
  change (PyStr.startswith (91%N :: rest) [65279%N]) with false.
  cbv iota.
  change (Json.skip_ws (91%N :: rest)) with (91%N :: rest).
  remember (2 * List.length _ + 2) as fuel eqn:Hfuel.
  destruct fuel as [| fuel]; [cbn [List.length] in Hfuel; lia |].
  clear Hfuel. rewrite scan_once_array.
  destruct (Json.skip_ws rest) as [| c1 r1]; [discriminate |].
  destruct (c1 =? 93)%N.
  - destruct (Json.skip_ws r1); [| discriminate].
    intros H. apply some_eq in H. now exists [].
  - destruct (Json.parse_elems _ _ _) as [[l r] |]; [| discriminate].
    destruct (Json.skip_ws r); [| discriminate].
    intros H. apply some_eq in H. now exists l.
Qed.

(** The slice handed to [json.loads] is empty or opens with the bracket
    [find] has found. *)
Lemma json_str_head (response : str) (hi : Z) :
  PyStr.find response (lit "[") <> (-1)%Z ->
  PyStr.slice response (PyStr.find response (lit "[")) hi = []
  \/ exists rest,
       PyStr.slice response (PyStr.find response (lit "[")) hi = 91%N :: rest.
Proof.
  unfold PyStr.find. rewrite lit_open_bracket. intros H.
  destruct (find_from_hit 91%N response 0 H) as (pre & rest & -> & _ & Hf).
  rewrite Hf. unfold PyStr.slice.
  rewrite (clip_inside _ (0 + Z.of_nat (List.length pre)))
    by (rewrite length_app; cbn [List.length]; lia).
  replace (Z.to_nat (0 + Z.of_nat (List.length pre)))
    with (List.length pre) by lia.
  rewrite skipn_length_app.
  destruct (Z.to_nat _) as [| n]; [now left |].
  right. now exists (firstn n rest).
Qed.

(** With a well-formed object, the re-parse inside each formatter succeeds,
    and [_format_result] renders the object itself. *)
Lemma format_result_of_dumps (E : Collaborators) (parsed : pyobj)
  (query : str) :
  Json.well_formed (float_repr E) (float_of_literal E) parsed ->
  _format_result E (dumps E parsed) query = render_parsed E parsed query.
Proof.
  intros Hwf.
  pose proof (loads_encode (float_repr E) (float_of_literal E) None parsed Hwf)
    as Hl.
  unfold _format_result, render_parsed, _format_as_json, _format_as_csv,
    _format_as_text, loads, dumps, Json.dumps.
  now rewrite Hl.
Qed.

Lemma stand_in_float_contract : float_contract stand_in.
Proof.
  intros t rest H. simpl.
  destruct (delimited_cases rest H) as [-> | (c & r & -> & [-> | [-> | [-> | ->]]])];
    reflexivity.
Qed.

Lemma example_completion_scalar : scalar_text example_completion.
Proof. repeat constructor. Qed.

(** X11.  A completion that holds one bracketed span, with no opening
    bracket before it and no closing bracket after it, is cut down to that
    span: the span is what [json.loads] is given, whatever text surrounds
    it. *)
Theorem embedded_array_is_extracted (E : Collaborators)
  (pre body post query : str) :
  ~ In 91%N pre -> ~ In 93%N post ->
  parse_response E (pre ++ (91%N :: body ++ [93%N]) ++ post) query
  = match loads E (91%N :: body ++ [93%N]) with
    | Some extracted_data => _format_result E (dumps E extracted_data) query
    | None => Returns (msg_invalid_json (91%N :: body ++ [93%N]))
    end.
Proof.
  intros Hpre Hpost.
  assert (Hf : PyStr.find (pre ++ (91%N :: body ++ [93%N]) ++ post) (lit "[")
               = Z.of_nat (List.length pre)).
  { unfold PyStr.find. rewrite lit_open_bracket.
    change ((91%N :: body ++ [93%N]) ++ post)
      with (91%N :: (body ++ [93%N]) ++ post).
    now rewrite find_from_first. }
  assert (Hr : (PyStr.rfind (pre ++ (91%N :: body ++ [93%N]) ++ post) (lit "]")
                + 1)%Z
               = Z.of_nat (List.length pre
                           + List.length (91%N :: body ++ [93%N]))).
  { unfold PyStr.rfind. rewrite lit_close_bracket.
    replace (pre ++ (91%N :: body ++ [93%N]) ++ post)
      with ((pre ++ 91%N :: body) ++ 93%N :: post)
      by (rewrite <- !app_assoc; simpl; now rewrite <- app_assoc).
    rewrite rfind_from_last by (try lia; exact Hpost).
    cbn [List.length]. rewrite !length_app. cbn [List.length]. lia. }
  rewrite parse_response_eq, Hf, Hr, slice_middle.
  destruct (Z.of_nat (List.length pre) =? -1)%Z eqn:H; [lia | reflexivity].
Qed.

Lemma embedded_array_is_extracted_witness :
  ~ In 91%N (lit "Sure: ") /\ ~ In 93%N (lit " done")
  /\ parse_response stand_in
       (lit "Sure: " ++ (91%N :: lit "1, 2" ++ [93%N]) ++ lit " done")
       (lit "as json")
     = match loads stand_in (91%N :: lit "1, 2" ++ [93%N]) with
       | Some extracted_data =>
           _format_result stand_in (dumps stand_in extracted_data)
             (lit "as json")
       | None => Returns (msg_invalid_json (91%N :: lit "1, 2" ++ [93%N]))
       end.
Proof.
  split; [absent | split; [absent |]].
  apply (embedded_array_is_extracted stand_in (lit "Sure: ") (lit "1, 2")
           (lit " done") (lit "as json")); absent.
Defined.

(** X12.  When no closing bracket follows the first opening bracket (there
    is none at all, or every one comes before it), the slice is empty and
    the answer is the invalid-JSON diagnostic with nothing for the raw
    data. *)
Theorem no_closing_bracket_after_opening (E : Collaborators)
  (pre post query : str) :
  ~ In 91%N pre -> ~ In 93%N post ->
  parse_response E (pre ++ 91%N :: post) query
  = Returns (lit "Error: Invalid JSON data. Raw data: ...").
Proof.
  intros Hpre Hpost.
  assert (Hf : PyStr.find (pre ++ 91%N :: post) (lit "[")
               = Z.of_nat (List.length pre)).
  { unfold PyStr.find. rewrite lit_open_bracket.
    now rewrite find_from_first. }
  assert (Hr : (-1 < PyStr.rfind (pre ++ 91%N :: post) (lit "]") + 1
                <= Z.of_nat (List.length pre))%Z).
  { unfold PyStr.rfind. rewrite lit_close_bracket.
    rewrite rfind_from_before
      by (intros [H | H]; [discriminate H | now apply Hpost]).
    destruct (rfind_from_bounds 93%N pre 0) as [H | H]; lia. }
  rewrite parse_response_eq, Hf.
  rewrite slice_backwards
    by (try exact Hr; rewrite length_app; cbn [List.length]; lia).
  destruct (Z.of_nat (List.length pre) =? -1)%Z eqn:H; [lia | reflexivity].
Qed.

Lemma no_closing_bracket_after_opening_witness :
  ~ In 91%N (lit "a] b ") /\ ~ In 93%N (lit " 1, 2")
  /\ parse_response stand_in (lit "a] b " ++ 91%N :: lit " 1, 2")
       (lit "list them")
     = Returns (lit "Error: Invalid JSON data. Raw data: ...").
Proof.
  split; [absent | split; [absent |]].
  apply (no_closing_bracket_after_opening stand_in (lit "a] b ")
           (lit " 1, 2") (lit "list them")); absent.
Defined.




(** ** The formatters on the text of a well-formed object *)

Lemma comprehension_records (E : Collaborators)
  (rows : list (list (str * pyobj))) :
  comprehension (text_record E) (map PDict rows)
  = Returns
      (map (fun d =>
              PyStr.join (lit ", ")
                (map (fun kv : str * pyobj =>
                        fst kv ++ lit ": " ++ py_str E (snd kv)) d))
         rows).
Proof.
  induction rows as [| d rows IH]; [reflexivity |].
  cbn [map comprehension text_record]. now rewrite IH.
Qed.

(** [text_record] raises nothing but [AttributeError]. *)
Lemma text_record_raises (E : Collaborators) (item : pyobj) (e : exn) :
  text_record E item = Raises e -> e = AttributeError.
Proof. destruct item; simpl; congruence. Qed.

Lemma comprehension_non_record (E : Collaborators) (items : list pyobj) :
  Exists (fun item => forall d, item <> PDict d) items ->
  comprehension (text_record E) items = Raises AttributeError.
Proof.
  induction 1 as [item items H | item items H IH]; cbn [comprehension].
  - destruct item; try reflexivity. now contradiction (H d).
  - destruct (text_record E item) as [line | e] eqn:Hr.
    + now rewrite IH.
    + now rewrite (text_record_raises E item e Hr).
Qed.

Lemma loads_dumps (E : Collaborators) (parsed : pyobj) :
  Json.well_formed (float_repr E) (float_of_literal E) parsed ->
  loads E (dumps E parsed) = Some parsed.
Proof.
  exact (loads_encode (float_repr E) (float_of_literal E) None parsed).
Qed.

Lemma numbers_well_formed :
  Json.well_formed (float_repr stand_in) (float_of_literal stand_in)
    (PList [PInt 1; PInt 2]).
Proof. repeat constructor. Qed.

(** X15.  Text mode on an array of objects: one line per record, in the
    order of the array, each line the fields [key: value] of the record in
    the order of its keys, joined by a comma and a space.  An empty array
    gives the empty string. *)
Theorem text_of_records (E : Collaborators)
  (rows : list (list (str * pyobj))) :
  Json.well_formed (float_repr E) (float_of_literal E)
    (PList (map PDict rows)) ->
  _format_as_text E (dumps E (PList (map PDict rows)))
  = Returns
      (PyStr.join [LF]
         (map (fun d =>
                 PyStr.join (lit ", ")
                   (map (fun kv : str * pyobj =>
                           fst kv ++ lit ": " ++ py_str E (snd kv)) d))
            rows)).
Proof.
  intros Hwf. unfold _format_as_text.
  rewrite (loads_dumps E _ Hwf). cbn [iterate].
  now rewrite comprehension_records.
Qed.

Lemma text_of_records_witness :
  _format_as_text stand_in
    (dumps stand_in
       (PList (map PDict
                 [[(lit "name", PStr (lit "x")); (lit "val", PInt 1)];
                  [(lit "name", PStr (lit "y")); (lit "val", PInt 2)]])))
  = Returns (lit "name: x, val: 1" ++ [LF] ++ lit "name: y, val: 2").
Proof.
  apply (text_of_records stand_in
           [[(lit "name", PStr (lit "x")); (lit "val", PInt 1)];
            [(lit "name", PStr (lit "y")); (lit "val", PInt 2)]]).
  exact example_rows_well_formed.
Defined.

(** X16.  Text mode on an array that holds an item that is not an object
    (a number, a string, a nested array, [null]): the call of [.items()]
    raises [AttributeError], which no [except] clause of the formatter
    catches, so the query ends with that exception and not with a
    string. *)
Theorem text_of_non_record (E : Collaborators) (items : list pyobj) :
  Json.well_formed (float_repr E) (float_of_literal E) (PList items) ->
  Exists (fun item => forall d, item <> PDict d) items ->
  _format_as_text E (dumps E (PList items)) = Raises AttributeError.
Proof.
  intros Hwf Hex. unfold _format_as_text.
  rewrite (loads_dumps E _ Hwf). cbn [iterate].
  now rewrite comprehension_non_record.
Qed.

Lemma text_of_non_record_witness :
  _format_as_text stand_in (dumps stand_in (PList [PInt 1; PInt 2]))
  = Raises AttributeError.
Proof.
  apply (text_of_non_record stand_in [PInt 1; PInt 2]).
  - exact numbers_well_formed.
  - apply Exists_cons_hd. intros d H. discriminate H.
Defined.

(** X17.  CSV mode on the text of a parsed object: a falsy object (an empty
    array or object, [0], the empty string, [null], [false]) gives the
    fixed message without a call to pandas; for any other object the
    answer is what pandas renders, inside a [csv] fence, and an exception
    of pandas is not caught. *)
Theorem csv_of_result (E : Collaborators) (parsed : pyobj) :
  Json.well_formed (float_repr E) (float_of_literal E) parsed ->
  _format_as_csv E (dumps E parsed)
  = if obj_truthy parsed then
      match dataframe_to_csv E parsed with
      | Raises e => Raises e
      | Returns csv => Returns (fence_csv_open ++ csv ++ fence_close)
      end
    else Returns msg_no_csv_data.
Proof.
  intros Hwf. unfold _format_as_csv.
  rewrite (loads_dumps E _ Hwf).
  now destruct (obj_truthy parsed).
Qed.

Lemma csv_of_result_witness :
  _format_as_csv stand_in (dumps stand_in example_rows) = Raises ValueError.
Proof.
  apply (csv_of_result stand_in example_rows).
  exact example_rows_well_formed.
Defined.

Lemma lower_ascii (E : Collaborators) (s : str) :
  forallb PyStr.is_ascii s = true -> lower E s = map PyStr.ascii_tolower s.
Proof. intros H. unfold lower, PyStr.lower. now rewrite H. Qed.

(** X18.  The format is chosen by key word, in any case, and [json] comes
    first: an ASCII query that holds the letters j, s, o, n in a row, each
    in either case, is answered in JSON mode, also when it asks for [csv]
    as well. *)
Theorem json_keyword_selects_json_mode (E : Collaborators)
  (before keyword after data : str) :
  forallb PyStr.is_ascii (before ++ keyword ++ after) = true ->
  map PyStr.ascii_tolower keyword = lit "json" ->
  _format_result E data (before ++ keyword ++ after) = _format_as_json E data.
Proof.
  intros Hascii Hk. unfold _format_result.
  rewrite (lower_ascii E _ Hascii), !map_app, Hk, contains_infix.
  reflexivity.
Qed.

Lemma json_keyword_selects_json_mode_witness :
  _format_result stand_in (lit "[]") (lit "as csv or " ++ lit "JSON" ++ lit "?")
  = _format_as_json stand_in (lit "[]").
Proof.
  apply (json_keyword_selects_json_mode stand_in (lit "as csv or ")
           (lit "JSON") (lit "?") (lit "[]")); reflexivity.
Defined.

(** *** The JSON block is ASCII *)

Lemma ascii_app (a b : str) :
  forallb PyStr.is_ascii a = true -> forallb PyStr.is_ascii b = true ->
  forallb PyStr.is_ascii (a ++ b) = true.
Proof. intros Ha Hb. now rewrite forallb_app, Ha, Hb. Qed.

Lemma ascii_hex_digit (n : N) :
  PyStr.is_ascii (Json.hex_digit (n mod 16)) = true.
Proof.
  unfold PyStr.is_ascii, Json.hex_digit.
  pose proof (N.mod_upper_bound n 16 ltac:(discriminate)) as H.
  apply N.ltb_lt.
  destruct (n mod 16 <? 10)%N; lia.
Qed.

Lemma ascii_u_escape (c : N) : forallb PyStr.is_ascii (Json.u_escape c) = true.
Proof.
  unfold Json.u_escape. cbn [forallb].
  now rewrite !ascii_hex_digit.
Qed.

Lemma ascii_escape_char (c : codepoint) :
  forallb PyStr.is_ascii (Json.escape_char c) = true.
Proof.
  unfold Json.escape_char.
  repeat match goal with
         | |- context [if ?b then _ else _] => destruct b eqn:?
         end;
    try reflexivity; try apply ascii_u_escape;
    try (apply ascii_app; apply ascii_u_escape).
  cbn [forallb]. rewrite andb_true_r. unfold PyStr.is_ascii.
  match goal with
  | H : (_ && (c <=? 126)%N) = true |- _ =>
      apply andb_prop in H; destruct H as [_ H]; apply N.leb_le in H
  end.
  apply N.ltb_lt. lia.
Qed.

Lemma ascii_flat_map (f : codepoint -> str) (s : str) :
  (forall c, forallb PyStr.is_ascii (f c) = true) ->
  forallb PyStr.is_ascii (flat_map f s) = true.
Proof.
  intros H. induction s as [| c s IH]; [reflexivity |].
  cbn [flat_map]. now apply ascii_app.
Qed.

Lemma ascii_encode_string (s : str) :
  forallb PyStr.is_ascii (Json.encode_string s) = true.
Proof.
  unfold Json.encode_string.
  change (QUOTE :: flat_map Json.escape_char s ++ [QUOTE])
    with ([QUOTE] ++ flat_map Json.escape_char s ++ [QUOTE]).
  repeat apply ascii_app; try reflexivity.
  apply ascii_flat_map, ascii_escape_char.
Qed.

Lemma ascii_digits (u : Decimal.uint) :
  forallb PyStr.is_ascii (digits_of_uint u) = true.
Proof. induction u; simpl; [reflexivity | assumption ..]. Qed.

Lemma ascii_int_repr (z : Z) : forallb PyStr.is_ascii (int_repr z) = true.
Proof.
  unfold int_repr. destruct (Z.to_int z); [| cbn [forallb]];
    now rewrite ?ascii_digits.
Qed.

Lemma ascii_repeat_space (n : nat) :
  forallb PyStr.is_ascii (repeat SPACE n) = true.
Proof. induction n as [| n IH]; [reflexivity | exact IH]. Qed.

Lemma ascii_newline_indent (indent : option nat) (level : nat) :
  forallb PyStr.is_ascii (Json.newline_indent indent level) = true.
Proof.
  destruct indent as [k |]; [| reflexivity].
  cbn [Json.newline_indent forallb]. now rewrite ascii_repeat_space.
Qed.

Lemma ascii_item_separator (indent : option nat) (level : nat) :
  forallb PyStr.is_ascii (Json.item_separator indent level) = true.
Proof.
  destruct indent as [k |]; [| reflexivity].
  unfold Json.item_separator. apply ascii_app; [reflexivity |].
  apply ascii_newline_indent.
Qed.

Lemma ascii_join (sep : str) (parts : list str) :
  forallb PyStr.is_ascii sep = true ->
  Forall (fun p => forallb PyStr.is_ascii p = true) parts ->
  forallb PyStr.is_ascii (PyStr.join sep parts) = true.
Proof.
  intros Hsep H. induction H as [| p parts Hp Hparts IH]; [reflexivity |].
  destruct parts as [| q parts]; [exact Hp |].
  change (PyStr.join sep (p :: q :: parts))
    with (p ++ sep ++ PyStr.join sep (q :: parts)).
  now repeat apply ascii_app.
Qed.

Lemma ascii_encode (float_repr : spec_float -> str) (o : pyobj) :
  (forall f, forallb PyStr.is_ascii (float_repr f) = true) ->
  forall indent level,
    forallb PyStr.is_ascii (Json.encode float_repr indent level o) = true.
Proof.
  intros Hfloat.
  induction o as [| [|] | z | f | s | l IH | d IH] using pyobj_induction;
    intros indent level; try reflexivity.
  - apply ascii_int_repr.
  - destruct f as [sg | [|] | | sg m e]; try reflexivity; apply Hfloat.
  - apply ascii_encode_string.
  - destruct l as [| x l]; [reflexivity |].
    rewrite encode_list_cons.
    change (91%N :: ?a) with ([91%N] ++ a).
    repeat apply ascii_app; try reflexivity;
      try apply ascii_newline_indent.
    apply ascii_join; [apply ascii_item_separator |].
    apply Forall_map. revert IH. apply Forall_impl. intros o H. apply H.
  - destruct d as [| p d]; [reflexivity |].
    rewrite encode_dict_cons.
    change (123%N :: ?a) with ([123%N] ++ a).
    repeat apply ascii_app; try reflexivity;
      try apply ascii_newline_indent.
    apply ascii_join; [apply ascii_item_separator |].
    apply Forall_map. revert IH. apply Forall_impl. intros [k v] H.
    unfold Json.member. cbn [fst snd] in *.
    apply ascii_app; [apply ascii_encode_string |].
    apply ascii_app; [reflexivity | apply H].
Qed.

(** X19.  The answer of JSON mode to data that parse is ASCII from end
    to end, whatever the data hold: [json.dumps] writes every other code
    point as a [\u] escape. *)
Theorem json_block_is_ascii (E : Collaborators) (data : str)
  (parsed : pyobj) :
  (forall f, forallb PyStr.is_ascii (float_repr E f) = true) ->
  loads E data = Some parsed ->
  exists out,
    _format_as_json E data = Returns out
    /\ forallb PyStr.is_ascii out = true.
Proof.
  intros Hfloat Hl.
  exists (fence_json_open ++ dumps_indent E 2 parsed ++ fence_close).
  split.
  - unfold _format_as_json. now rewrite Hl.
  - repeat apply ascii_app; try reflexivity.
    now apply ascii_encode.
Qed.

Lemma json_block_is_ascii_witness :
  exists out,
    _format_as_json stand_in
      (lit "[" ++ [QUOTE; 233%N; 128512%N; QUOTE] ++ lit "]")
    = Returns out
    /\ forallb PyStr.is_ascii out = true.
Proof.
  apply (json_block_is_ascii stand_in
           (lit "[" ++ [QUOTE; 233%N; 128512%N; QUOTE] ++ lit "]")
           (PList [PStr [233%N; 128512%N]])).
  - intros f. reflexivity.
  - reflexivity.
Defined.

(** ** [JSONScraper] *)

Lemma error_record_well_formed (E : Collaborators) :
  Json.well_formed (float_repr E) (float_of_literal E)
    JSONScraper.error_record.
Proof.
  apply Json.WfDict.
  - constructor; [intros [] | constructor].
  - constructor; [| constructor].
    split; [reflexivity | now apply Json.WfStr].
Qed.

(** X20.  [JSONScraper.extract] gives back every well-formed object from
    its serialisation, compact or indented. *)
Theorem json_scraper_round_trip (E : Collaborators) (o : pyobj) (k : nat) :
  Json.well_formed (float_repr E) (float_of_literal E) o ->
  JSONScraper.extract E (dumps E o) = o
  /\ JSONScraper.extract E (dumps_indent E k o) = o.
Proof.
  intros Hwf. unfold JSONScraper.extract, loads, dumps, dumps_indent,
    Json.dumps, Json.dumps_indent.
  now rewrite !(loads_encode (float_repr E) (float_of_literal E) _ o Hwf).
Qed.

Lemma json_scraper_round_trip_witness :
  JSONScraper.extract stand_in (dumps stand_in example_rows) = example_rows
  /\ JSONScraper.extract stand_in (dumps_indent stand_in 4 example_rows)
     = example_rows.
Proof.
  apply (json_scraper_round_trip stand_in example_rows 4).
  exact example_rows_well_formed.
Defined.

(** X21.  The error record of [JSONScraper.extract] is in band: content
    that does not parse gives the same result as a valid document, the
    serialised error record, so a caller cannot tell the two apart from
    the result. *)
Theorem json_scraper_error_in_band (E : Collaborators) (content : str) :
  loads E content = None ->
  exists valid,
    loads E valid = Some JSONScraper.error_record
    /\ JSONScraper.extract E valid = JSONScraper.extract E content.
Proof.
  intros H. exists (dumps E JSONScraper.error_record).
  pose proof (loads_dumps E _ (error_record_well_formed E)) as Hl.
  split; [exact Hl |].
  unfold JSONScraper.extract. now rewrite Hl, H.
Qed.

Lemma json_scraper_error_in_band_witness :
  exists valid,
    loads stand_in valid = Some JSONScraper.error_record
    /\ JSONScraper.extract stand_in valid
       = JSONScraper.extract stand_in (lit "{oops").
Proof.
  apply (json_scraper_error_in_band stand_in (lit "{oops")).
  reflexivity.
Defined.

Lemma skip_ws_blank (s : str) :
  forallb Json.is_ws s = true -> Json.skip_ws s = [].
Proof.
  induction s as [| c s IH]; [reflexivity |].
  cbn [forallb Json.skip_ws]. intros H.
  apply andb_prop in H. destruct H as [Hc Hs].
  rewrite Hc. now apply IH.
Qed.

(** X22.  Content that is empty or JSON white space only is not a JSON
    document: [JSONScraper.extract] answers it with the error record. *)
Theorem json_scraper_blank_content (E : Collaborators) (content : str) :
  forallb Json.is_ws content = true ->
  JSONScraper.extract E content = JSONScraper.error_record.
Proof.
  intros H. unfold JSONScraper.extract, loads, Json.loads.
  destruct (PyStr.startswith content [65279%N]); [reflexivity |].
  rewrite (skip_ws_blank content H).
  remember (2 * List.length content + 2) as fuel eqn:Hfuel.
  destruct fuel as [| fuel]; reflexivity.
Qed.

Lemma json_scraper_blank_content_witness :
  JSONScraper.extract stand_in [SPACE; LF; 9%N] = JSONScraper.error_record.
Proof.
  apply (json_scraper_blank_content stand_in [SPACE; LF; 9%N]).
  reflexivity.
Defined.

(** ** Scenarios of the specification, run on the stand-in collaborators *)

(** A URL is acknowledged with a sentence that holds "fetched and
    preprocessed" and the URL. *)
Example scenario_fetch :
  fst (process_query stand_in init example_url)
  = Returns (lit "I've fetched and preprocessed the content from https://example.com. What would you like to know about it?").
Proof. reflexivity. Qed.

(** A completion with an array in free text and a query that says "json":
    a fenced block with two-space indentation. *)
Example scenario_json :
  parse_response stand_in example_completion (lit "Give it in JSON format")
  = Returns (lit "```json" ++ [LF] ++ lit "[" ++ [LF] ++ lit "  {" ++ [LF]
             ++ lit "    " ++ [QUOTE] ++ lit "a" ++ [QUOTE] ++ lit ": 1" ++ [LF]
             ++ lit "  }" ++ [LF] ++ lit "]" ++ [LF] ++ lit "```").
Proof. vm_compute. reflexivity. Qed.

(** The same completion with a query that names no format: one line per
    record. *)
Example scenario_text :
  parse_response stand_in example_completion (lit "What is there?")
  = Returns (lit "a: 1").
Proof. vm_compute. reflexivity. Qed.

(** A completion without brackets. *)
Example scenario_no_brackets :
  parse_response stand_in (lit "I do not know.") (lit "as json")
  = Returns msg_could_not_extract.
Proof. reflexivity. Qed.

(** The decoder on a text with escapes, nesting and white space. *)
Example loads_sample :
  loads stand_in
    (lit " [ {" ++ [QUOTE] ++ lit "k\u00e9\n" ++ [QUOTE]
     ++ lit " : [null, true, -12, {}]} , [] ] ")
  = Some (PList [PDict [([107; 233; 10]%N,
                         PList [PNone; PBool true; PInt (-12); PDict []])];
                 PList []]).
Proof. vm_compute. reflexivity. Qed.

(** A trailing comma, a leading zero and an unterminated array are
    rejected. *)
Example loads_rejects :
  loads stand_in (lit "[1,]") = None
  /\ loads stand_in (lit "[01]") = None
  /\ loads stand_in (lit "[1, 2") = None.
Proof. repeat split; vm_compute; reflexivity. Qed.

(** A later duplicate of a key replaces the value and keeps the place. *)
Example loads_duplicate_key :
  loads stand_in
    (lit "{" ++ [QUOTE] ++ lit "a" ++ [QUOTE] ++ lit ": 1, " ++ [QUOTE]
     ++ lit "b" ++ [QUOTE] ++ lit ": 2, " ++ [QUOTE] ++ lit "a" ++ [QUOTE]
     ++ lit ": 3}")
  = Some (PDict [(lit "a", PInt 3); (lit "b", PInt 2)]).
Proof. vm_compute. reflexivity. Qed.

Example str_methods :
  PyStr.find (lit "ab[c]") (lit "[") = 2%Z
  /\ PyStr.rfind (lit "a]b[c]d") (lit "]") = 5%Z
  /\ PyStr.rfind (lit "abc") (lit "]") = (-1)%Z
  /\ PyStr.splitlines [97; 13; 10; 98; 10; 10; 99; 10]%N
     = [[97]; [98]; []; [99]]%N
  /\ PyStr.split (lit "a  b ") SPACE = [lit "a"; []; lit "b"; []]
  /\ PyStr.strip (lit "  a b  ") = lit "a b"
  /\ PyStr.slice (lit "abcdef") 2 0 = []
  /\ PyStr.slice (lit "abcdef") (-3) 5 = lit "de".
Proof. repeat split; reflexivity. Qed.
